(** * buzzard: the DataSource registry and the GDAL file raster

    A shallow embedding of [buzzard/_datasource.py] and
    [buzzard/_gdal_file_raster.py].  Python exceptions become an explicit
    error result, objects mutated in place become explicit state, numpy
    arrays become nested lists with a dtype tag, and the collaborators that
    live in other modules of the package (the Footprint class, the remapping
    mixin, the driver pool) are either modelled from the specification or
    taken as the fields of a class of collaborators. *)

From Stdlib Require Import ZArith Lia.
From stdpp Require Import base option numbers list strings gmap.

Local Open Scope Z_scope.

(** ** Python results *)

Module Py.

(** An exception: its class name and its message (format arguments are
    left out of the message). *)
Inductive exn : Type :=
| Exc (cls msg : string).

Inductive result (A : Type) : Type :=
| Return (a : A)
| Raise (e : exn).

Arguments Return {A} a.
Arguments Raise {A} e.

Definition bind {A B} (m : result A) (f : A -> result B) : result B :=
  match m with
  | Return a => f a
  | Raise e => Raise e
  end.

Notation "'let*' x := m 'in' k" := (bind m (fun x => k))
  (at level 10, x pattern, m at level 100, k at level 200, only parsing).

Definition TypeError : string -> exn := Exc "TypeError".
Definition ValueError : string -> exn := Exc "ValueError".
Definition RuntimeError : string -> exn := Exc "RuntimeError".
Definition AttributeError : string -> exn := Exc "AttributeError".
Definition KeyError : string -> exn := Exc "KeyError".
Definition AssertionError : exn := Exc "AssertionError" "".

(** [assert c] *)
Definition py_assert (c : bool) : result unit :=
  if c then Return tt else Raise AssertionError.

Definition returns {A} (r : result A) : bool :=
  match r with Return _ => true | Raise _ => false end.

(** [s.lower()] on the ASCII letters; the other bytes of a string are
    kept. *)
Definition lower_ascii (c : Ascii.ascii) : Ascii.ascii :=
  let n := Ascii.nat_of_ascii c in
  if (65 <=? n)%nat && (n <=? 90)%nat then Ascii.ascii_of_nat (n + 32) else c.

Fixpoint lower (s : string) : string :=
  match s with
  | EmptyString => EmptyString
  | String c rest => String (lower_ascii c) (lower rest)
  end.

(** A list comprehension [[f x for x in l]] whose element may raise: the
    elements are computed from left to right. *)
Fixpoint list_comp {A B} (f : A -> result B) (l : list A) : result (list B) :=
  match l with
  | [] => Return []
  | x :: rest =>
      let* y := f x in
      let* ys := list_comp f rest in
      Return (y :: ys)
  end.

End Py.
Export Py.

(** ** Footprints *)

Module Footprint.

(** Modelled from the spec: the Footprint class ([buzzard/_footprint.py]) is
    not among the sources.  A footprint carries an affine transform
    [(origin, ax, ay)], where [ax] and [ay] are the world vectors of one
    pixel step along a row and along a column, and a raster size.  World
    coordinates are exact integers here (a fixed-point unit); the source
    builds a footprint from a GDAL geotransform and a raster size. *)
Record Footprint : Type := mkFootprint {
  origin : Z * Z;
  ax : Z * Z;
  ay : Z * Z;
  rsizex : Z;
  rsizey : Z;
}.

Definition det (fp : Footprint) : Z :=
  (ax fp).1 * (ay fp).2 - (ax fp).2 * (ay fp).1.

(** The spec's invariants: [rx, ry >= 1] and [ax], [ay] linearly independent. *)
Definition wf (fp : Footprint) : bool :=
  (1 <=? rsizex fp) && (1 <=? rsizey fp) && negb (det fp =? 0).

(** Top left corner, and the numpy shape [(ry, rx)]. *)
Definition tl (fp : Footprint) : Z * Z := origin fp.
Definition shape (fp : Footprint) : nat * nat :=
  (Z.to_nat (rsizey fp), Z.to_nat (rsizex fp)).

(** The inverse affine map scaled by [det]: the point [pt] lies at column
    [col_num / det] and row [row_num / det]. *)
Definition col_num (fp : Footprint) (pt : Z * Z) : Z :=
  (pt.1 - (origin fp).1) * (ay fp).2 - (pt.2 - (origin fp).2) * (ay fp).1.
Definition row_num (fp : Footprint) (pt : Z * Z) : Z :=
  (pt.2 - (origin fp).2) * (ax fp).1 - (pt.1 - (origin fp).1) * (ax fp).2.

(** Modelled from the spec: [spatial_to_raster(pt) -> (col, row)] is the
    inverse affine map, exact on grid nodes; elsewhere the spec leaves the
    rounding open, and the quotient is floored. *)
Definition spatial_to_raster (fp : Footprint) (pt : Z * Z) : Z * Z :=
  (col_num fp pt / det fp, row_num fp pt / det fp).

Definition raster_to_spatial (fp : Footprint) (rc : Z * Z) : Z * Z :=
  ((origin fp).1 + rc.1 * (ax fp).1 + rc.2 * (ay fp).1,
   (origin fp).2 + rc.1 * (ax fp).2 + rc.2 * (ay fp).2).

Definition on_grid (fp : Footprint) (pt : Z * Z) : bool :=
  (col_num fp pt mod det fp =? 0) && (row_num fp pt mod det fp =? 0).

(** Modelled from the spec: [same_grid(other)].  Two footprints share a
    grid iff their pixel vectors are equal and their origin offset is an
    integer combination of [(ax, ay)]. *)
Definition same_grid (a b : Footprint) : bool :=
  bool_decide (ax a = ax b) && bool_decide (ay a = ay b) && on_grid a (origin b).

(** The four corners of the bounding parallelogram. *)
Definition corners (fp : Footprint) : list (Z * Z) :=
  [raster_to_spatial fp (0, 0); raster_to_spatial fp (rsizex fp, 0);
   raster_to_spatial fp (0, rsizey fp); raster_to_spatial fp (rsizex fp, rsizey fp)].

Definition dot (u v : Z * Z) : Z := u.1 * v.1 + u.2 * v.2.
Definition perp (u : Z * Z) : Z * Z := (- u.2, u.1).

Definition proj_min (n : Z * Z) (fp : Footprint) : Z :=
  foldr Z.min (dot n (origin fp)) (dot n <$> corners fp).
Definition proj_max (n : Z * Z) (fp : Footprint) : Z :=
  foldr Z.max (dot n (origin fp)) (dot n <$> corners fp).

Definition overlap_along (n : Z * Z) (a b : Footprint) : bool :=
  (proj_min n a <? proj_max n b) && (proj_min n b <? proj_max n a).

(** Modelled from the spec: [share_area(other)] is polygon overlap > 0.
    Two parallelograms have interiors that meet iff no edge direction of
    either separates them. *)
Definition share_area (a b : Footprint) : bool :=
  forallb (fun n => overlap_along n a b)
          [perp (ax a); perp (ay a); perp (ax b); perp (ay b)].

(** The sub-footprint of [fp] whose top left pixel is [(c, r)]. *)
Definition window (fp : Footprint) (c r w h : Z) : Footprint :=
  {| origin := raster_to_spatial fp (c, r); ax := ax fp; ay := ay fp;
     rsizex := w; rsizey := h |}.

Definition NoOverlap : exn := Exc "NoOverlap" "".

(** Modelled from the spec: [intersection(other)] on a shared grid.  The
    origin is the max of the two origins projected on the grid, the size is
    the pixel-count overlap, and disjoint footprints fail with [NoOverlap]. *)
Definition intersection_same_grid (a b : Footprint) : result Footprint :=
  let '(i, j) := spatial_to_raster a (tl b) in
  let i0 := Z.max 0 i in
  let j0 := Z.max 0 j in
  let i1 := Z.min (rsizex a) (i + rsizex b) in
  let j1 := Z.min (rsizey a) (j + rsizey b) in
  if (i0 <? i1) && (j0 <? j1)
  then Return (window a i0 j0 (i1 - i0) (j1 - j0))
  else Raise NoOverlap.

(** [b] lies inside [a], pixel for pixel (both on one grid). *)
Definition contains (a b : Footprint) : bool :=
  let '(i, j) := spatial_to_raster a (tl b) in
  same_grid a b && (0 <=? i) && (i + rsizex b <=? rsizex a)
  && (0 <=? j) && (j + rsizey b <=? rsizey a).

(** [q] sits in [f] with its top left pixel at column [ox] and row [oy]. *)
Definition placed (f q : Footprint) (ox oy : Z) : Prop :=
  spatial_to_raster f (tl q) = (ox, oy) /\
  0 <= ox /\ 0 <= oy /\
  ox + rsizex q <= rsizex f /\ oy + rsizey q <= rsizey f /\
  1 <= rsizex q /\ 1 <= rsizey q.

(** One axis of [tile]: the [(start, size)] of each tile along an axis of
    [len] pixels, for tiles of [size] pixels that overlap by [overlap]. *)
Inductive boundary_effect : Type := shrink | exclude | overlap | exception.

Fixpoint full_tiles (n : nat) (start size stride len : Z) : list (Z * Z) :=
  match n with
  | O => []
  | S n' =>
      if start + size <=? len
      then (start, size) :: full_tiles n' (start + stride) size stride len
      else []
  end.

Definition tile_axis (len size ovl : Z) (be : boundary_effect)
  : result (list (Z * Z)) :=
  let stride := size - ovl in
  let full := full_tiles (Z.to_nat len) 0 size stride len in
  let next := Z.of_nat (length full) * stride in
  if (next + ovl <? len)
  then match be with
       | shrink => Return (full ++ [(next, len - next)])
       | exclude => Return full
       | overlap => Return (full ++ [(len - size, size)])
       | exception =>
           Raise (ValueError "tiles do not evenly divide the footprint")
       end
  else Return full.

(** Modelled from the spec: [tile(shape, ox, oy, boundary_effect)] generates
    a [(TY, TX)] grid of footprints; [shrink] clips the last row and column,
    [exclude] drops partial tiles, [overlap] shifts the last tiles backward
    to remain full-size, [exception] fails if the shape does not evenly
    divide.  The parameters are checked here. *)
Definition tile (fp : Footprint) (size : Z * Z) (overlapx overlapy : Z)
    (be : boundary_effect) : result (list (list Footprint)) :=
  if negb ((1 <=? size.1) && (1 <=? size.2))
  then Raise (ValueError "`size` should be a pair of positive integers")
  else if negb ((0 <=? overlapx) && (overlapx <? size.1)
                && (0 <=? overlapy) && (overlapy <? size.2))
  then Raise (ValueError "overlaps should be non-negative and smaller than `size`")
  else
    let* xs := tile_axis (rsizex fp) size.1 overlapx be in
    let* ys := tile_axis (rsizey fp) size.2 overlapy be in
    Return ((fun y : Z * Z =>
               (fun x : Z * Z => window fp x.1 y.1 x.2 y.2) <$> xs) <$> ys).

(** The pixel rectangle [(col, row, width, height)] of [t] on the grid of [fp]. *)
Definition rect_in (fp t : Footprint) : Z * Z * Z * Z :=
  let '(i, j) := spatial_to_raster fp (tl t) in (i, j, rsizex t, rsizey t).

Definition rect_has (r : Z * Z * Z * Z) (x y : Z) : bool :=
  let '(i, j, w, h) := r in
  (i <=? x) && (x <? i + w) && (j <=? y) && (y <? j + h).

Definition rect_inside (r : Z * Z * Z * Z) (w h : Z) : bool :=
  let '(i, j, rw, rh) := r in
  (0 <=? i) && (i + rw <=? w) && (0 <=? j) && (j + rh <=? h).

Definition rect_disjoint (r s : Z * Z * Z * Z) : bool :=
  let '(i, j, w, h) := r in
  let '(i', j', w', h') := s in
  (i + w <=? i') || (i' + w' <=? i) || (j + h <=? j') || (j' + h' <=? j).

Fixpoint pairwise_disjoint (rs : list (Z * Z * Z * Z)) : bool :=
  match rs with
  | [] => true
  | r :: rest => forallb (rect_disjoint r) rest && pairwise_disjoint rest
  end.

(** Every pixel [(x, y)] of a raster of [w] by [h] pixels. *)
Definition all_pixels (w h : Z) : list (Z * Z) :=
  y ← seqZ 0 h; (fun x => (x, y)) <$> seqZ 0 w.

End Footprint.
Export Footprint.

(** ** numpy arrays *)

Module Np.

(** The integer dtypes; floating point rasters are outside the embedding. *)
Inductive dtype : Type :=
| uint8 | int8 | uint16 | int16 | uint32 | int32 | uint64 | int64.

#[global] Instance dtype_eq_dec : EqDecision dtype.
Proof. solve_decision. Defined.

Definition bits (dt : dtype) : Z :=
  match dt with
  | uint8 | int8 => 8
  | uint16 | int16 => 16
  | uint32 | int32 => 32
  | uint64 | int64 => 64
  end.

Definition signed (dt : dtype) : bool :=
  match dt with
  | int8 | int16 | int32 | int64 => true
  | _ => false
  end.

Definition dtype_min (dt : dtype) : Z :=
  if signed dt then - 2 ^ (bits dt - 1) else 0.
Definition dtype_max (dt : dtype) : Z :=
  if signed dt then 2 ^ (bits dt - 1) - 1 else 2 ^ bits dt - 1.

Definition in_range (dt : dtype) (v : Z) : bool :=
  (dtype_min dt <=? v) && (v <=? dtype_max dt).

(** The value of [dt] that is nearest to [v]. *)
Definition clamp (dt : dtype) (v : Z) : Z :=
  Z.max (dtype_min dt) (Z.min v (dtype_max dt)).

(** Conversion of an integer to [dt]: the low [bits dt] bits, read signed
    or unsigned (numpy's C cast). *)
Definition cast (dt : dtype) (v : Z) : Z :=
  let m := v mod 2 ^ bits dt in
  if signed dt && (2 ^ (bits dt - 1) <=? m) then m - 2 ^ bits dt else m.

(** An array with three axes: its dtype, its shape [(h, w, c)] and its
    cells, as rows of pixels of channels. *)
Record ndarray : Type := mkArray {
  dtype_of : dtype;
  shape_of : nat * nat * nat;
  data : list (list (list Z));
}.

(** A two-dimensional array (one band), and a boolean mask. *)
Abbreviation matrix := (list (list Z)).
Abbreviation mask := (list (list bool)).

(** The cells [d] are those of a regular array of shape [(h, w, c)]. *)
Definition has_shape (d : list (list (list Z))) (h w c : nat) : Prop :=
  length d = h /\
  Forall (fun row => length row = w /\ Forall (fun px => length px = c) row) d.

Definition matrix_shape {A} (m : list (list A)) (h w : nat) : Prop :=
  length m = h /\ Forall (fun row => length row = w) m.

(** [a.shape[0]] and [a.shape[1]] of a two-dimensional array with a row. *)
Definition nrows {A} (m : list (list A)) : nat := length m.
Definition ncols {A} (m : list (list A)) : nat := length (hd [] m).

(** The cell of [m] at row [y] and column [x], if any. *)
Definition cell {A} (m : list (list A)) (y x : Z) : option A :=
  if (0 <=? y) && (0 <=? x)
  then match m !! Z.to_nat y with
       | Some row => row !! Z.to_nat x
       | None => None
       end
  else None.

(** The array of [h] rows and [w] columns whose cell [(y, x)] is [f y x]. *)
Definition tabulate2 {A} (h w : nat) (f : nat -> nat -> A) : list (list A) :=
  (fun y : nat => (fun x : nat => f y x) <$> seq 0 w) <$> seq 0 h.

(** [d[y, x, i]] *)
Definition get3 (d : list (list (list Z))) (y x i : nat) : option Z :=
  match d !! y with
  | Some row => match row !! x with Some px => px !! i | None => None end
  | None => None
  end.

(** The checks behind [matrix_shape] and [has_shape]. *)
Definition matrix_ok {A} (h w : nat) (m : list (list A)) : bool :=
  (length m =? h)%nat && forallb (fun row => (length row =? w)%nat) m.

Definition array_ok (a : ndarray) (sh : nat * nat) (c : nat) : bool :=
  bool_decide (shape_of a = (sh.1, sh.2, c))
  && (length (data a) =? sh.1)%nat
  && forallb (fun row : list (list Z) =>
                (length row =? sh.2)%nat
                && forallb (fun px : list Z => (length px =? c)%nat) row)
             (data a).

(** [np.full(np.r_[shape, c], v, dt)] *)
Definition full (sh : nat * nat) (c : nat) (v : Z) (dt : dtype) : ndarray :=
  mkArray dt (sh.1, sh.2, c)
          (replicate sh.1 (replicate sh.2 (replicate c (cast dt v)))).

(** [np.empty(np.r_[shape, c], dt)]: the contents are unspecified; every
    cell is overwritten before it is read, and zeros stand for them. *)
Definition empty (sh : nat * nat) (c : nat) (dt : dtype) : ndarray :=
  mkArray dt (sh.1, sh.2, c) (replicate sh.1 (replicate sh.2 (replicate c 0))).

(** [np.ones(shape, bool)] *)
Definition ones (sh : nat * nat) : mask :=
  replicate sh.1 (replicate sh.2 true).

(** [a.astype(dt, copy=False)]: the array itself when it has that dtype. *)
Definition astype (dt : dtype) (a : ndarray) : ndarray :=
  if decide (dtype_of a = dt) then a
  else mkArray dt (shape_of a)
               ((fun row : list (list Z) =>
                   (fun px : list Z => cast dt <$> px) <$> row) <$> data a).

(** [a[:, :, i]] *)
Definition chan (i : nat) (d : list (list (list Z))) : matrix :=
  (fun row : list (list Z) => (fun px : list Z => default 0 (px !! i)) <$> row) <$> d.

(** [a[..., i] = m], for [m] of the shape of [a[..., i]]. *)
Definition set_chan (i : nat) (m : matrix) (d : list (list (list Z)))
  : list (list (list Z)) :=
  imap (fun (y : nat) (row : list (list Z)) =>
          imap (fun (x : nat) (px : list Z) =>
                  match cell m (Z.of_nat y) (Z.of_nat x) with
                  | Some v => <[i:=v]> px
                  | None => px
                  end) row) d.

(** A slice [slice(start, stop)] with non-negative bounds; [stop = None]
    runs to the end. *)
Record slice : Type := mkSlice { start : nat; stop : option nat }.

Definition getslice {A} (sl : slice) (l : list A) : list A :=
  match stop sl with
  | None => drop (start sl) l
  | Some e => take (e - start sl) (drop (start sl) l)
  end.

(** [m[sl]] for a pair of slices (rows, columns). *)
Definition getitem2 {A} (sl : slice * slice) (m : list (list A)) : list (list A) :=
  getslice sl.2 <$> getslice sl.1 m.

(** The window of [w] by [h] cells of [m] whose top left cell is [(x, y)];
    [fill] stands for a cell that [m] does not have. *)
Definition crop {A} (fill : A) (x y : Z) (w h : nat) (m : list (list A))
  : list (list A) :=
  tabulate2 h w (fun r c => default fill (cell m (Z.of_nat r + y) (Z.of_nat c + x))).

(** [m] with the cells of [a] written from [(x, y)] on. *)
Definition paste {A} (x y : Z) (a m : list (list A)) : list (list A) :=
  imap (fun (r : nat) (row : list A) =>
          imap (fun (c : nat) (v : A) =>
                  default v (cell a (Z.of_nat r - y) (Z.of_nat c - x))) row) m.

(** A slice [slice(start, stop)] of Python integers; a negative bound
    counts from the end of the axis. *)
Record int_slice : Type := mkIntSlice { istart : Z; istop : Z }.

(** [slice(start, stop).indices(len)]: where a bound lands on an axis of
    [len] cells. *)
Definition clip_index (len : nat) (i : Z) : nat :=
  Z.to_nat (if i <? 0 then Z.max 0 (i + Z.of_nat len) else Z.min i (Z.of_nat len)).

Definition in_slice (len : nat) (sl : int_slice) (k : nat) : bool :=
  (clip_index len (istart sl) <=? k)%nat && (k <? clip_index len (istop sl))%nat.

Definition slice_length (len : nat) (sl : int_slice) : nat :=
  (clip_index len (istop sl) - clip_index len (istart sl))%nat.

(** The cell [(y, x)] of an array of [h] by [w] cells is one of
    [a[yslice, xslice]]. *)
Definition in_region (h w : nat) (sls : int_slice * int_slice) (y x : nat) : bool :=
  in_slice h sls.1 y && in_slice w sls.2 x.

(** [np.zeros(shape, 'bool')] *)
Definition zeros (sh : nat * nat) : mask :=
  replicate sh.1 (replicate sh.2 false).

(** [np.all(m)] *)
Definition all_true (m : mask) : bool := forallb (forallb id) m.

(** [np.all(m[slices] == False)] *)
Definition region_clear (sls : int_slice * int_slice) (m : mask) : bool :=
  forallb id
    (imap (fun (y : nat) (row : list bool) =>
             forallb id
               (imap (fun (x : nat) (v : bool) =>
                        negb (in_region (nrows m) (length row) sls y x && v)) row))
          m).

(** [m[slices] = True] *)
Definition region_set (sls : int_slice * int_slice) (m : mask) : mask :=
  imap (fun (y : nat) (row : list bool) =>
          imap (fun (x : nat) (v : bool) =>
                  in_region (nrows m) (length row) sls y x || v) row) m.

(** Each cell of an array of [h] by [w] cells is one of exactly one of the
    regions [sl]. *)
Definition covered_once (h w : nat) (sl : list (int_slice * int_slice)) : bool :=
  forallb (fun y : nat =>
             forallb (fun x : nat =>
                        (length (List.filter (fun s => in_region h w s y x) sl) =? 1)%nat)
                     (seq 0 w))
          (seq 0 h).

(** numpy's broadcasting of one axis: an axis of [src] cells is read as one
    of [dst] cells when the two are equal or [src] is one. *)
Definition broadcasts (src dst : nat) : bool :=
  (src =? dst)%nat || (src =? 1)%nat.

Definition bcast (src k : nat) : nat := if (src =? 1)%nat then 0%nat else k.

(** The cell [(y, x, i)] of [a] broadcast to a larger shape. *)
Definition broadcast_get (a : ndarray) (y x i : nat) : option Z :=
  let '(h, w, c) := shape_of a in
  get3 (data a) (bcast h y) (bcast w x) (bcast c i).

(** A value of an array of dtype [from] stored in an array of dtype [to]. *)
Definition convert (from to : dtype) (v : Z) : Z :=
  if decide (from = to) then v else cast to v.

(** [dst[yslice, xslice] = src] for arrays with three axes. *)
Definition setitem (sls : int_slice * int_slice) (src dst : ndarray) : result ndarray :=
  let '(h, w, c) := shape_of dst in
  let '(sh, sw, sc) := shape_of src in
  let y0 := clip_index h (istart sls.1) in
  let x0 := clip_index w (istart sls.2) in
  if broadcasts sh (slice_length h sls.1) && broadcasts sw (slice_length w sls.2)
     && broadcasts sc c
  then Return
         (mkArray (dtype_of dst) (shape_of dst)
            (imap (fun (y : nat) (row : list (list Z)) =>
                     imap (fun (x : nat) (px : list Z) =>
                             if in_region h w sls y x
                             then imap (fun (i : nat) (old : Z) =>
                                          from_option
                                            (convert (dtype_of src) (dtype_of dst)) old
                                            (broadcast_get src (y - y0) (x - x0) i)) px
                             else px) row)
                  (data dst)))
  else Raise (ValueError "could not broadcast input array").

End Np.
Export Np.

(** ** GDAL driver objects *)

Module Gdal.

(** The native driver is an external collaborator with a small read/write
    API: a dataset is a list of bands of [RasterXSize] by [RasterYSize]
    cells, each band with its mask band; it is opened read-only or for
    update.  [ReadAsArray] answers [None] and [WriteArray] writes nothing
    when the window leaves the raster; [WriteArray] writes nothing on a
    dataset opened read-only.  The mask of a band is kept as a matrix of its
    own, which is what a read of the mask needs; what GDAL makes of a write
    to a mask depends on the kind of the mask (implicit and read-only,
    derived from the nodata value, or one for the whole dataset), which a
    dataset does not keep: the laws of writing are stated for the raster
    bands. *)
Record band : Type := mkBand { pixels : matrix; maskpixels : matrix }.

Record dataset : Type := mkDataset {
  update : bool;
  RasterXSize : Z;
  RasterYSize : Z;
  bands : list band;
}.

(** A band object of an open dataset (bands are counted from 0 here). *)
Inductive band_ref : Type :=
| RasterBand (k : nat)
| MaskBand (k : nat).

#[global] Instance band_ref_eq_dec : EqDecision band_ref.
Proof. solve_decision. Defined.

Definition ref_index (r : band_ref) : nat :=
  match r with RasterBand k | MaskBand k => k end.

Definition GetRasterBand (ds : dataset) (n : Z) : option band_ref :=
  if (1 <=? n) && (n <=? Z.of_nat (length (bands ds)))
  then Some (RasterBand (Z.to_nat (n - 1))) else None.

Definition GetMaskBand (b : band_ref) : band_ref :=
  match b with RasterBand k | MaskBand k => MaskBand k end.

Definition cells (ds : dataset) (b : band_ref) : matrix :=
  match b with
  | RasterBand k => default [] (pixels <$> bands ds !! k)
  | MaskBand k => default [] (maskpixels <$> bands ds !! k)
  end.

Definition set_cells (ds : dataset) (b : band_ref) (m : matrix) : dataset :=
  let upd (f : band -> band) (k : nat) :=
    mkDataset (update ds) (RasterXSize ds) (RasterYSize ds)
              (alter f k (bands ds)) in
  match b with
  | RasterBand k => upd (fun bd => mkBand m (maskpixels bd)) k
  | MaskBand k => upd (fun bd => mkBand (pixels bd) m) k
  end.

Definition window_ok (ds : dataset) (xoff yoff xsize ysize : Z) : bool :=
  (0 <=? xoff) && (0 <=? yoff) && (0 <=? xsize) && (0 <=? ysize)
  && (xoff + xsize <=? RasterXSize ds) && (yoff + ysize <=? RasterYSize ds).

Definition ReadAsArray (ds : dataset) (b : band_ref) (xoff yoff xsize ysize : Z)
  : option matrix :=
  if window_ok ds xoff yoff xsize ysize
  then Some (crop 0 xoff yoff (Z.to_nat xsize) (Z.to_nat ysize) (cells ds b))
  else None.

Definition WriteArray (ds : dataset) (b : band_ref) (a : matrix) (xoff yoff : Z)
  : dataset :=
  if update ds
     && window_ok ds xoff yoff (Z.of_nat (ncols a)) (Z.of_nat (nrows a))
  then set_cells ds b (paste xoff yoff a (cells ds b))
  else ds.

(** [band.Fill(value)] on a band of type [dt] (a dataset does not keep the
    type of its bands, the caller names it): every cell of the band takes
    [value], brought into the range of [dt]; like [WriteArray], it writes
    nothing on a dataset opened read-only.  What GDAL makes of it on a mask
    band depends on the kind of the mask, which a dataset does not keep
    either: the laws of [fill] are stated for raster bands. *)
Definition Fill (dt : dtype) (ds : dataset) (b : band_ref) (value : Z) : dataset :=
  if update ds
  then set_cells ds b
         ((fun row : list Z => (fun _ : Z => clamp dt value) <$> row) <$> cells ds b)
  else ds.

(** A file of [w] by [h] cells whose bands and mask bands are all of that
    size. *)
Definition dataset_ok (w h : Z) (ds : dataset) : bool :=
  (RasterXSize ds =? w) && (RasterYSize ds =? h)
  && forallb (fun bd =>
                matrix_ok (Z.to_nat h) (Z.to_nat w) (pixels bd)
                && matrix_ok (Z.to_nat h) (Z.to_nat w) (maskpixels bd))
             (bands ds).

(** [gdal.OpenEx(path, flags, [driver], options)] on the files [fs]; [None]
    when nothing opens. *)
Definition OpenEx (fs : gmap string dataset) (path : string) (for_update : bool)
  : option dataset :=
  (fun d => mkDataset for_update (RasterXSize d) (RasterYSize d) (bands d))
    <$> fs !! path.

(** What a file holds, whatever the mode it was last opened in. *)
Definition stored (d : dataset) : Z * Z * list band :=
  (RasterXSize d, RasterYSize d, bands d).

(** The driver object that [OpenEx] answers for update on the file [d]. *)
Definition reopened (d : dataset) : dataset :=
  mkDataset true (RasterXSize d) (RasterYSize d) (bands d).

(** A driver object of a raster of footprint size [w] by [h]. *)
Definition opened (w h : Z) (gds : dataset) : Prop :=
  RasterXSize gds = w /\ RasterYSize gds = h.

End Gdal.
Export Gdal.

(** ** The back data source: drivers, pool and lifecycle *)

Module DatasourceBack.

(** A number that may be [np.inf] (the default of [max_active]). *)
Inductive number : Type :=
| Finite (n : Z)
| Inf.

Definition lt_number (a b : number) : bool :=
  match a, b with
  | Finite x, Finite y => x <? y
  | Finite _, Inf => true
  | Inf, _ => false
  end.

Definition eq_number (a b : number) : bool :=
  match a, b with
  | Finite x, Finite y => x =? y
  | Inf, Inf => true
  | _, _ => false
  end.

Inductive event : Type :=
| StopScheduler
| JoinAllPools
| ProxyClose (uid : nat)
| Acquire (uid : nat).

(** The attributes [BackDataSource(...)] is built with in [__init__], and
    what the back owns besides: the raster files its allocators open, the
    pool of active driver objects (the uid of their source, least recently
    used first) and the journal of lifecycle events. *)
Record BackDataSource : Type := mkBack {
  wkt_work : option string;
  wkt_fallback : option string;
  wkt_forced : option string;
  analyse_transformation : bool;
  allow_none_geometry : bool;
  allow_interpolation : bool;
  max_active : number;
  ds_id : nat;
  debug_observers : list nat;
  files : gmap string dataset;
  active : list nat;
  journal : list event;
}.

Definition set_files (b : BackDataSource) (fs : gmap string dataset) :=
  mkBack (wkt_work b) (wkt_fallback b) (wkt_forced b) (analyse_transformation b)
         (allow_none_geometry b) (allow_interpolation b) (max_active b)
         (ds_id b) (debug_observers b) fs (active b) (journal b).

Definition set_active (b : BackDataSource) (pool : list nat) :=
  mkBack (wkt_work b) (wkt_fallback b) (wkt_forced b) (analyse_transformation b)
         (allow_none_geometry b) (allow_interpolation b) (max_active b)
         (ds_id b) (debug_observers b) (files b) pool (journal b).

Definition log_event (b : BackDataSource) (e : event) :=
  mkBack (wkt_work b) (wkt_fallback b) (wkt_forced b) (analyse_transformation b)
         (allow_none_geometry b) (allow_interpolation b) (max_active b)
         (ds_id b) (debug_observers b) (files b) (active b) (journal b ++ [e]).

(** Modelled from the spec: the driver activation pool (section 4.3) is not
    among the sources.  A source that is present moves to the most recently
    used end; an absent one is inserted, after the least recently used
    driver is deactivated when [max_active] drivers are live. *)
Definition pool_insert (cap : number) (uid : nat) (pool : list nat) : list nat :=
  if bool_decide (uid ∈ pool)
  then filter (fun u => u <> uid) pool ++ [uid]
  else if eq_number (Finite (Z.of_nat (length pool))) cap
       then tail pool ++ [uid]
       else pool ++ [uid].

(** Modelled from the spec: [with back_ds.acquire_driver_object(uid,
    allocator) as gdal_ds] (the back is not among the sources).  The source
    gets a driver object through the pool, and the journal keeps the
    acquisition; a present driver object shows its file as the allocator
    opens it. *)
Definition acquire_driver_object (b : BackDataSource) (uid : nat)
    (allocator : gmap string dataset -> result dataset)
  : result (dataset * BackDataSource) :=
  let* gdal_ds := allocator (files b) in
  Return (gdal_ds,
          log_event (set_active b (pool_insert (max_active b) uid (active b)))
                    (Acquire uid)).

(** Modelled from the spec: leaving the [with] block returns the driver
    object to the pool; what was written through it is what the file
    holds. *)
Definition release_driver_object (b : BackDataSource) (path : string)
    (gdal_ds : dataset) : BackDataSource :=
  set_files b (<[path := gdal_ds]> (files b)).

End DatasourceBack.
Export DatasourceBack.

(** ** BackGDALFileRaster *)

(** The attributes [BackGDALFileRaster.__init__] hands to its base class. *)
Module Attrs.

Record BackGDALFileRaster : Type := mkRaster {
  uid : nat;
  path : string;
  driver : string;
  open_options : list string;
  mode : string;
  fp : Footprint;
  dtype : Np.dtype;
  nodata : option Z;
}.

End Attrs.

(** A band identifier: a Python [int], or a [complex] whose imaginary part
    names the band whose mask is meant. *)
Inductive band_id : Type :=
| IntId (n : Z)
| ComplexId (imag : Z).

#[global] Instance band_id_eq_dec : EqDecision band_id.
Proof. solve_decision. Defined.

(** Functions of the package that are not among the sources and that the
    specification does not pin down: [_tools.slices_of_matrix], and what
    the footprint algebra and the remapping mixin compute for footprints
    on different grids, where the source works in floating point. *)
Class Collaborators : Type := {
  slices_of_matrix : option mask -> list (slice * slice);
  intersection_off_grid : Footprint -> Footprint -> result Footprint;
  sampling_off_grid : Footprint -> Footprint -> string -> option Footprint;
  resample_cell :
    Footprint -> Footprint -> ndarray -> option mask -> option Z -> Z ->
    string -> string -> nat -> nat -> nat -> Z;
  resample_mask_cell :
    Footprint -> Footprint -> mask -> string -> string -> nat -> nat -> bool;
}.

Module BackGDALFileRaster.

Import Attrs.

Section Methods.

Context `{Collaborators}.

(** Modelled from the spec: [conv.of_of_mode(mode)] ([conv] is not among
    the sources): whether the file is opened for update.  The modes are
    ['r'] and ['w'] (section 6); any other one is a key that the table of
    the modes does not have. *)
Definition of_of_mode (mode : string) : result bool :=
  if String.eqb mode "r" then Return false
  else if String.eqb mode "w" then Return true
  else Raise (KeyError mode).

(** [_open_file(path, driver, options, mode)] *)
Definition _open_file (path driver : string) (options : list string)
    (mode : string) (fs : gmap string dataset) : result dataset :=
  let* for_update := of_of_mode mode in
  match OpenEx fs path for_update with
  | None => Raise (ValueError "Could not open `{}` with `{}` (gdal error: `{}`)")
  | Some gdal_ds => Return gdal_ds
  end.

Definition _allocator (self : BackGDALFileRaster) (fs : gmap string dataset)
  : result dataset :=
  _open_file (path self) (driver self) (open_options self) (mode self) fs.

(** [_gdalband_of_band_id(gdal_ds, id)]: [GetRasterBand] answers [None] for
    a band the dataset does not have, and [None.GetMaskBand()] raises. *)
Definition _gdalband_of_band_id (gdal_ds : dataset) (id : band_id)
  : result (option band_ref) :=
  match id with
  | IntId n => Return (GetRasterBand gdal_ds n)
  | ComplexId im =>
      match GetRasterBand gdal_ds im with
      | Some b => Return (Some (GetMaskBand b))
      | None => Raise (AttributeError "'NoneType' object has no attribute 'GetMaskBand'")
      end
  end.

(** [Footprint.intersection]: the spec defines it on a shared grid only. *)
Definition intersection (a b : Footprint) : result Footprint :=
  if same_grid a b then intersection_same_grid a b
  else intersection_off_grid a b.

(** Modelled from the spec: [build_sampling_footprint(dst_fp, interpolation)]
    (the remapping mixin is not among the sources) returns the smallest
    source-grid footprint whose pixel neighbors cover every destination
    pixel's interpolation kernel, and none if [dst_fp] does not intersect
    the source.  On the source grid the kernel of a pixel is that pixel. *)
Definition build_sampling_footprint (self : BackGDALFileRaster)
    (dst_fp : Footprint) (interpolation : string) : option Footprint :=
  if negb (share_area (fp self) dst_fp) then None
  else if same_grid (fp self) dst_fp
  then match intersection_same_grid (fp self) dst_fp with
       | Return f => Some f
       | Raise _ => None
       end
  else sampling_off_grid (fp self) dst_fp interpolation.

(** Modelled from the spec: the pure slice/copy of [remap] between two
    footprints of one grid; the cells of [dst_fp] outside [src_fp] take
    [fill]. *)
Definition remap_slice {A} (src_fp dst_fp : Footprint) (m : list (list A))
    (fill : A) : list (list A) :=
  let '(dx, dy) := spatial_to_raster src_fp (tl dst_fp) in
  crop fill dx dy (shape dst_fp).2 (shape dst_fp).1 m.

(** Modelled from the spec: [remap] (section 4.7; the remapping mixin is
    not among the sources).  On one grid it is a pure slice/copy and
    out-of-raster pixels are filled with [dst_nodata]; otherwise every
    destination pixel takes the value of the interpolation kernel, which
    the registry must allow.  The answer is the array, with the mask when
    one was given. *)
Definition remap (b : BackDataSource) (src_fp dst_fp : Footprint)
    (array : ndarray) (msk : option mask) (src_nodata : option Z)
    (dst_nodata : Z) (mask_mode interpolation : string)
  : result (ndarray * option mask) :=
  let c := (shape_of array).2 in
  let sh := ((shape dst_fp).1, (shape dst_fp).2, c) in
  if same_grid src_fp dst_fp
  then Return
         (mkArray (dtype_of array) sh
            (remap_slice src_fp dst_fp (data array)
               (replicate c (cast (dtype_of array) dst_nodata))),
          (fun m => remap_slice src_fp dst_fp m false) <$> msk)
  else if allow_interpolation b
  then Return
         (mkArray (dtype_of array) sh
            (tabulate2 (shape dst_fp).1 (shape dst_fp).2
               (fun y x =>
                  (fun i : nat =>
                     resample_cell src_fp dst_fp array msk src_nodata dst_nodata
                                   mask_mode interpolation y x i) <$> seq 0 c)),
          (fun m =>
             tabulate2 (shape dst_fp).1 (shape dst_fp).2
               (resample_mask_cell src_fp dst_fp m mask_mode interpolation))
            <$> msk)
  else Raise (ValueError "interpolation is necessary and `allow_interpolation` is False").

(** The loop of [get_data_driver]: band [i] of [band_ids] is read into
    [dstarray[..., i]]. *)
Fixpoint read_bands (driver_obj : dataset) (rtlx rtly : Z) (qfp : Footprint)
    (i : nat) (band_ids : list band_id) (dstarray : list (list (list Z)))
  : result (list (list (list Z))) :=
  match band_ids with
  | [] => Return dstarray
  | band_id :: rest =>
      let* gdal_band := _gdalband_of_band_id driver_obj band_id in
      match gdal_band with
      | None => Raise (AttributeError "'NoneType' object has no attribute 'ReadAsArray'")
      | Some gb =>
          match ReadAsArray driver_obj gb rtlx rtly (rsizex qfp) (rsizey qfp) with
          | None => Raise (ValueError "Could not read array (gdal error: `{}`)")
          | Some a => read_bands driver_obj rtlx rtly qfp (S i) rest (set_chan i a dstarray)
          end
      end
  end.

Definition get_data_driver (self : BackGDALFileRaster) (qfp : Footprint)
    (band_ids : list band_id) (driver_obj : dataset) : result ndarray :=
  let '(rtlx, rtly) := spatial_to_raster (fp self) (tl qfp) in
  let* _ := py_assert ((0 <=? rtlx) && (rtlx <? rsizex (fp self))) in
  let* _ := py_assert ((0 <=? rtly) && (rtly <? rsizey (fp self))) in
  let dstarray := empty (shape qfp) (length band_ids) (dtype self) in
  let* d := read_bands driver_obj rtlx rtly qfp 0 band_ids (data dstarray) in
  Return (mkArray (dtype_of dstarray) (shape_of dstarray) d).

Definition _sample (self : BackGDALFileRaster) (qfp : Footprint)
    (band_ids : list band_id) (b : BackDataSource)
  : result (ndarray * BackDataSource) :=
  let* _ := py_assert (same_grid qfp (fp self)) in
  let* (gdal_ds, b1) := acquire_driver_object b (uid self) (_allocator self) in
  let* array := get_data_driver self qfp band_ids gdal_ds in
  Return (array, release_driver_object b1 (path self) gdal_ds).

Definition get_data (self : BackGDALFileRaster) (qfp : Footprint)
    (band_ids : list band_id) (dst_nodata : Z) (interpolation : string)
    (b : BackDataSource) : result (ndarray * BackDataSource) :=
  match build_sampling_footprint self qfp interpolation with
  | None => Return (full (shape qfp) (length band_ids) dst_nodata (dtype self), b)
  | Some samplefp =>
      let* (array, b1) := _sample self samplefp band_ids b in
      let* (array, _) :=
        remap b1 samplefp qfp array None (nodata self) dst_nodata "erode" interpolation in
      let array := astype (dtype self) array in
      Return (array, b1)
  end.

(** [self.nodata or 0] *)
Definition nodata_or_0 (nd : option Z) : Z :=
  match nd with
  | Some v => if v =? 0 then 0 else v
  | None => 0
  end.

(** The inner loop of [set_data]: one [WriteArray] per slice of the mask. *)
Fixpoint write_slices (self : BackGDALFileRaster) (gdalband : option band_ref)
    (leftx topy : Z) (chan_i : matrix) (sls : list (slice * slice))
    (gdal_ds : dataset) : result dataset :=
  match sls with
  | [] => Return gdal_ds
  | sl :: rest =>
      let a := getitem2 sl chan_i in
      let x := Z.of_nat (start sl.2) + leftx in
      let y := Z.of_nat (start sl.1) + topy in
      let* _ := py_assert (0 <=? x) in
      let* _ := py_assert (0 <=? y) in
      let* _ := py_assert (x + Z.of_nat (ncols a) <=? rsizex (fp self)) in
      let* _ := py_assert (y + Z.of_nat (nrows a) <=? rsizey (fp self)) in
      match gdalband with
      | None => Raise (AttributeError "'NoneType' object has no attribute 'WriteArray'")
      | Some gb =>
          write_slices self gdalband leftx topy chan_i rest (WriteArray gdal_ds gb a x y)
      end
  end.

(** The outer loop of [set_data], over [enumerate(band_ids)]. *)
Fixpoint write_bands (self : BackGDALFileRaster) (qfp : Footprint)
    (array : ndarray) (msk : option mask) (i : nat) (band_ids : list band_id)
    (gdal_ds : dataset) : result dataset :=
  match band_ids with
  | [] => Return gdal_ds
  | band_id :: rest =>
      let '(leftx, topy) := spatial_to_raster (fp self) (tl qfp) in
      let* gdalband := _gdalband_of_band_id gdal_ds band_id in
      let* gdal_ds :=
        write_slices self gdalband leftx topy (chan i (data array))
                     (slices_of_matrix msk) gdal_ds in
      write_bands self qfp array msk (S i) rest gdal_ds
  end.

(** [set_data(array, fp, band_ids, interpolation, mask)].  The state after
    a raised exception is not observed. *)
Definition set_data (self : BackGDALFileRaster) (array : ndarray)
    (qfp : Footprint) (band_ids : list band_id) (interpolation : string)
    (msk : option mask) (b : BackDataSource) : result BackDataSource :=
  if negb (share_area qfp (fp self)) then Return b
  else
    let msk :=
      if negb (same_grid qfp (fp self)) && bool_decide (msk = None)
      then Some (ones (shape qfp)) else msk in
    let* dstfp := intersection (fp self) qfp in
    let* ret :=
      remap b qfp dstfp array msk (nodata self) (nodata_or_0 (nodata self))
            "erode" interpolation in
    let '(array, msk) := ret in
    let array := astype (dtype self) array in
    let qfp := dstfp in
    let* (gdal_ds, b1) := acquire_driver_object b (uid self) (_allocator self) in
    let* gdal_ds := write_bands self qfp array msk 0 band_ids gdal_ds in
    Return (release_driver_object b1 (path self) gdal_ds).

(** The loop of [fill] over the band objects of the comprehension, which
    are of type [dt]. *)
Fixpoint fill_bands (dt : Np.dtype) (gdalbands : list (option band_ref)) (value : Z)
    (gdal_ds : dataset) : result dataset :=
  match gdalbands with
  | [] => Return gdal_ds
  | None :: _ => Raise (AttributeError "'NoneType' object has no attribute 'Fill'")
  | Some gdalband :: rest =>
      fill_bands dt rest value (Fill dt gdal_ds gdalband value)
  end.

(** [fill(value, band_ids)]: the band objects are all looked up before the
    first of them is filled.  The bands of the file have the dtype of the
    raster, which [BackGDALFileRaster.__init__] reads from the file. *)
Definition fill (self : BackGDALFileRaster) (value : Z) (band_ids : list band_id)
    (b : BackDataSource) : result BackDataSource :=
  let* (gdal_ds, b1) := acquire_driver_object b (uid self) (_allocator self) in
  let* gdalbands := list_comp (_gdalband_of_band_id gdal_ds) band_ids in
  let* gdal_ds := fill_bands (dtype self) gdalbands value gdal_ds in
  Return (release_driver_object b1 (path self) gdal_ds).

End Methods.

(** The band object a band identifier of the dataset stands for. *)
Definition ref_of (id : band_id) : band_ref :=
  match id with
  | IntId n => RasterBand (Z.to_nat (n - 1))
  | ComplexId im => MaskBand (Z.to_nat (im - 1))
  end.

(** The identifier names a band that the dataset has. *)
Definition band_id_ok (ds : dataset) (id : band_id) : bool :=
  match id with
  | IntId n | ComplexId n => (1 <=? n) && (n <=? Z.of_nat (length (bands ds)))
  end.

(** The identifier is an integer that names a raster band of the dataset,
    and not the mask of one: a raster band keeps what is written to it,
    where a mask may be read-only, derived from the nodata value or shared
    by the bands. *)
Definition raster_band_ok (ds : dataset) (id : band_id) : bool :=
  match id with
  | IntId _ => band_id_ok ds id
  | ComplexId _ => false
  end.

End BackGDALFileRaster.

(** ** Band schemas *)

Module BandSchema.

(** The metadata of a band of a driver object, which the pixel methods do
    not read.  GDAL is an external collaborator here as well: the setter of
    an interpretation, an offset or a scale stores what the getter answers,
    and [GetOffset] and [GetScale] answer [None] until a value is set.
    Numbers are integers, as cells are. *)
Record band_meta : Type := mkBandMeta {
  ColorInterpretation : Z;
  Offset : option Z;
  Scale : option Z;
}.

(** A driver object seen through its metadata: its bands, the calls
    [SetNoDataValue(val)] made on its bands so far, each with the number of
    its band (counted from 1), and the calls [CreateMaskBand(flags)] made,
    each on the dataset ([None]) or on band [i] ([Some i]).  What the nodata
    value and the mask flags of a band read after these calls depends on the
    driver (a GTiff file keeps one nodata value for all the bands). *)
Record meta_dataset : Type := mkMeta {
  meta_bands : list band_meta;
  nodata_calls : list (nat * Z);
  mask_calls : list (option nat * Z);
}.

Definition RasterCount (ds : meta_dataset) : nat := length (meta_bands ds).

(** [gdal_ds.GetRasterBand(i).Set...(val)]: [GetRasterBand] answers [None]
    for a band that the dataset does not have. *)
Definition on_band (ds : meta_dataset) (i : nat) (attr : string)
    (f : band_meta -> band_meta) : result meta_dataset :=
  if (1 <=? i)%nat && (i <=? RasterCount ds)%nat
  then Return (mkMeta (alter f (i - 1)%nat (meta_bands ds)) (nodata_calls ds)
                      (mask_calls ds))
  else Raise (AttributeError attr).

Definition SetColorInterpretation (val : Z) (b : band_meta) : band_meta :=
  mkBandMeta val (Offset b) (Scale b).
Definition SetOffset (val : Z) (b : band_meta) : band_meta :=
  mkBandMeta (ColorInterpretation b) (Some val) (Scale b).
Definition SetScale (val : Z) (b : band_meta) : band_meta :=
  mkBandMeta (ColorInterpretation b) (Offset b) (Some val).

(** [gdal_ds.GetRasterBand(i).SetNoDataValue(val)] *)
Definition SetNoDataValue (ds : meta_dataset) (i : nat) (val : Z)
  : result meta_dataset :=
  if (1 <=? i)%nat && (i <=? RasterCount ds)%nat
  then Return (mkMeta (meta_bands ds) (nodata_calls ds ++ [(i, val)]) (mask_calls ds))
  else Raise (AttributeError "'NoneType' object has no attribute 'SetNoDataValue'").

(** [CreateMaskBand(val)] on the dataset, and on band [i]. *)
Definition CreateMaskBand (ds : meta_dataset) (val : Z) : meta_dataset :=
  mkMeta (meta_bands ds) (nodata_calls ds) (mask_calls ds ++ [(None, val)]).

Definition band_CreateMaskBand (ds : meta_dataset) (i : nat) (val : Z)
  : result meta_dataset :=
  if (1 <=? i)%nat && (i <=? RasterCount ds)%nat
  then Return (mkMeta (meta_bands ds) (nodata_calls ds)
                      (mask_calls ds ++ [(Some i, val)]))
  else Raise (AttributeError "'NoneType' object has no attribute 'CreateMaskBand'").

(** A band schema: a dictionary with the lists that it has among
    ['nodata'], ['interpretation'], ['offset'], ['scale'] and ['mask']. *)
Record band_schema : Type := mkSchema {
  nodata : option (list (option Z));
  interpretation : option (list Z);
  offset : option (list Z);
  scale : option (list Z);
  mask : option (list Z);
}.

(** The schema that is read from a file: each list has one entry per band. *)
Record stored_schema : Type := mkStoredSchema {
  stored_nodata : list (option Z);
  stored_interpretation : list string;
  stored_offset : list Z;
  stored_scale : list Z;
  stored_mask : list string;
}.

Section Methods.

(** The conversions of [conv], which is not among the sources, and the
    nodata value and the mask flags that GDAL answers for band [i] of a
    dataset, after the calls made on it. *)
Variable str_of_gci : Z -> string.
Variable str_of_gmf : Z -> string.
Variable shared_bit : Z.
Variable GetNoDataValue : meta_dataset -> nat -> option Z.
Variable GetMaskFlags : meta_dataset -> nat -> Z.

(** [for i, val in enumerate(vals, i): gdal_ds.GetRasterBand(i).Set...(val)] *)
Fixpoint set_each (attr : string) (setter : Z -> band_meta -> band_meta) (i : nat)
    (vals : list Z) (gdal_ds : meta_dataset) : result meta_dataset :=
  match vals with
  | [] => Return gdal_ds
  | val :: rest =>
      let* gdal_ds := on_band gdal_ds i attr (setter val) in
      set_each attr setter (S i) rest gdal_ds
  end.

(** The loop over ['nodata']: a value that is [None] is skipped. *)
Fixpoint set_nodata (i : nat) (vals : list (option Z)) (gdal_ds : meta_dataset)
  : result meta_dataset :=
  match vals with
  | [] => Return gdal_ds
  | None :: rest => set_nodata (S i) rest gdal_ds
  | Some val :: rest =>
      let* gdal_ds := SetNoDataValue gdal_ds i val in
      set_nodata (S i) rest gdal_ds
  end.

(** The calls [SetNoDataValue] that the loop makes for the values [vals] of
    bands [S k] on. *)
Fixpoint nodata_set (k : nat) (vals : list (option Z)) : list (nat * Z) :=
  match vals with
  | [] => []
  | None :: rest => nodata_set (S k) rest
  | Some v :: rest => (S k, v) :: nodata_set (S k) rest
  end.

(** The first loop over ['mask']: the first value with the shared bit
    creates the mask band of the dataset, and the loop ends. *)
Fixpoint shared_mask (vals : list Z) (gdal_ds : meta_dataset) : meta_dataset :=
  match vals with
  | [] => gdal_ds
  | val :: rest =>
      if negb (Z.land val shared_bit =? 0) then CreateMaskBand gdal_ds val
      else shared_mask rest gdal_ds
  end.

(** The second loop over ['mask']: each band whose value lacks the shared
    bit gets a mask band of its own. *)
Fixpoint band_masks (i : nat) (vals : list Z) (gdal_ds : meta_dataset)
  : result meta_dataset :=
  match vals with
  | [] => Return gdal_ds
  | val :: rest =>
      if Z.land val shared_bit =? 0
      then let* gdal_ds := band_CreateMaskBand gdal_ds i val in
           band_masks (S i) rest gdal_ds
      else band_masks (S i) rest gdal_ds
  end.

(** The calls [CreateMaskBand] that the two loops make for the values
    [vals] of bands [S k] on: at most one on the dataset, for the first
    value with the shared bit, then one on each band without the bit. *)
Definition dataset_mask (vals : list Z) : list (option nat * Z) :=
  match List.filter (fun v => negb (Z.land v shared_bit =? 0)) vals with
  | v :: _ => [(None, v)]
  | [] => []
  end.

Fixpoint own_masks (k : nat) (vals : list Z) : list (option nat * Z) :=
  match vals with
  | [] => []
  | v :: rest =>
      if Z.land v shared_bit =? 0 then (Some (S k), v) :: own_masks (S k) rest
      else own_masks (S k) rest
  end.

Definition when_present {V} (field : option V)
    (f : V -> meta_dataset -> result meta_dataset) (gdal_ds : meta_dataset)
  : result meta_dataset :=
  match field with
  | Some vals => f vals gdal_ds
  | None => Return gdal_ds
  end.

(** [_apply_band_schema(gdal_ds, band_schema)] *)
Definition _apply_band_schema (gdal_ds : meta_dataset) (band_schema : band_schema)
  : result meta_dataset :=
  let* gdal_ds := when_present (nodata band_schema) (set_nodata 1) gdal_ds in
  let* gdal_ds :=
    when_present (interpretation band_schema)
      (set_each "'NoneType' object has no attribute 'SetColorInterpretation'"
                SetColorInterpretation 1) gdal_ds in
  let* gdal_ds :=
    when_present (offset band_schema)
      (set_each "'NoneType' object has no attribute 'SetOffset'" SetOffset 1) gdal_ds in
  let* gdal_ds :=
    when_present (scale band_schema)
      (set_each "'NoneType' object has no attribute 'SetScale'" SetScale 1) gdal_ds in
  when_present (mask band_schema)
    (fun vals gdal_ds => band_masks 1 vals (shared_mask vals gdal_ds)) gdal_ds.

(** [_band_schema_of_gdal_ds(gdal_ds)] *)
Definition _band_schema_of_gdal_ds (gdal_ds : meta_dataset) : stored_schema :=
  let bands := meta_bands gdal_ds in
  {| stored_nodata :=
       (fun i : nat => GetNoDataValue gdal_ds (S i)) <$> seq 0 (length bands);
     stored_interpretation :=
       (fun band => str_of_gci (ColorInterpretation band)) <$> bands;
     stored_offset := (fun band => default 0 (Offset band)) <$> bands;
     stored_scale := (fun band => default 1 (Scale band)) <$> bands;
     stored_mask :=
       (fun i : nat => str_of_gmf (GetMaskFlags gdal_ds (S i))) <$> seq 0 (length bands) |}.

End Methods.

End BandSchema.

(** ** _tools *)

Module Tools.

(** Modelled from the spec: [_tools.is_tiling_covering_fp] is not among the
    sources.  A tiling covers a footprint when its tiles lie on the grid of
    the footprint and every pixel of the footprint is in some tile; an
    exact cover has no pixel outside the footprint, and a tiling without
    overlap has no pixel in two tiles. *)
Definition is_tiling_covering_fp (tiles : list (list Footprint)) (fp : Footprint)
    (allow_outer_pixels allow_overlapping_pixels : bool) : bool :=
  let ts := concat tiles in
  let rs : list (Z * Z * Z * Z) := rect_in fp <$> ts in
  forallb (same_grid fp) ts
  && forallb (fun p : Z * Z => existsb (fun r => rect_has r p.1 p.2) rs)
             (all_pixels (rsizex fp) (rsizey fp))
  && (allow_outer_pixels
      || forallb (fun r => rect_inside r (rsizex fp) (rsizey fp)) rs)
  && (allow_overlapping_pixels || pairwise_disjoint rs).

End Tools.
Export Tools.

(** ** Concatenation of tiles *)

(** [Footprint.slice_in(other)], which is not among the sources and which
    the specification does not describe: the slices that select a footprint
    in the array of another one. *)
Class FootprintSlices : Type := {
  slice_in : Footprint -> Footprint -> result (int_slice * int_slice);
}.

Module Concat.

Section Concat.

Context `{FootprintSlices}.

Definition StopIteration : exn := Exc "StopIteration" "".

(** The loop of [_concat] over [array_per_fp.items()]. *)
Fixpoint concat_loop (fp : Footprint) (items : list (Footprint * ndarray))
    (arr : ndarray) (debug_mask : mask) : result (ndarray * mask) :=
  match items with
  | [] => Return (arr, debug_mask)
  | (tile, tile_arr) :: rest =>
      let* _ := py_assert (bool_decide (shape tile = (shape_of tile_arr).1)) in
      let* slices := slice_in tile fp in
      let* _ := py_assert (region_clear slices debug_mask) in
      let debug_mask := region_set slices debug_mask in
      let* arr := setitem slices tile_arr arr in
      concat_loop fp rest arr debug_mask
  end.

(** [_concat(fp, array_per_fp, raster)]: the dictionary is the list of its
    items in insertion order, its arrays have three axes, and [raster] is
    read for its dtype only. *)
Definition _concat (fp : Footprint) (array_per_fp : list (Footprint * ndarray))
    (raster_dtype : dtype) : result ndarray :=
  match array_per_fp with
  | [] => Raise StopIteration
  | (_, first) :: _ =>
      let band_count := (shape_of first).2 in
      let arr := empty (shape fp) band_count raster_dtype in
      let debug_mask := zeros (shape fp) in
      let* (arr, debug_mask) := concat_loop fp array_per_fp arr debug_mask in
      let* _ := py_assert (all_true debug_mask) in
      Return arr
  end.

End Concat.

End Concat.

(** ** DataSource *)

Module DataSource.

(** The Python values the entry points tell apart. *)
Inductive pyval : Type :=
| PyNone
| PyStr (s : string)
| PyNum (n : number)
| PyPair (x y : Z)
| PyFootprint (f : Footprint)
| PyTiles (t : list (list Footprint))
| PyCallable (id : nat)
| PyPath (s : string)
| PyOther (id : nat).

Definition is_None (v : pyval) : bool :=
  match v with PyNone => true | _ => false end.

Definition callable (v : pyval) : bool :=
  match v with PyCallable _ => true | _ => false end.

(** A registered source: its identity, whether it is an [APooledEmissary],
    and what its allocator answers on the files at hand ([None]: a driver
    object). *)
Record Proxy : Type := mkProxy {
  uid : nat;
  pooled : bool;
  alloc : gmap string dataset -> option exn;
}.

(** [_ds_closed], [_back], and the two dictionaries of the register mixin
    (in insertion order; a proxy is identified by its uid). *)
Record DataSource : Type := mkDataSource {
  _ds_closed : bool;
  _back : BackDataSource;
  _keys_of_proxy : list (Proxy * list string);
  _proxy_of_key : list (string * Proxy);
}.

(** What [CachedRasterRecipe(...)] is constructed with. *)
Record recipe_args : Type := mkRecipeArgs {
  r_fp : Footprint;
  r_dtype : dtype;
  r_band_count : Z;
  r_band_schema : pyval;
  r_sr : option string;
  r_compute_array : pyval;
  r_merge_arrays : pyval;
  r_cache_dir : string;
  r_overwrite : bool;
  r_primitives_back : list (string * nat);
  r_primitives_kwargs : list (string * pyval);
  r_convert_footprint_per_primitive : list (string * pyval);
  r_computation_pool : pyval;
  r_merge_pool : pyval;
  r_io_pool : pyval;
  r_resample_pool : pyval;
  r_cache_tiles : list (list Footprint);
  r_computation_tiles : list (list Footprint);
  r_max_resampling_size : option Z;
  r_debug_observers : list nat;
}.

(** Functions of other modules that the entry points call and that are not
    among the sources: the deprecation pool, OSR, numpy's dtype parser, the
    band schema sanitizer, the footprint conversion and pool normalization
    of the back, the primitive splitter and the recipe's constructor.
    [shatter_queue_data_method] answers the [ds_id] of the back that owns
    the primitive, with the primitive's keyword arguments. *)
Class Externals : Type := {
  streamline_with_kwargs :
    string -> list (string * string) -> string -> pyval -> bool ->
    list (string * pyval) -> result (pyval * list (string * pyval));
  GetUserInputAsWKT : pyval -> result string;
  np_dtype : pyval -> result dtype;
  sanitize_band_schema : pyval -> Z -> result pyval;
  convert_footprint : BackDataSource -> Footprint -> string -> result Footprint;
  shatter_queue_data_method : pyval -> string -> result (nat * pyval);
  normalize_pool_parameter : BackDataSource -> pyval -> string -> result pyval;
  CachedRasterRecipe : DataSource -> recipe_args -> result Proxy;
}.

(** The allocator closure an entry point hands to a file raster: the call
    it makes when a driver object is needed. *)
Inductive allocator : Type :=
| open_file (path driver : string) (options : list string) (mode : string)
| create_file (path : string) (fp : Footprint) (dtype : Np.dtype) (band_count : Z)
    (band_schema : pyval) (driver : string) (options : list string)
    (sr : option string).

(** What [np.asarray(array)] shows of an array to the entry points: its
    shape; the array itself is a token. *)
Record array_like : Type := mkArrayLike { a_shape : list nat; a_token : nat }.

(** The constructors of the sources, whose base classes are not among the
    sources: each answers the proxy and the back it leaves (a file raster
    acquires a driver object when it is built). *)
Class Sources : Type := {
  GDALFileRaster :
    DataSource -> allocator -> list string -> string -> result (Proxy * BackDataSource);
  GDALMemRaster :
    DataSource -> Footprint -> Np.dtype -> Z -> pyval -> list string -> option string ->
    result (Proxy * BackDataSource);
  NumpyRaster :
    DataSource -> Footprint -> array_like -> pyval -> option string -> string ->
    result (Proxy * BackDataSource);
}.

Section Methods.

Context `{Externals}.

Definition as_number (v : pyval) : result number :=
  match v with
  | PyNum n => Return n
  | _ => Raise (TypeError "'<' not supported between these instances")
  end.

Definition neq_inf (v : pyval) : bool :=
  match v with PyNum Inf => false | _ => true end.

Definition BadSrMode : exn := ValueError "Bad combination of `sr_*` parameters".

(** The table of modes in the docstring of the class: which of
    [(sr_work, sr_fallback, sr_forced)] may be given together. *)
Definition legal_sr_mode (mode : bool * bool * bool) : bool :=
  bool_decide (mode ∈ [(false, false, false); (true, false, false);
                       (true, true, false); (true, false, true)]).

(** [DataSource.__init__]; [self_id] is [id(self)]. *)
Definition __init__ (self_id : nat) (sr_work sr_fallback sr_forced : pyval)
    (analyse_transformation allow_none_geometry allow_interpolation : bool)
    (max_active : pyval) (debug_observers : list nat)
    (kwargs : list (string * pyval)) : result DataSource :=
  let* (sr_fallback, kwargs) :=
    streamline_with_kwargs "sr_fallback" [("sr_implicit", "0.4.4")]
      "DataSource.__init__" sr_fallback (negb (is_None sr_fallback)) kwargs in
  let* (sr_forced, kwargs) :=
    streamline_with_kwargs "sr_forced" [("sr_origin", "0.4.4")]
      "DataSource.__init__" sr_forced (negb (is_None sr_forced)) kwargs in
  let* (max_active, kwargs) :=
    streamline_with_kwargs "max_active" [("max_activated", "0.5.0")]
      "DataSource.__init__" max_active (neq_inf max_active) kwargs in
  let* _ :=
    match kwargs with
    | [] => Return tt
    | _ :: _ => Raise (TypeError "__init__() got an unexpected keyword argument '{}'")
    end in
  let mode :=
    (negb (is_None sr_work), negb (is_None sr_fallback), negb (is_None sr_forced)) in
  let* wkts :=
    match mode with
    | (false, false, false) => Return (None, None, None)
    | (true, false, false) =>
        let* sr_work := GetUserInputAsWKT sr_work in
        Return (Some sr_work, None, None)
    | (true, true, false) =>
        let* sr_work := GetUserInputAsWKT sr_work in
        let* sr_fallback := GetUserInputAsWKT sr_fallback in
        Return (Some sr_work, Some sr_fallback, None)
    | (true, false, true) =>
        let* sr_work := GetUserInputAsWKT sr_work in
        let* sr_forced := GetUserInputAsWKT sr_forced in
        Return (Some sr_work, None, Some sr_forced)
    | _ => Raise BadSrMode
    end in
  let '(sr_work, sr_fallback, sr_forced) := wkts in
  let* max_active := as_number max_active in
  let* _ :=
    if lt_number max_active (Finite 1)
    then Raise (ValueError "`max_active` should be greater than 1")
    else Return tt in
  Return
    {| _ds_closed := false;
       _back :=
         {| wkt_work := sr_work; wkt_fallback := sr_fallback;
            wkt_forced := sr_forced;
            analyse_transformation := analyse_transformation;
            allow_none_geometry := allow_none_geometry;
            allow_interpolation := allow_interpolation;
            max_active := max_active;
            ds_id := self_id;
            debug_observers := debug_observers;
            files := ∅; active := []; journal := [] |};
       _keys_of_proxy := [];
       _proxy_of_key := [] |}.

(** *** The register mixin *)

Definition DuplicateKey : exn := Exc "DuplicateKey" "".
Definition BadArgument : exn := Exc "BadArgument" "".

Definition registered_key (self : DataSource) (key : string) : bool :=
  bool_decide (key ∈ (_proxy_of_key self).*1).

(** Modelled from the spec: the register mixin is not among the sources.
    Each key must be non-empty and not already registered (section 4.2). *)
Definition _validate_key (self : DataSource) (key : string) : result unit :=
  if String.eqb key "" then Raise BadArgument
  else if registered_key self key then Raise DuplicateKey
  else Return tt.

Fixpoint validate_keys (self : DataSource) (keys : list string) : result unit :=
  match keys with
  | [] => Return tt
  | k :: rest =>
      let* _ := _validate_key self k in
      if bool_decide (k ∈ rest) then Raise DuplicateKey
      else validate_keys self rest
  end.

(** Modelled from the spec: [register(keys, source)]; zero keys is
    permitted (anonymous), and a taken key fails with [DuplicateKey]. *)
Definition _register (self : DataSource) (keys : list string) (prox : Proxy)
  : result DataSource :=
  let* _ := validate_keys self keys in
  Return {| _ds_closed := _ds_closed self;
            _back := _back self;
            _keys_of_proxy := _keys_of_proxy self ++ [(prox, keys)];
            _proxy_of_key :=
              _proxy_of_key self ++ ((fun k => (k, prox)) <$> keys) |}.

Definition with_back (self : DataSource) (b : BackDataSource) : DataSource :=
  {| _ds_closed := _ds_closed self; _back := b;
     _keys_of_proxy := _keys_of_proxy self;
     _proxy_of_key := _proxy_of_key self |}.

(** *** Recipes *)

(** The arguments of [create_raster_recipe], each any Python value. *)
Record raster_recipe_call : Type := mkRasterRecipeCall {
  rr_key : pyval;
  rr_fp : pyval;
  rr_dtype : pyval;
  rr_band_count : pyval;
  rr_band_schema : pyval;
  rr_sr : pyval;
  rr_compute_array : pyval;
  rr_merge_arrays : pyval;
  rr_queue_data_per_primitive : pyval;
  rr_convert_footprint_per_primitive : pyval;
  rr_computation_pool : pyval;
  rr_merge_pool : pyval;
  rr_resample_pool : pyval;
  rr_computation_tiles : pyval;
  rr_max_computation_size : pyval;
  rr_max_resampling_size : pyval;
  rr_automatic_remapping : pyval;
  rr_debug_observers : pyval;
}.

(** [create_raster_recipe]: the body is [pass]. *)
Definition create_raster_recipe (self : DataSource) (call : raster_recipe_call)
  : result (pyval * DataSource) :=
  Return (PyNone, self).

(** The arguments of [create_cached_raster_recipe]; [band_count],
    [max_resampling_size] and [o] are taken as what [int] and [bool] make
    of them. *)
Record cached_recipe_call : Type := mkCachedRecipeCall {
  key : string;
  fp : pyval;
  dtype : pyval;
  band_count : Z;
  band_schema : pyval;
  sr : pyval;
  compute_array : pyval;
  merge_arrays : pyval;
  cache_dir : pyval;
  o : bool;
  queue_data_per_primitive : list (string * pyval);
  convert_footprint_per_primitive : option (list (string * pyval));
  computation_pool : pyval;
  merge_pool : pyval;
  io_pool : pyval;
  resample_pool : pyval;
  cache_tiles : pyval;
  computation_tiles : pyval;
  max_resampling_size : option Z;
  observers : list nat;
}.

(** [fp.tile(v, 0, 0, boundary_effect='shrink')], which checks [v]. *)
Definition tile_shrink (f : Footprint) (v : pyval) : result (list (list Footprint)) :=
  match v with
  | PyPair x y => tile f (x, y) 0 0 shrink
  | _ => Raise (ValueError "`size` should be a pair of positive integers")
  end.

(** "Classic RasterProxy parameters" *)
Definition check_classic (self : DataSource) (c : cached_recipe_call)
  : result (Footprint * Np.dtype * pyval * option string) :=
  let* _ := _validate_key self (key c) in
  let* f :=
    match fp c with
    | PyFootprint f => Return f
    | _ => Raise (TypeError "`fp` should be a Footprint")
    end in
  let* dt := np_dtype (dtype c) in
  let* _ :=
    if band_count c <=? 0 then Raise (ValueError "`band_count` should be >0")
    else Return tt in
  let* schema := sanitize_band_schema (band_schema c) (band_count c) in
  let* wkt :=
    if negb (is_None (sr c))
    then let* w := GetUserInputAsWKT (sr c) in Return (Some w)
    else Return None in
  let* f :=
    match wkt with
    | Some w => convert_footprint (_back self) f w
    | None => Return f
    end in
  Return (f, dt, schema, wkt).

(** "Callables" *)
Definition check_callables (c : cached_recipe_call) : result unit :=
  if is_None (compute_array c) then Raise (ValueError "Missing `compute_array` parameter")
  else if negb (callable (compute_array c))
  then Raise (TypeError "`compute_array` should be callable")
  else if negb (callable (merge_arrays c))
  then Raise (TypeError "`merge_arrays` should be callable")
  else Return tt.

Fixpoint shatter_all (self : DataSource) (items : list (string * pyval))
  : result (list (string * nat) * list (string * pyval)) :=
  match items with
  | [] => Return ([], [])
  | (name, met) :: rest =>
      let* (owner, kw) := shatter_queue_data_method met name in
      if negb (owner =? ds_id (_back self))%nat
      then Raise (ValueError "The `{}` primitive comes from another DataSource")
      else
        let* (backs, kws) := shatter_all self rest in
        Return ((name, owner) :: backs, (name, kw) :: kws)
  end.

(** "Primitives" *)
Definition check_primitives (self : DataSource) (c : cached_recipe_call)
  : result (list (string * nat) * list (string * pyval) * list (string * pyval)) :=
  let q := queue_data_per_primitive c in
  let conv :=
    match convert_footprint_per_primitive c with
    | None => (fun name : string => (name, PyCallable 0)) <$> q.*1
    | Some d => d
    end in
  if negb (bool_decide ((list_to_set q.*1 : gset string) = list_to_set conv.*1))
  then Raise (ValueError
    "There should be the same keys in `queue_data_per_primitive` and `convert_footprint_per_primitive`.")
  else
    let* (backs, kws) := shatter_all self q in
    if negb (forallb (fun e : string * pyval => callable e.2) conv)
    then Raise (TypeError "convert_footprint_per_primitive[{}] should be callable")
    else Return (backs, kws, conv).

(** "Pools" *)
Definition check_pools (self : DataSource) (c : cached_recipe_call)
  : result (pyval * pyval * pyval * pyval) :=
  let* cp := normalize_pool_parameter (_back self) (computation_pool c) "computation_pool" in
  let* mp := normalize_pool_parameter (_back self) (merge_pool c) "merge_pool" in
  let* ip := normalize_pool_parameter (_back self) (io_pool c) "io_pool" in
  let* rp := normalize_pool_parameter (_back self) (resample_pool c) "resample_pool" in
  Return (cp, mp, ip, rp).

Definition BadCacheTiling : exn :=
  ValueError "`cache_tiles` should be a tiling of raster's Footprint, without overlap, with `boundary_effect='shrink'`".
Definition BadComputationTiling : exn :=
  ValueError "`computation_tiles` should be a tiling covering raster's Footprint".

(** "Tilings": the cache tiling, then the computation tiling. *)
Definition cache_tiling (f : Footprint) (cache_tiles : pyval)
  : result (list (list Footprint)) :=
  match cache_tiles with
  | PyTiles t =>
      if negb (is_tiling_covering_fp t f false false)
      then Raise BadCacheTiling
      else Return t
  | v => tile_shrink f v
  end.

Definition computation_tiling (f : Footprint) (cache_tiles : list (list Footprint))
    (computation_tiles : pyval) : result (list (list Footprint)) :=
  match computation_tiles with
  | PyNone => Return cache_tiles
  | PyTiles t =>
      if negb (is_tiling_covering_fp cache_tiles f true true)
      then Raise BadComputationTiling
      else Return t
  | v => tile_shrink f v
  end.

Definition check_tilings (f : Footprint) (cache_tiles computation_tiles : pyval)
  : result (list (list Footprint) * list (list Footprint)) :=
  let* cache_tiles := cache_tiling f cache_tiles in
  let* computation_tiles := computation_tiling f cache_tiles computation_tiles in
  Return (cache_tiles, computation_tiles).

(** "Misc" *)
Definition check_misc (c : cached_recipe_call) : result string :=
  let* _ :=
    match max_resampling_size c with
    | Some n =>
        if n <=? 1 then Raise (ValueError "`max_resampling_size` should be >0")
        else Return tt
    | None => Return tt
    end in
  match cache_dir c with
  | PyNone => Raise (ValueError "Missing `cache_dir` parameter")
  | PyStr d | PyPath d => Return d
  | _ => Raise (TypeError "cache_dir should be a string")
  end.

Definition create_cached_raster_recipe (self : DataSource) (c : cached_recipe_call)
  : result (Proxy * DataSource) :=
  let* (f, dt, schema, wkt) := check_classic self c in
  let* _ := check_callables c in
  let* (backs, kws, conv) := check_primitives self c in
  let* (cp, mp, ip, rp) := check_pools self c in
  let* (ct, cpt) := check_tilings f (cache_tiles c) (computation_tiles c) in
  let* dir := check_misc c in
  let* prox :=
    CachedRasterRecipe self
      {| r_fp := f; r_dtype := dt; r_band_count := band_count c;
         r_band_schema := schema; r_sr := wkt;
         r_compute_array := compute_array c; r_merge_arrays := merge_arrays c;
         r_cache_dir := dir; r_overwrite := o c;
         r_primitives_back := backs; r_primitives_kwargs := kws;
         r_convert_footprint_per_primitive := conv;
         r_computation_pool := cp; r_merge_pool := mp; r_io_pool := ip;
         r_resample_pool := rp;
         r_cache_tiles := ct; r_computation_tiles := cpt;
         r_max_resampling_size := max_resampling_size c;
         r_debug_observers := observers c |} in
  let* self := _register self [key c] prox in
  Return (prox, self).

(** *** Proxy getters *)

(** [__len__] *)
Definition __len__ (self : DataSource) : nat := length (_keys_of_proxy self).

(** [__contains__] for a key *)
Definition __contains__ (self : DataSource) (item : string) : bool :=
  registered_key self item.

(** The [wkt] property *)
Definition wkt (self : DataSource) : option string := wkt_work (_back self).

(** *** Closing *)

Definition Closed : exn := RuntimeError "DataSource already closed".

(** Modelled from the spec: [BackDataSource.stop_scheduler] and
    [join_all_pools] are not among the sources; the scheduler is told to
    stop and the worker pools are joined. *)
Definition stop_scheduler (b : BackDataSource) : BackDataSource :=
  log_event b StopScheduler.
Definition join_all_pools (b : BackDataSource) : BackDataSource :=
  log_event b JoinAllPools.

(** Modelled from the spec: [proxy.close()] is not among the sources; a
    closed source is destroyed: it leaves the registry and the pool. *)
Definition proxy_close (self : DataSource) (prox : Proxy) : DataSource :=
  {| _ds_closed := _ds_closed self;
     _back :=
       log_event
         (set_active (_back self)
            (filter (fun u => u <> uid prox) (active (_back self))))
         (ProxyClose (uid prox));
     _keys_of_proxy :=
       filter (fun e : Proxy * list string => uid e.1 <> uid prox)
              (_keys_of_proxy self);
     _proxy_of_key :=
       filter (fun e : string * Proxy => uid e.2 <> uid prox)
              (_proxy_of_key self) |}.

(** The routine [_close] that the [close] property wraps. *)
Definition _close (self : DataSource) : result DataSource :=
  if _ds_closed self then Raise Closed
  else
    let self :=
      {| _ds_closed := true; _back := _back self;
         _keys_of_proxy := _keys_of_proxy self;
         _proxy_of_key := _proxy_of_key self |} in
    let self := with_back self (stop_scheduler (_back self)) in
    let self := with_back self (join_all_pools (_back self)) in
    Return (foldl proxy_close self (_keys_of_proxy self).*1).

(** Reading the [close] property: it answers the routine. *)
Definition close (self : DataSource) : result (DataSource -> result DataSource) :=
  if _ds_closed self then Raise Closed
  else Return _close.

(** [ds.close()]: the property is read, and the routine it answers is
    called on the same object. *)
Definition call_close (self : DataSource) : result DataSource :=
  let* routine := close self in
  routine self.

(** *** Activation *)

(** Modelled from the spec: [prox.active] and [prox.activate()] are not
    among the sources; a source is active when the pool holds a driver
    object of it, and activating allocates one through the pool. *)
Definition is_active (prox : Proxy) (b : BackDataSource) : bool :=
  bool_decide (uid prox ∈ active b).

Definition activate (prox : Proxy) (b : BackDataSource) : result BackDataSource :=
  match alloc prox (files b) with
  | Some e => Raise e
  | None => Return (set_active b (pool_insert (max_active b) (uid prox) (active b)))
  end.

Definition active_count (self : DataSource) : nat := length (active (_back self)).

Definition TooMany : exn :=
  RuntimeError "Can't activate all pooled sources at the same time: {} pooled sources and max_activated is {}".

(** The loop over [itertools.cycle(proxs)]: [ring] holds the sequence from
    the next proxy on, and a proxy that was yielded joins its end.  [None]
    when [fuel] iterations did not reach the [break]. *)
Fixpoint cycle_loop (fuel total : nat) (ring : list Proxy) (i : nat)
    (b : BackDataSource) : option (result BackDataSource) :=
  match fuel with
  | O => None
  | S fuel' =>
      match ring with
      | [] => Some (Return b)
      | prox :: rest =>
          if (i =? total)%nat then Some (Return b)
          else if negb (is_active prox b)
          then match activate prox b with
               | Raise e => Some (Raise e)
               | Return b' => cycle_loop fuel' total (rest ++ [prox]) 1 b'
               end
          else cycle_loop fuel' total (rest ++ [prox]) (i + 1) b
      end
  end.

Definition pooled_proxies (self : DataSource) : list Proxy :=
  filter (fun prox => pooled prox = true) (_keys_of_proxy self).*1.

Definition activate_all (fuel : nat) (self : DataSource)
  : option (result DataSource) :=
  let proxs := pooled_proxies self in
  let total := length proxs in
  if lt_number (max_active (_back self)) (Finite (Z.of_nat total))
  then Some (Raise TooMany)
  else
    match cycle_loop fuel total proxs 0 (_back self) with
    | None => None
    | Some (Raise e) => Some (Raise e)
    | Some (Return b) => Some (Return (with_back self b))
    end.

(** The object after the flag is set, the scheduler stopped and the pools
    joined, before the sources are closed. *)
Definition closing (self : DataSource) : DataSource :=
  with_back
    (with_back (mkDataSource true (_back self) (_keys_of_proxy self) (_proxy_of_key self))
               (stop_scheduler (_back self)))
    (join_all_pools (stop_scheduler (_back self))).

(** Every key of the register names a registered proxy. *)
Definition registry_consistent (self : DataSource) : bool :=
  forallb (fun e : string * Proxy =>
             bool_decide (uid e.2 ∈ uid <$> (_keys_of_proxy self).*1))
          (_proxy_of_key self).

(** The pooled sources have distinct uids, and the pool holds one driver
    object at most per source, each of a registered pooled source. *)
Definition pool_consistent (self : DataSource) : bool :=
  bool_decide (NoDup (uid <$> pooled_proxies self))
  && bool_decide (NoDup (active (_back self)))
  && forallb (fun u => bool_decide (u ∈ uid <$> pooled_proxies self))
             (active (_back self)).

Definition all_active (proxs : list Proxy) (b : BackDataSource) : bool :=
  forallb (fun p => is_active p b) proxs.

(** [sr] is [None], or a spatial reference that OSR reads. *)
Definition wkt_usable (v : pyval) : bool :=
  is_None v || returns (GetUserInputAsWKT v).

(** *** Raster entry points *)

Context `{Sources}.

(** "Parameter checking" of [create_raster] and [acreate_raster], after the
    key. *)
Definition check_creation (self : DataSource) (fp dtype : pyval) (band_count : Z)
    (band_schema sr : pyval)
  : result (Footprint * Np.dtype * pyval * option string) :=
  let* f :=
    match fp with
    | PyFootprint f => Return f
    | _ => Raise (TypeError "`fp` should be a Footprint")
    end in
  let* dt := np_dtype dtype in
  let* _ :=
    if band_count <=? 0 then Raise (ValueError "`band_count` should be >0")
    else Return tt in
  let* schema := sanitize_band_schema band_schema band_count in
  let* wkt :=
    if negb (is_None sr)
    then let* w := GetUserInputAsWKT sr in Return (Some w)
    else Return None in
  let* f :=
    match wkt with
    | Some w => convert_footprint (_back self) f w
    | None => Return f
    end in
  Return (f, dt, schema, wkt).

(** "Construction dispatch" of [open_raster] and [aopen_raster]. *)
Definition dispatch_open (self : DataSource) (path driver : string)
    (options : list string) (mode : string) (hint : string)
  : result (Proxy * BackDataSource) :=
  if String.eqb (lower driver) "mem"
  then Raise (ValueError hint)
  else GDALFileRaster self (open_file path driver options mode) options mode.

(** [open_raster(key, path, driver, options, mode)] *)
Definition open_raster (self : DataSource) (key path driver : string)
    (options : list string) (mode : string) : result (Proxy * DataSource) :=
  let* _ := _validate_key self key in
  let* _ := BackGDALFileRaster.of_of_mode mode in
  let* (prox, b) :=
    dispatch_open self path driver options mode
                  "Can't open a MEM raster, user create_raster" in
  let* self := _register (with_back self b) [key] prox in
  Return (prox, self).

(** [aopen_raster(path, driver, options, mode)] *)
Definition aopen_raster (self : DataSource) (path driver : string)
    (options : list string) (mode : string) : result (Proxy * DataSource) :=
  let* _ := BackGDALFileRaster.of_of_mode mode in
  let* (prox, b) :=
    dispatch_open self path driver options mode
                  "Can't open a MEM raster, user acreate_raster" in
  let* self := _register (with_back self b) [] prox in
  Return (prox, self).

(** "Construction dispatch" of [create_raster] and [acreate_raster]: a
    [mem] driver builds a memory raster, any other one a file raster opened
    for writing. *)
Definition dispatch_create (self : DataSource) (path : string) (f : Footprint)
    (dt : Np.dtype) (band_count : Z) (schema : pyval) (driver : string)
    (options : list string) (wkt : option string)
  : result (Proxy * BackDataSource) :=
  if String.eqb (lower driver) "mem"
  then GDALMemRaster self f dt band_count schema options wkt
  else GDALFileRaster self
         (create_file path f dt band_count schema driver options wkt) options "w".

(** [create_raster(key, path, fp, dtype, band_count, band_schema, driver,
    options, sr)] *)
Definition create_raster (self : DataSource) (key path : string) (fp dtype : pyval)
    (band_count : Z) (band_schema : pyval) (driver : string)
    (options : list string) (sr : pyval) : result (Proxy * DataSource) :=
  let* _ := _validate_key self key in
  let* (f, dt, schema, wkt) := check_creation self fp dtype band_count band_schema sr in
  let* (prox, b) :=
    dispatch_create self path f dt band_count schema driver options wkt in
  let* self := _register (with_back self b) [key] prox in
  Return (prox, self).

(** [acreate_raster(path, fp, dtype, band_count, band_schema, driver,
    options, sr)] *)
Definition acreate_raster (self : DataSource) (path : string) (fp dtype : pyval)
    (band_count : Z) (band_schema : pyval) (driver : string)
    (options : list string) (sr : pyval) : result (Proxy * DataSource) :=
  let* (f, dt, schema, wkt) := check_creation self fp dtype band_count band_schema sr in
  let* (prox, b) :=
    dispatch_create self path f dt band_count schema driver options wkt in
  let* self := _register (with_back self b) [] prox in
  Return (prox, self).

(** "Parameter checking" of [wrap_numpy_raster] and [awrap_numpy_raster],
    after the key. *)
Definition check_wrapping (self : DataSource) (fp : pyval) (array : array_like)
    (band_schema sr : pyval) (mode : string)
  : result (Footprint * pyval * option string) :=
  let* f :=
    match fp with
    | PyFootprint f => Return f
    | _ => Raise (TypeError "`fp` should be a Footprint")
    end in
  let* _ :=
    if negb (bool_decide (take 2 (a_shape array) = [(shape f).1; (shape f).2]))
    then Raise (ValueError "Incompatible shape between `array` and `fp`")
    else Return tt in
  let ndim := length (a_shape array) in
  let* _ :=
    if negb (bool_decide (ndim ∈ [2; 3]%nat))
    then Raise (ValueError "Array should have 2 or 3 dimensions")
    else Return tt in
  let band_count :=
    if (ndim =? 2)%nat then 1%nat else List.last (a_shape array) 0%nat in
  let* schema := sanitize_band_schema band_schema (Z.of_nat band_count) in
  let* wkt :=
    if negb (is_None sr)
    then let* w := GetUserInputAsWKT sr in Return (Some w)
    else Return None in
  let* _ := BackGDALFileRaster.of_of_mode mode in
  let* f :=
    match wkt with
    | Some w => convert_footprint (_back self) f w
    | None => Return f
    end in
  Return (f, schema, wkt).

(** [wrap_numpy_raster(key, fp, array, band_schema, sr, mode)] *)
Definition wrap_numpy_raster (self : DataSource) (key : string) (fp : pyval)
    (array : array_like) (band_schema sr : pyval) (mode : string)
  : result (Proxy * DataSource) :=
  let* _ := _validate_key self key in
  let* (f, schema, wkt) := check_wrapping self fp array band_schema sr mode in
  let* (prox, b) := NumpyRaster self f array schema wkt mode in
  let* self := _register (with_back self b) [key] prox in
  Return (prox, self).

(** [awrap_numpy_raster(fp, array, band_schema, sr, mode)]; what it prints
    is left out. *)
Definition awrap_numpy_raster (self : DataSource) (fp : pyval) (array : array_like)
    (band_schema sr : pyval) (mode : string) : result (Proxy * DataSource) :=
  let* (f, schema, wkt) := check_wrapping self fp array band_schema sr mode in
  let* (prox, b) := NumpyRaster self f array schema wkt mode in
  let* self := _register (with_back self b) [] prox in
  Return (prox, self).

(** *** More proxy getters *)

(** [d[key]] on a dictionary in insertion order. *)
Fixpoint dict_get {V} (d : list (string * V)) (key : string) : option V :=
  match d with
  | [] => None
  | (k, v) :: rest => if String.eqb k key then Some v else dict_get rest key
  end.

(** [__getitem__]: [self._proxy_of_key[key]] *)
Definition __getitem__ (self : DataSource) (key : string) : result Proxy :=
  match dict_get (_proxy_of_key self) key with
  | Some prox => Return prox
  | None => Raise (KeyError key)
  end.

(** [__contains__] for a proxy: [item in self._keys_of_proxy] *)
Definition contains_proxy (self : DataSource) (item : Proxy) : bool :=
  bool_decide (uid item ∈ uid <$> (_keys_of_proxy self).*1).

(** [items()] and [values()], as the lists they generate. *)
Definition items (self : DataSource) : list (list string * Proxy) :=
  (fun e : Proxy * list string => (e.2, e.1)) <$> _keys_of_proxy self.
Definition values (self : DataSource) : list Proxy := (_keys_of_proxy self).*1.

(** The object that Python holds of a call [DataSource(...)] when its
    [__del__] runs: one that [__init__] built, or one that [__init__] left
    as it raised, which it does before it assigns [_ds_closed]. *)
Inductive instance : Type :=
| Built (self : DataSource)
| Unbuilt.

Definition constructed (r : result DataSource) : instance :=
  match r with
  | Return self => Built self
  | Raise _ => Unbuilt
  end.

(** [__del__]: an open DataSource is closed; on an object that has no
    [_ds_closed] the test fails. *)
Definition __del__ (self : instance) : result DataSource :=
  match self with
  | Unbuilt =>
      Raise (AttributeError "'DataSource' object has no attribute '_ds_closed'")
  | Built self => if negb (_ds_closed self) then call_close self else Return self
  end.

(** *** Deactivation *)

(** Modelled from the spec: [prox.deactivate()] is not among the sources;
    the driver object of the source leaves the pool (section 4.3). *)
Definition deactivate (prox : Proxy) (b : BackDataSource) : BackDataSource :=
  set_active b (filter (fun u => u <> uid prox) (active b)).

(** Modelled from the spec: [prox.active] as [deactivate_all] reads it on a
    registered proxy; the activatable sources alone have the attribute
    (section 3), which are the pooled ones. *)
Definition get_active (prox : Proxy) (b : BackDataSource) : result bool :=
  if pooled prox then Return (is_active prox b)
  else Raise (AttributeError "object has no attribute 'active'").

(** The loop of [deactivate_all], which runs over every registered proxy,
    pooled or not. *)
Fixpoint deactivate_loop (proxs : list Proxy) (b : BackDataSource)
  : result BackDataSource :=
  match proxs with
  | [] => Return b
  | prox :: rest =>
      let* is_on := get_active prox b in
      deactivate_loop rest (if is_on then deactivate prox b else b)
  end.

Definition deactivate_all (self : DataSource) : result DataSource :=
  let* b := deactivate_loop (_keys_of_proxy self).*1 (_back self) in
  Return (with_back self b).

(** The registry [self'] is [self] with the source [prox] under the new
    key [key]. *)
Definition registered_as (self self' : DataSource) (key : string) (prox : Proxy)
  : Prop :=
  key <> ""%string /\ __contains__ self key = false /\
  __getitem__ self' key = Return prox /\
  (forall k, k <> key -> __getitem__ self' k = __getitem__ self k) /\
  __len__ self' = S (__len__ self) /\
  contains_proxy self' prox = true /\
  _ds_closed self' = _ds_closed self.

(** The registry [self'] is [self] with the source [prox] under no key. *)
Definition registered_anonymously (self self' : DataSource) (prox : Proxy) : Prop :=
  (forall k, __getitem__ self' k = __getitem__ self k) /\
  __len__ self' = S (__len__ self) /\
  contains_proxy self' prox = true /\
  _ds_closed self' = _ds_closed self.

End Methods.

End DataSource.

(** ** Concrete sources *)

Module Examples.

Import Attrs BackGDALFileRaster.

(** Collaborators that write an unmasked array in one piece and a masked
    one cell by cell, and that support nothing off the grid. *)
Definition cell_slices (m : mask) : list (slice * slice) :=
  concat (imap (fun (y : nat) (row : list bool) =>
                  concat (imap (fun (x : nat) (v : bool) =>
                                  if v then [(mkSlice y (Some (S y)),
                                              mkSlice x (Some (S x)))]
                                  else []) row)) m).

Definition on_grid_only : Collaborators := {|
  slices_of_matrix := fun m =>
    match m with
    | None => [(mkSlice 0 None, mkSlice 0 None)]
    | Some m => cell_slices m
    end;
  intersection_off_grid := fun _ _ => Raise NoOverlap;
  sampling_off_grid := fun _ _ _ => None;
  resample_cell := fun _ _ _ _ _ dst_nodata _ _ _ _ _ => dst_nodata;
  resample_mask_cell := fun _ _ _ _ _ _ _ => false;
|}.

(** A raster of 4 by 3 pixels of 2 world units, with two [uint8] bands. *)
Definition raster_fp : Footprint := mkFootprint (100, 200) (2, 0) (0, -2) 4 3.

Definition blank : matrix := replicate 3 (replicate 4 0).

Definition file : dataset :=
  mkDataset false 4 3 [mkBand blank blank; mkBand blank blank].

Definition back : BackDataSource :=
  {| wkt_work := None; wkt_fallback := None; wkt_forced := None;
     analyse_transformation := true; allow_none_geometry := false;
     allow_interpolation := false; max_active := Inf; ds_id := 0;
     debug_observers := [];
     files := {[ "dem.tif"%string := file ]}; active := []; journal := [] |}.

Definition raster : BackGDALFileRaster :=
  mkRaster 7 "dem.tif" "GTiff" [] "w" raster_fp uint8 None.

(** The 2 by 2 window whose top left pixel is pixel (1, 1) of the raster,
    a window that leaves the raster on its left, and one beside it. *)
Definition inner_fp : Footprint := mkFootprint (102, 198) (2, 0) (0, -2) 2 2.
Definition straddling_fp : Footprint := mkFootprint (98, 200) (2, 0) (0, -2) 3 2.
Definition outer_fp : Footprint := mkFootprint (80, 200) (2, 0) (0, -2) 3 2.

Definition two_bands : ndarray :=
  mkArray uint8 (2, 2, 2)%nat [[[1; 2]; [3; 4]]; [[5; 6]; [7; 8]]].

(** What [get_data] reads after [set_data] wrote [a]. *)
Definition set_then_get (self : BackGDALFileRaster) (a : ndarray) (qfp : Footprint)
    (band_ids : list band_id) (b : BackDataSource) : result ndarray :=
  let* b1 := @set_data on_grid_only self a qfp band_ids "cv_area" None b in
  let* (r, _) := @get_data on_grid_only self qfp band_ids 0 "cv_area" b1 in
  Return r.

End Examples.

Module RegistryExamples.

Import DataSource.

(** Externals with no deprecated keyword in use, an OSR that reads every
    string, and a recipe constructor that numbers its proxies. *)
Definition externals : Externals := {|
  streamline_with_kwargs := fun _ _ _ v _ kwargs => Return (v, kwargs);
  GetUserInputAsWKT := fun v =>
    match v with
    | PyStr s => Return s
    | _ => Raise (RuntimeError "not a spatial reference")
    end;
  np_dtype := fun v =>
    match v with
    | PyStr s => if String.eqb s "uint8" then Return uint8 else Return int32
    | _ => Raise (TypeError "data type not understood")
    end;
  sanitize_band_schema := fun v _ => Return v;
  convert_footprint := fun _ f _ => Return f;
  shatter_queue_data_method := fun _ _ => Return (0%nat, PyNone);
  normalize_pool_parameter := fun _ v _ => Return v;
  CachedRasterRecipe := fun ds _ =>
    Return (mkProxy (100 + length (_keys_of_proxy ds)) false (fun _ => None));
|}.

Definition no_files : gmap string dataset -> option exn := fun _ => None.

(** A registry with two file sources and a numpy source. *)
Definition dem : Proxy := mkProxy 1 true no_files.
Definition ortho : Proxy := mkProxy 2 true no_files.
Definition array_source : Proxy := mkProxy 3 false no_files.

Definition empty_back (cap : number) (pool : list nat) : BackDataSource :=
  {| wkt_work := None; wkt_fallback := None; wkt_forced := None;
     analyse_transformation := true; allow_none_geometry := false;
     allow_interpolation := false; max_active := cap; ds_id := 0;
     debug_observers := []; files := ∅; active := pool; journal := [] |}.

Definition registry (cap : number) (pool : list nat) : DataSource :=
  {| _ds_closed := false; _back := empty_back cap pool;
     _keys_of_proxy := [(dem, ["dem"%string]); (ortho, ["ortho"%string]);
                        (array_source, [])];
     _proxy_of_key := [("dem"%string, dem); ("ortho"%string, ortho)] |}.

(** A recipe over 4 by 4 pixels. *)
Definition recipe_fp : Footprint := mkFootprint (0, 0) (1, 0) (0, -1) 4 4.

Definition halves : list (list Footprint) :=
  [[window recipe_fp 0 0 2 4; window recipe_fp 2 0 2 4]].
Definition left_half : list (list Footprint) := [[window recipe_fp 0 0 2 4]].

Definition recipe_call (cache_tiles computation_tiles : pyval) : cached_recipe_call :=
  {| key := "slopes"; fp := PyFootprint recipe_fp; dtype := PyStr "uint8";
     band_count := 1; band_schema := PyNone; sr := PyNone;
     compute_array := PyCallable 1; merge_arrays := PyCallable 2;
     cache_dir := PyStr "/tmp/cache"; o := false;
     queue_data_per_primitive := []; convert_footprint_per_primitive := None;
     computation_pool := PyStr "cpu"; merge_pool := PyStr "cpu";
     io_pool := PyStr "io"; resample_pool := PyStr "cpu";
     cache_tiles := cache_tiles; computation_tiles := computation_tiles;
     max_resampling_size := None; observers := [] |}.

Definition any_call : raster_recipe_call :=
  mkRasterRecipeCall (PyStr "r") (PyFootprint recipe_fp) (PyStr "uint8")
    (PyNum (Finite 1)) PyNone PyNone PyNone PyNone PyNone PyNone PyNone PyNone
    PyNone PyNone PyNone PyNone PyNone PyNone.

End RegistryExamples.


(** ** More concrete sources *)

Module LawExamples.

Import Attrs BackGDALFileRaster Examples.

(** One band for the window that leaves the example raster on its left. *)
Definition straddling_band : ndarray :=
  mkArray uint8 (2, 3, 1)%nat [[[1]; [2]; [3]]; [[4]; [5]; [6]]].

Definition other_band : ndarray :=
  mkArray uint8 (2, 3, 1)%nat [[[7]; [8]; [9]]; [[10]; [11]; [12]]].

(** The example back without the file of the raster. *)
Definition no_file_back : BackDataSource := set_files back ∅.

End LawExamples.

Module ConcatExamples.

(** Slices of a tile in a footprint of the same grid, from the pixel where
    the tile begins. *)
Definition grid_slices : FootprintSlices := {|
  slice_in := fun t f =>
    let '(i, j) := spatial_to_raster f (tl t) in
    Return (mkIntSlice j (j + rsizey t), mkIntSlice i (i + rsizex t));
|}.

(** A footprint of 2 by 2 pixels and its two rows. *)
Definition square_fp : Footprint := mkFootprint (0, 0) (1, 0) (0, -1) 2 2.
Definition top_row : Footprint := window square_fp 0 0 2 1.
Definition bottom_row : Footprint := window square_fp 0 1 2 1.

Definition top_arr : ndarray := mkArray uint8 (1, 2, 1)%nat [[[1]; [2]]].
Definition bottom_arr : ndarray := mkArray uint8 (1, 2, 1)%nat [[[3]; [4]]].

Definition rows : list (Footprint * ndarray) :=
  [(top_row, top_arr); (bottom_row, bottom_arr)].

Definition row_slices : list (int_slice * int_slice) :=
  [(mkIntSlice 0 1, mkIntSlice 0 2); (mkIntSlice 1 2, mkIntSlice 0 2)].

End ConcatExamples.

Module EntryExamples.

Import DataSource RegistryExamples.

(** Constructors that number their proxies and leave the back as it is. *)
Definition sources : Sources := {|
  GDALFileRaster := fun ds _ _ _ =>
    Return (mkProxy (200 + length (_keys_of_proxy ds)) true no_files, _back ds);
  GDALMemRaster := fun ds _ _ _ _ _ _ =>
    Return (mkProxy (300 + length (_keys_of_proxy ds)) false no_files, _back ds);
  NumpyRaster := fun ds _ _ _ _ _ =>
    Return (mkProxy (400 + length (_keys_of_proxy ds)) false no_files, _back ds);
|}.

(** A registry whose sources are all pooled. *)
Definition file_registry (cap : number) (pool : list nat) : DataSource :=
  {| _ds_closed := false; _back := empty_back cap pool;
     _keys_of_proxy := [(dem, ["dem"%string]); (ortho, ["ortho"%string])];
     _proxy_of_key := [("dem"%string, dem); ("ortho"%string, ortho)] |}.

(** An array of 4 by 4 cells with 3 bands, and one with a single axis. *)
Definition rgb : array_like := mkArrayLike [4; 4; 3]%nat 0.
Definition flat : array_like := mkArrayLike [16]%nat 1.

(** The example recipe with a resampling size of one. *)
Definition tight_call : cached_recipe_call :=
  {| key := "slopes"; fp := PyFootprint recipe_fp; dtype := PyStr "uint8";
     band_count := 1; band_schema := PyNone; sr := PyNone;
     compute_array := PyCallable 1; merge_arrays := PyCallable 2;
     cache_dir := PyStr "/tmp/cache"; o := false;
     queue_data_per_primitive := []; convert_footprint_per_primitive := None;
     computation_pool := PyStr "cpu"; merge_pool := PyStr "cpu";
     io_pool := PyStr "io"; resample_pool := PyStr "cpu";
     cache_tiles := PyTiles halves; computation_tiles := PyNone;
     max_resampling_size := Some 1; observers := [] |}.

End EntryExamples.

Module BandSchemaExamples.

Import BandSchema.

(** A file with two bands and no metadata set. *)
Definition bare : band_meta := mkBandMeta 0 None None.
Definition two_band_file : meta_dataset := mkMeta [bare; bare] [] [].

Definition gci_name (v : Z) : string := if v =? 3 then "redband" else "undefined".
Definition gmf_name (v : Z) : string := if v =? 2 then "per_dataset" else "all_valid".
Definition flags_of (ds : meta_dataset) (i : nat) : Z := 1.

(** A driver that keeps one nodata value for the dataset: every band
    answers the value that was set last. *)
Definition shared_nodata (ds : meta_dataset) (i : nat) : option Z :=
  snd <$> last (nodata_calls ds).

End BandSchemaExamples.


(** * Proofs about the file raster *)

Module RasterProofs.

Import Attrs BackGDALFileRaster.

(** ** Footprints of one grid *)

Section Geometry.

Lemma wf_det fp : wf fp = true -> det fp <> 0 /\ 1 <= rsizex fp /\ 1 <= rsizey fp.
Proof. unfold wf. rewrite !andb_true_iff, negb_true_iff, !Z.leb_le, Z.eqb_neq. tauto. Qed.

Lemma exact_div n d : d <> 0 -> n mod d = 0 -> d * (n / d) = n.
Proof. intros Hd Hm. pose proof (Z.div_mod n d Hd). lia. Qed.

Lemma same_grid_spec a b :
  wf a = true -> same_grid a b = true ->
  ax b = ax a /\ ay b = ay a /\
  origin b = raster_to_spatial a (spatial_to_raster a (tl b)).
Proof.
  intros Hw Hs. apply wf_det in Hw as (Hd & _ & _).
  unfold same_grid, on_grid in Hs. rewrite !andb_true_iff in Hs.
  destruct Hs as [[Hax Hay] [Hc Hr]].
  apply bool_decide_eq_true in Hax, Hay.
  apply Z.eqb_eq in Hc, Hr.
  split; [done|]. split; [done|].
  unfold spatial_to_raster, raster_to_spatial, tl. simpl.
  pose proof (exact_div _ _ Hd Hc) as Ec.
  pose proof (exact_div _ _ Hd Hr) as Er.
  set (i := col_num a (origin b) / det a) in *.
  set (j := row_num a (origin b) / det a) in *.
  clearbody i j. clear Hc Hr Hax Hay.
  unfold col_num, row_num, det in *.
  destruct (origin b) as [bx by_], (origin a) as [ox oy], (ax a) as [a1 a2], (ay a) as [b1 b2].
  simpl in *.
  set (D := a1 * b2 - a2 * b1) in *.
  f_equal; apply (Z.mul_reg_l _ _ D Hd).
  - transitivity (D * ox + a1 * (D * i) + b1 * (D * j)); [rewrite Ec, Er; unfold D; ring | ring].
  - transitivity (D * oy + a2 * (D * i) + b2 * (D * j)); [rewrite Ec, Er; unfold D; ring | ring].
Qed.


Lemma contains_spec a b :
  contains a b = true ->
  same_grid a b = true /\
  0 <= (spatial_to_raster a (tl b)).1 /\
  (spatial_to_raster a (tl b)).1 + rsizex b <= rsizex a /\
  0 <= (spatial_to_raster a (tl b)).2 /\
  (spatial_to_raster a (tl b)).2 + rsizey b <= rsizey a.
Proof.
  unfold contains. destruct (spatial_to_raster a (tl b)) as [i j]. simpl.
  rewrite !andb_true_iff, !Z.leb_le. tauto.
Qed.

Lemma intersection_contained a b :
  wf a = true -> wf b = true -> contains a b = true ->
  intersection_same_grid a b = Return b.
Proof.
  intros Hwa Hwb Hc. apply contains_spec in Hc as (Hs & Hi0 & Hi1 & Hj0 & Hj1).
  destruct (same_grid_spec a b Hwa Hs) as (Hax & Hay & Ho).
  apply wf_det in Hwb as (_ & Hx & Hy).
  unfold intersection_same_grid.
  destruct (spatial_to_raster a (tl b)) as [i j]. simpl in *.
  rewrite !Z.max_r, !Z.min_r by lia.
  replace ((i <? i + rsizex b) && (j <? j + rsizey b)) with true
    by (symmetry; rewrite andb_true_iff, !Z.ltb_lt; lia).
  f_equal. unfold window. destruct b; simpl in *. subst.
  f_equal; lia.
Qed.

Lemma share_area_contained a b :
  wf a = true -> wf b = true -> contains a b = true ->
  share_area a b = true /\ share_area b a = true.
Proof.
  intros Hwa Hwb Hc. apply contains_spec in Hc as (Hs & Hi0 & Hi1 & Hj0 & Hj1).
  destruct (same_grid_spec a b Hwa Hs) as (Hax & Hay & Ho).
  apply wf_det in Hwb as (_ & Hx & Hy).
  apply wf_det in Hwa as (Hd & Hxa & Hya).
  destruct (spatial_to_raster a (tl b)) as [i j]. simpl in *.
  unfold share_area, overlap_along, proj_min, proj_max, corners, raster_to_spatial, dot, perp in *.
  rewrite Hax, Hay, Ho. unfold det in Hd.
  destruct (origin a) as [ox oy], (ax a) as [a1 a2], (ay a) as [b1 b2].
  simpl in *.
  rewrite !andb_true_iff, !Z.ltb_lt.
  repeat split; nia.
Qed.

Lemma same_grid_refl f : same_grid f f = true.
Proof.
  unfold same_grid, on_grid, col_num, row_num.
  rewrite !bool_decide_eq_true_2 by done.
  replace ((origin f).1 - (origin f).1) with 0 by lia.
  replace ((origin f).2 - (origin f).2) with 0 by lia.
  simpl. by rewrite ?Zmod_0_l.
Qed.

Lemma spatial_to_raster_self f : spatial_to_raster f (tl f) = (0, 0).
Proof.
  unfold spatial_to_raster, col_num, row_num, tl.
  replace ((origin f).1 - (origin f).1) with 0 by lia.
  replace ((origin f).2 - (origin f).2) with 0 by lia.
  simpl. by rewrite ?Zdiv_0_l.
Qed.

Lemma same_grid_sym a b : wf a = true -> same_grid a b = true -> same_grid b a = true.
Proof.
  intros Hw Hs. destruct (same_grid_spec a b Hw Hs) as (Hax & Hay & Ho).
  apply wf_det in Hw as (Hd & _ & _).
  destruct (spatial_to_raster a (tl b)) as [i j].
  unfold same_grid, on_grid. rewrite !bool_decide_eq_true_2 by done. simpl.
  assert (col_num b (origin a) = (- i) * det a) as ->.
  { unfold col_num, det. rewrite Ho, ?Hax, ?Hay. unfold raster_to_spatial. simpl. ring. }
  assert (row_num b (origin a) = (- j) * det a) as ->.
  { unfold row_num, det. rewrite Ho, ?Hax, ?Hay. unfold raster_to_spatial. simpl. ring. }
  assert (det b = det a) as -> by (unfold det; by rewrite Hax, Hay).
  by rewrite !Z.mod_mul by done.
Qed.

End Geometry.

(** ** Cells of two-dimensional arrays *)

Section Matrices.

Context {A : Type}.
Implicit Types (m : list (list A)).

Lemma cell_Some m (y x : nat) row v :
  m !! y = Some row -> row !! x = Some v -> cell m (Z.of_nat y) (Z.of_nat x) = Some v.
Proof.
  intros Hr Hv. unfold cell.
  replace ((0 <=? Z.of_nat y) && (0 <=? Z.of_nat x)) with true
    by (symmetry; rewrite andb_true_iff, !Z.leb_le; lia).
  rewrite !Nat2Z.id, Hr. done.
Qed.


Lemma cell_nat m (y x : Z) :
  0 <= y -> 0 <= x ->
  cell m y x = match m !! Z.to_nat y with Some row => row !! Z.to_nat x | None => None end.
Proof.
  intros Hy Hx. unfold cell.
  replace ((0 <=? y) && (0 <=? x)) with true; [done|].
  symmetry. rewrite andb_true_iff, !Z.leb_le. lia.
Qed.

Lemma matrix_shape_lookup m h w y row :
  matrix_shape m h w -> m !! y = Some row -> length row = w.
Proof.
  intros [_ Hf] Hr. rewrite Forall_lookup in Hf. by apply (Hf y row).
Qed.

Lemma cell_in_shape m h w (y x : nat) :
  matrix_shape m h w -> (y < h)%nat -> (x < w)%nat ->
  exists v, cell m (Z.of_nat y) (Z.of_nat x) = Some v.
Proof.
  intros Hs Hy Hx. destruct Hs as [Hl Hf].
  destruct (lookup_lt_is_Some_2 m y) as [row Hr]; [lia|].
  pose proof (matrix_shape_lookup m h w y row (conj Hl Hf) Hr) as Hw.
  destruct (lookup_lt_is_Some_2 row x) as [v Hv]; [lia|].
  exists v. by eapply cell_Some.
Qed.

Lemma tabulate2_lookup h w (f : nat -> nat -> A) (y : nat) :
  (y < h)%nat -> tabulate2 h w f !! y = Some ((fun x => f y x) <$> seq 0 w).
Proof.
  intros Hy. unfold tabulate2. rewrite list_lookup_fmap, lookup_seq_lt by done. done.
Qed.

Lemma tabulate2_shape h w (f : nat -> nat -> A) : matrix_shape (tabulate2 h w f) h w.
Proof.
  unfold matrix_shape, tabulate2. split.
  - by rewrite length_fmap, length_seq.
  - apply Forall_fmap, Forall_forall. intros y _. simpl.
    by rewrite length_fmap, length_seq.
Qed.

Lemma cell_tabulate2 h w (f : nat -> nat -> A) (y x : nat) :
  (y < h)%nat -> (x < w)%nat ->
  cell (tabulate2 h w f) (Z.of_nat y) (Z.of_nat x) = Some (f y x).
Proof.
  intros Hy Hx. eapply cell_Some.
  - by apply tabulate2_lookup.
  - rewrite list_lookup_fmap, lookup_seq_lt by done. done.
Qed.

Lemma matrix_ext m1 m2 h w :
  matrix_shape m1 h w -> matrix_shape m2 h w ->
  (forall y x : nat, (y < h)%nat -> (x < w)%nat ->
     cell m1 (Z.of_nat y) (Z.of_nat x) = cell m2 (Z.of_nat y) (Z.of_nat x)) ->
  m1 = m2.
Proof.
  intros H1 H2 He.
  apply (list_eq_same_length _ _ h); [apply H2 | apply H1 |].
  intros y r1 r2 Hy Hr1 Hr2.
  pose proof (matrix_shape_lookup _ _ _ _ _ H1 Hr1) as L1.
  pose proof (matrix_shape_lookup _ _ _ _ _ H2 Hr2) as L2.
  apply (list_eq_same_length _ _ w); [done | done |].
  intros x v1 v2 Hx Hv1 Hv2.
  specialize (He y x Hy Hx).
  rewrite (cell_Some _ _ _ _ _ Hr1 Hv1), (cell_Some _ _ _ _ _ Hr2 Hv2) in He.
  congruence.
Qed.

Lemma crop_id fill m h w :
  matrix_shape m h w -> crop fill 0 0 w h m = m.
Proof.
  intros Hs. apply (matrix_ext _ _ h w); [apply tabulate2_shape | done |].
  intros y x Hy Hx. unfold crop. rewrite cell_tabulate2 by done.
  rewrite !Z.add_0_r.
  destruct (cell_in_shape m h w y x Hs Hy Hx) as [v ->]. done.
Qed.


Lemma cell_paste (x y : Z) (a m : list (list A)) (r c : nat) v :
  cell m (Z.of_nat r) (Z.of_nat c) = Some v ->
  cell (paste x y a m) (Z.of_nat r) (Z.of_nat c)
  = Some (default v (cell a (Z.of_nat r - y) (Z.of_nat c - x))).
Proof.
  intros Hc. rewrite cell_nat in Hc by lia. rewrite !Nat2Z.id in Hc.
  destruct (m !! r) as [row|] eqn:Er; [|done].
  eapply cell_Some.
  - unfold paste. rewrite list_lookup_imap, Er. done.
  - rewrite list_lookup_imap, Hc. done.
Qed.

Lemma getitem2_full m : getitem2 (mkSlice 0 None, mkSlice 0 None) m = m.
Proof.
  unfold getitem2, getslice. simpl. rewrite drop_0.
  induction m as [|row m IH]; [done|].
  rewrite fmap_cons, drop_0. f_equal. exact IH.
Qed.

End Matrices.

(** ** Arrays with three axes *)

Section Arrays.

Implicit Types (d : list (list (list Z))) (m : matrix).

Lemma has_shape_lookup d h w c y row :
  has_shape d h w c -> d !! y = Some row ->
  length row = w /\ Forall (fun px => length px = c) row.
Proof. intros [_ Hf] Hr. rewrite Forall_lookup in Hf. by apply (Hf y row). Qed.

Lemma has_shape_px d h w c y x row px :
  has_shape d h w c -> d !! y = Some row -> row !! x = Some px -> length px = c.
Proof.
  intros Hs Hr Hp. destruct (has_shape_lookup _ _ _ _ _ _ Hs Hr) as [_ Hf].
  rewrite Forall_lookup in Hf. by apply (Hf x px).
Qed.

Lemma has_shape_replicate h w c v :
  has_shape (replicate h (replicate w (replicate c v))) h w c.
Proof.
  split; [by rewrite length_replicate|].
  apply Forall_replicate. split; [by rewrite length_replicate|].
  apply Forall_replicate. by rewrite length_replicate.
Qed.

Lemma get3_in_shape d h w c y x i :
  has_shape d h w c -> (y < h)%nat -> (x < w)%nat -> (i < c)%nat ->
  exists v, get3 d y x i = Some v.
Proof.
  intros Hs Hy Hx Hi. unfold get3.
  destruct (lookup_lt_is_Some_2 d y) as [row Hr]; [destruct Hs; lia|].
  destruct (has_shape_lookup _ _ _ _ _ _ Hs Hr) as [Hw _].
  destruct (lookup_lt_is_Some_2 row x) as [px Hp]; [lia|].
  pose proof (has_shape_px _ _ _ _ _ _ _ _ Hs Hr Hp) as Hc.
  destruct (lookup_lt_is_Some_2 px i) as [v Hv]; [lia|].
  exists v. by rewrite Hr, Hp.
Qed.

Lemma array_ext d1 d2 h w c :
  has_shape d1 h w c -> has_shape d2 h w c ->
  (forall y x i, (y < h)%nat -> (x < w)%nat -> (i < c)%nat ->
     get3 d1 y x i = get3 d2 y x i) ->
  d1 = d2.
Proof.
  intros H1 H2 He.
  apply (list_eq_same_length _ _ h); [apply H2 | apply H1 |].
  intros y r1 r2 Hy Hr1 Hr2.
  destruct (has_shape_lookup _ _ _ _ _ _ H1 Hr1) as [L1 _].
  destruct (has_shape_lookup _ _ _ _ _ _ H2 Hr2) as [L2 _].
  apply (list_eq_same_length _ _ w); [done | done |].
  intros x p1 p2 Hx Hp1 Hp2.
  pose proof (has_shape_px _ _ _ _ _ _ _ _ H1 Hr1 Hp1) as C1.
  pose proof (has_shape_px _ _ _ _ _ _ _ _ H2 Hr2 Hp2) as C2.
  apply (list_eq_same_length _ _ c); [done | done |].
  intros i v1 v2 Hi Hv1 Hv2.
  specialize (He y x i Hy Hx Hi). unfold get3 in He.
  rewrite Hr1, Hr2, Hp1, Hp2, Hv1, Hv2 in He. congruence.
Qed.

Lemma set_chan_shape i m d h w c :
  has_shape d h w c -> has_shape (set_chan i m d) h w c.
Proof.
  intros Hs. unfold set_chan. split.
  - rewrite length_imap. apply Hs.
  - rewrite Forall_lookup. intros y row Hr.
    rewrite list_lookup_imap in Hr.
    destruct (d !! y) as [row0|] eqn:E; [|done]. simpl in Hr. injection Hr as <-.
    destruct (has_shape_lookup _ _ _ _ _ _ Hs E) as [Hw Hf].
    split; [by rewrite length_imap|].
    rewrite Forall_lookup. intros x px Hp.
    rewrite list_lookup_imap in Hp.
    destruct (row0 !! x) as [px0|] eqn:E2; [|done]. simpl in Hp. injection Hp as <-.
    rewrite Forall_lookup in Hf. specialize (Hf x px0 E2).
    destruct (cell m (Z.of_nat y) (Z.of_nat x)); [by rewrite length_insert | done].
Qed.

Lemma get3_set_chan i m d h w c y x j v :
  has_shape d h w c -> (i < c)%nat ->
  (y < h)%nat -> (x < w)%nat ->
  cell m (Z.of_nat y) (Z.of_nat x) = Some v ->
  get3 (set_chan i m d) y x j = if decide (i = j) then Some v else get3 d y x j.
Proof.
  intros Hs Hi Hy Hx Hc. unfold get3, set_chan.
  rewrite list_lookup_imap.
  destruct (lookup_lt_is_Some_2 d y) as [row Hr]; [destruct Hs; lia|].
  rewrite Hr. simpl. rewrite list_lookup_imap.
  destruct (has_shape_lookup _ _ _ _ _ _ Hs Hr) as [Hw _].
  destruct (lookup_lt_is_Some_2 row x) as [px Hp]; [lia|].
  rewrite Hp. simpl. rewrite Hc.
  pose proof (has_shape_px _ _ _ _ _ _ _ _ Hs Hr Hp) as Hl.
  destruct (decide (i = j)) as [->|Hne].
  - apply list_lookup_insert_eq. lia.
  - by apply list_lookup_insert_ne.
Qed.

Lemma chan_shape i d h w c : has_shape d h w c -> matrix_shape (chan i d) h w.
Proof.
  intros [Hl Hf]. unfold chan. split; [by rewrite length_fmap|].
  apply Forall_fmap. eapply Forall_impl; [exact Hf|].
  intros row [Hw _]. simpl. by rewrite length_fmap.
Qed.

Lemma cell_chan i d (y x : nat) :
  cell (chan i d) (Z.of_nat y) (Z.of_nat x)
  = match d !! y with
    | Some row => (fun px : list Z => default 0 (px !! i)) <$> row !! x
    | None => None
    end.
Proof.
  rewrite cell_nat by lia. rewrite !Nat2Z.id. unfold chan.
  rewrite list_lookup_fmap. destruct (d !! y) as [row|]; [|done]. simpl.
  by rewrite list_lookup_fmap.
Qed.

Lemma cell_chan_get3 i d (y x : nat) v :
  get3 d y x i = Some v -> cell (chan i d) (Z.of_nat y) (Z.of_nat x) = Some v.
Proof.
  unfold get3. rewrite cell_chan. destruct (d !! y) as [row|]; [|done].
  destruct (row !! x) as [px|]; [|done]. simpl. by intros ->.
Qed.

Lemma has_shape_matrix d h w c : has_shape d h w c -> matrix_shape d h w.
Proof.
  intros [Hl Hf]. split; [done|]. eapply Forall_impl; [exact Hf|]. by intros row [? _].
Qed.

Lemma has_shape_tabulate2 h w c (f : nat -> nat -> list Z) :
  (forall y x, (y < h)%nat -> (x < w)%nat -> length (f y x) = c) ->
  has_shape (tabulate2 h w f) h w c.
Proof.
  intros Hf. unfold tabulate2. split; [by rewrite length_fmap, length_seq|].
  rewrite Forall_lookup. intros y row Hr.
  rewrite list_lookup_fmap in Hr.
  destruct (seq 0 h !! y) as [y'|] eqn:E; [|done]. simpl in Hr. injection Hr as <-.
  apply lookup_seq in E as [-> Hy]. simpl.
  split; [by rewrite length_fmap, length_seq|].
  rewrite Forall_lookup. intros x px Hp.
  rewrite list_lookup_fmap in Hp.
  destruct (seq 0 w !! x) as [x'|] eqn:E; [|done]. simpl in Hp. injection Hp as <-.
  apply lookup_seq in E as [-> Hx]. simpl. by apply Hf.
Qed.

Lemma cell_px_length d h w c y x px :
  has_shape d h w c -> cell d y x = Some px -> length px = c.
Proof.
  intros Hs Hc. unfold cell in Hc.
  destruct ((0 <=? y) && (0 <=? x)); [|done].
  destruct (d !! Z.to_nat y) as [row|] eqn:Er; [|done].
  by eapply has_shape_px.
Qed.

Lemma astype_same dt a : dtype_of a = dt -> astype dt a = a.
Proof. intros Hd. unfold astype. by rewrite decide_True. Qed.

Lemma astype_shape dt a h w c :
  shape_of a = (h, w, c) -> has_shape (data a) h w c ->
  dtype_of (astype dt a) = dt /\ shape_of (astype dt a) = (h, w, c) /\
  has_shape (data (astype dt a)) h w c.
Proof.
  intros Hsa [Hl Hf]. unfold astype. destruct (decide (dtype_of a = dt)); [done|].
  simpl. split; [done|]. split; [done|]. split; [by rewrite length_fmap|].
  apply Forall_fmap. eapply Forall_impl; [exact Hf|]. intros row [Hw Hp]. simpl.
  split; [by rewrite length_fmap|].
  apply Forall_fmap. eapply Forall_impl; [exact Hp|]. intros px Hx. simpl.
  by rewrite length_fmap.
Qed.

Lemma cast_in_range dt v : in_range dt v = true -> cast dt v = v.
Proof.
  unfold in_range, cast, dtype_min, dtype_max.
  rewrite andb_true_iff, !Z.leb_le.
  assert (0 < bits dt) as Hb by (destruct dt; simpl; lia).
  assert (2 ^ bits dt = 2 * 2 ^ (bits dt - 1)) as Hp.
  { rewrite <- Z.pow_succ_r by lia. f_equal. lia. }
  assert (0 < 2 ^ (bits dt - 1)) as Hpos by (apply Z.pow_pos_nonneg; lia).
  rewrite Hp. set (P := 2 ^ (bits dt - 1)) in *. clearbody P.
  destruct (signed dt); simpl; intros [Hlo Hhi].
  - destruct (Z_lt_le_dec v 0) as [Hneg|Hnn].
    + assert (v mod (2 * P) = v + 2 * P) as ->.
      { symmetry. apply (Z.mod_unique _ _ (-1)); [left|]; lia. }
      destruct (Z.leb_spec P (v + 2 * P)); lia.
    + rewrite Z.mod_small by lia. destruct (Z.leb_spec P v); lia.
  - apply Z.mod_small. lia.
Qed.

End Arrays.

(** ** The checks, and the cells of a dataset *)

Section Datasets.

Lemma forallb_Forall_true {A} (f : A -> bool) (l : list A) :
  forallb f l = true <-> Forall (fun x => f x = true) l.
Proof.
  induction l as [|x l IH]; simpl.
  - split; [constructor | done].
  - rewrite andb_true_iff, Forall_cons, IH. done.
Qed.

Lemma matrix_ok_shape {A} (h w : nat) (m : list (list A)) :
  matrix_ok h w m = true -> matrix_shape m h w.
Proof.
  unfold matrix_ok, matrix_shape. rewrite andb_true_iff, Nat.eqb_eq, forallb_Forall_true.
  intros [Hl Hf]. split; [done|]. eapply Forall_impl; [exact Hf|].
  intros row Hr. simpl in Hr. by apply Nat.eqb_eq.
Qed.

Lemma array_ok_shape a sh c :
  array_ok a sh c = true ->
  shape_of a = (sh.1, sh.2, c) /\ has_shape (data a) sh.1 sh.2 c.
Proof.
  unfold array_ok, has_shape.
  rewrite !andb_true_iff, Nat.eqb_eq, forallb_Forall_true, bool_decide_eq_true.
  intros [[Hs Hl] Hf]. split; [done|]. split; [done|].
  eapply Forall_impl; [exact Hf|]. intros row Hr. simpl in Hr.
  rewrite andb_true_iff, Nat.eqb_eq, forallb_Forall_true in Hr.
  destruct Hr as [Hw Hp]. split; [done|].
  eapply Forall_impl; [exact Hp|]. intros px Hx. simpl in Hx.
  by apply Nat.eqb_eq.
Qed.

Lemma dataset_ok_spec w h ds :
  dataset_ok w h ds = true ->
  RasterXSize ds = w /\ RasterYSize ds = h /\
  forall r, matrix_shape (cells ds r) (Z.to_nat h) (Z.to_nat w) \/ cells ds r = [].
Proof.
  unfold dataset_ok. rewrite !andb_true_iff, !Z.eqb_eq, forallb_Forall_true.
  intros [[Hx Hy] Hf]. split; [done|]. split; [done|].
  rewrite Forall_lookup in Hf.
  intros [k|k]; simpl; destruct (bands ds !! k) as [bd|] eqn:E; simpl; auto; left;
    specialize (Hf k bd E); simpl in Hf;
    rewrite andb_true_iff in Hf; destruct Hf; by apply matrix_ok_shape.
Qed.


Lemma cells_set_cells_eq ds r m :
  (ref_index r < length (bands ds))%nat -> cells (set_cells ds r m) r = m.
Proof.
  intros Hk. destruct (lookup_lt_is_Some_2 (bands ds) (ref_index r) Hk) as [bd Hb].
  destruct r as [k|k]; simpl in *; rewrite list_lookup_alter_eq, Hb; done.
Qed.

Lemma cells_set_cells_ne ds r r' m :
  r <> r' -> cells (set_cells ds r m) r' = cells ds r'.
Proof.
  intros Hne. destruct r as [k|k], r' as [k'|k']; simpl;
    destruct (decide (k = k')) as [->|Hk];
    rewrite ?list_lookup_alter_eq, ?list_lookup_alter_ne by done;
    try congruence; destruct (bands ds !! k'); done.
Qed.

Lemma set_cells_frame ds r m :
  update (set_cells ds r m) = update ds /\
  RasterXSize (set_cells ds r m) = RasterXSize ds /\
  RasterYSize (set_cells ds r m) = RasterYSize ds /\
  length (bands (set_cells ds r m)) = length (bands ds).
Proof. destruct r; simpl; rewrite length_alter; done. Qed.

Lemma dataset_ok_cells w h ds r :
  dataset_ok w h ds = true -> (ref_index r < length (bands ds))%nat ->
  matrix_shape (cells ds r) (Z.to_nat h) (Z.to_nat w).
Proof.
  intros Hok Hr. destruct (dataset_ok_spec w h ds Hok) as (_ & _ & Hc).
  destruct (Hc r) as [Hs|He]; [done|].
  destruct (lookup_lt_is_Some_2 (bands ds) (ref_index r) Hr) as [bd Hb].
  unfold dataset_ok in Hok. rewrite !andb_true_iff, forallb_Forall_true in Hok.
  destruct Hok as [_ Hf]. rewrite Forall_lookup in Hf. specialize (Hf _ _ Hb).
  simpl in Hf. rewrite andb_true_iff in Hf. destruct Hf as [Hp Hm].
  destruct r; simpl in *; rewrite Hb; simpl; by apply matrix_ok_shape.
Qed.

Lemma cells_reopened d r : cells (reopened d) r = cells d r.
Proof. by destruct r. Qed.

End Datasets.

(** ** The loops over the bands *)

Section Driver.

Context `{Collaborators}.

Lemma py_assert_true c : c = true -> py_assert c = Return tt.
Proof. by intros ->. Qed.

Lemma gdalband_ok ds id :
  band_id_ok ds id = true ->
  _gdalband_of_band_id ds id = Return (Some (ref_of id)) /\
  (ref_index (ref_of id) < length (bands ds))%nat.
Proof.
  unfold band_id_ok, _gdalband_of_band_id, GetRasterBand.
  destruct id as [n|n]; intros Hok; rewrite Hok; simpl;
    rewrite andb_true_iff, Z.leb_le, Z.leb_le in Hok; (split; [done | lia]).
Qed.

Lemma ref_of_inj ds id id' :
  band_id_ok ds id = true -> band_id_ok ds id' = true ->
  ref_of id = ref_of id' -> id = id'.
Proof.
  unfold band_id_ok.
  destruct id as [n|n], id' as [n'|n']; rewrite !andb_true_iff, !Z.leb_le;
    intros [? ?] [? ?] Hr; simpl in Hr; try done; f_equal; injection Hr; lia.
Qed.

Lemma band_id_ok_length ds ds' id :
  length (bands ds') = length (bands ds) -> band_id_ok ds' id = band_id_ok ds id.
Proof. intros Hl. unfold band_id_ok. by rewrite Hl. Qed.

Lemma raster_band_ok_all ds ids :
  forallb (raster_band_ok ds) ids = true -> forallb (band_id_ok ds) ids = true.
Proof.
  induction ids as [|id ids IH]; [done|]. cbn [forallb].
  rewrite !andb_true_iff. intros [Hid Hids]. split; [|by apply IH].
  by destruct id.
Qed.

Lemma ncols_shape {A} (m : list (list A)) h w :
  matrix_shape m h w -> (1 <= h)%nat -> ncols m = w /\ nrows m = h.
Proof.
  intros [Hl Hf] Hh. unfold ncols, nrows. split; [|done].
  destruct m as [|row m]; simpl in *; [lia|]. by inversion Hf.
Qed.

Lemma write_slices_full self gb ox oy (m : matrix) gds h w :
  matrix_shape m h w -> (1 <= h)%nat ->
  0 <= ox -> 0 <= oy ->
  ox + Z.of_nat w <= rsizex (fp self) -> oy + Z.of_nat h <= rsizey (fp self) ->
  update gds = true -> opened (rsizex (fp self)) (rsizey (fp self)) gds ->
  write_slices self (Some gb) ox oy m [(mkSlice 0 None, mkSlice 0 None)] gds
  = Return (set_cells gds gb (paste ox oy m (cells gds gb))).
Proof.
  intros Hm Hh Hox Hoy Hx Hy Hu [HX HY]. simpl.
  rewrite getitem2_full.
  destruct (ncols_shape m h w Hm Hh) as [Hnc Hnr]. rewrite Hnc, Hnr.
  rewrite !py_assert_true by (apply Z.leb_le; lia). simpl.
  assert (window_ok gds ox oy (Z.of_nat w) (Z.of_nat h) = true) as Hwin.
  { unfold window_ok. rewrite HX, HY, !andb_true_iff, !Z.leb_le. lia. }
  change (Z.of_nat 0 + ox) with ox. change (Z.of_nat 0 + oy) with oy.
  unfold WriteArray. by rewrite Hnc, Hnr, Hu, Hwin.
Qed.

Lemma write_bands_spec self qfp a ox oy h w c ids :
  slices_of_matrix None = [(mkSlice 0 None, mkSlice 0 None)] ->
  placed (fp self) qfp ox oy ->
  shape qfp = (h, w) ->
  has_shape (data a) h w c ->
  forall i gds,
  update gds = true -> opened (rsizex (fp self)) (rsizey (fp self)) gds ->
  NoDup ids -> Forall (fun id => band_id_ok gds id = true) ids ->
  exists gds',
    write_bands self qfp a None i ids gds = Return gds' /\
    update gds' = true /\ opened (rsizex (fp self)) (rsizey (fp self)) gds' /\
    length (bands gds') = length (bands gds) /\
    (forall k id, ids !! k = Some id ->
       cells gds' (ref_of id)
       = paste ox oy (chan (i + k) (data a)) (cells gds (ref_of id))) /\
    (forall r, (forall id, id ∈ ids -> ref_of id <> r) -> cells gds' r = cells gds r).
Proof.
  intros Hsl (Hsp & Hox & Hoy & Hx & Hy & Hw1 & Hh1) Hshape Ha.
  unfold shape in Hshape. injection Hshape as Hh Hw.
  induction ids as [|id ids IH]; intros i gds Hu Hop Hnd Hok.
  - exists gds. simpl. repeat split; try done. apply Hop. apply Hop.
  - apply NoDup_cons in Hnd as [Hnin Hnd]. apply Forall_cons in Hok as [Hid Hok].
    destruct (gdalband_ok gds id Hid) as [Hgb Hidx].
    cbn [write_bands]. rewrite Hsp, Hgb, Hsl. cbn [bind].
    rewrite (write_slices_full self (ref_of id) ox oy (chan i (data a)) gds h w);
      [| by eapply chan_shape | lia | lia | lia | lia | lia | done | done ].
    cbn [bind].
    set (gds1 := set_cells gds (ref_of id) _).
    destruct (set_cells_frame gds (ref_of id)
                (paste ox oy (chan i (data a)) (cells gds (ref_of id))))
      as (Fu & FX & FY & Fl).
    fold gds1 in Fu, FX, FY, Fl.
    destruct (IH (S i) gds1) as (gds' & Hrun & Hu' & Hop' & Hl' & Hcells & Hframe).
    + congruence.
    + destruct Hop. split; congruence.
    + done.
    + eapply Forall_impl; [exact Hok|]. intros id' Hid'. simpl in *.
      by rewrite (band_id_ok_length gds gds1).
    + exists gds'. split; [exact Hrun|]. split; [done|]. split; [done|].
      split; [congruence|]. split.
      * intros k id' Hk. destruct k as [|k]; simpl in Hk.
        -- injection Hk as <-. rewrite Hframe.
           ++ unfold gds1. rewrite cells_set_cells_eq by done. by rewrite Nat.add_0_r.
           ++ intros id' Hin Heq. apply Hnin.
              rewrite Forall_forall in Hok.
              by rewrite <- (ref_of_inj gds id' id (Hok _ Hin) Hid Heq).
        -- rewrite (Hcells k id' Hk). replace (S i + k)%nat with (i + S k)%nat by lia.
           f_equal. unfold gds1. apply cells_set_cells_ne.
           intros Heq. apply Hnin.
           assert (id' ∈ ids) as Hin by (by eapply list_elem_of_lookup_2).
           rewrite Forall_forall in Hok.
           by rewrite (ref_of_inj gds id id' Hid (Hok _ Hin) Heq).
      * intros r Hr. rewrite Hframe.
        -- unfold gds1. apply cells_set_cells_ne. apply Hr. by left.
        -- intros id' Hin. apply Hr. by right.
Qed.

Lemma read_bands_spec gds qfp ox oy h w c ids :
  shape qfp = (h, w) ->
  0 <= ox -> 0 <= oy -> 0 <= rsizex qfp -> 0 <= rsizey qfp ->
  ox + rsizex qfp <= RasterXSize gds -> oy + rsizey qfp <= RasterYSize gds ->
  Forall (fun id => band_id_ok gds id = true) ids ->
  forall i dst,
  has_shape dst h w c -> (i + length ids <= c)%nat ->
  exists d,
    read_bands gds ox oy qfp i ids dst = Return d /\
    has_shape d h w c /\
    forall y x j, (y < h)%nat -> (x < w)%nat -> (j < c)%nat ->
      get3 d y x j =
      match ids !! (j - i)%nat with
      | Some id =>
          if decide (i <= j)%nat
          then Some (default 0 (cell (cells gds (ref_of id))
                                     (Z.of_nat y + oy) (Z.of_nat x + ox)))
          else get3 dst y x j
      | None => get3 dst y x j
      end.
Proof.
  intros Hshape Hox Hoy Hw0 Hh0 HX HY.
  unfold shape in Hshape. injection Hshape as Hh Hw.
  induction ids as [|id ids IH]; intros Hok i dst Hdst Hlen.
  - exists dst. split; [done|]. split; [done|]. intros y x j _ _ _. done.
  - apply Forall_cons in Hok as [Hid Hok].
    destruct (gdalband_ok gds id Hid) as [Hgb _].
    cbn [read_bands]. rewrite Hgb. cbn [bind].
    assert (window_ok gds ox oy (rsizex qfp) (rsizey qfp) = true) as Hwin.
    { unfold window_ok. rewrite !andb_true_iff, !Z.leb_le. lia. }
    unfold ReadAsArray. rewrite Hwin, Hw, Hh.
    set (a := crop 0 ox oy w h (cells gds (ref_of id))).
    simpl in Hlen.
    destruct (IH Hok (S i) (set_chan i a dst)) as (d & Hrun & Hd & Hget).
    { by apply set_chan_shape. }
    { lia. }
    exists d. split; [exact Hrun|]. split; [exact Hd|].
    intros y x j Hy Hx Hj. rewrite (Hget y x j Hy Hx Hj).
    assert (cell a (Z.of_nat y) (Z.of_nat x)
            = Some (default 0 (cell (cells gds (ref_of id))
                                    (Z.of_nat y + oy) (Z.of_nat x + ox)))) as Ha.
    { unfold a, crop. by rewrite cell_tabulate2. }
    assert (get3 (set_chan i a dst) y x j
            = if decide (i = j) then Some (default 0 (cell (cells gds (ref_of id))
                                    (Z.of_nat y + oy) (Z.of_nat x + ox)))
              else get3 dst y x j) as Hset.
    { apply (get3_set_chan i a dst h w c); [done | lia | done | done | done]. }
    clear Hget Hrun IH. clearbody a.
    destruct (decide (i <= j)%nat) as [Hij|Hij].
    + destruct (decide (i = j)) as [Heq|Hne].
      * subst j. replace (i - i)%nat with 0%nat by lia.
        replace (i - S i)%nat with 0%nat by lia.
        cbn [lookup list_lookup].
        destruct (ids !! 0%nat); [rewrite decide_False by lia|]; exact Hset.
      * replace (j - i)%nat with (S (j - S i)) by lia. cbn [lookup list_lookup].
        destruct (ids !! (j - S i)%nat); [by rewrite decide_True by lia | exact Hset].
    + replace (j - i)%nat with 0%nat by lia. replace (j - S i)%nat with 0%nat by lia.
      cbn [lookup list_lookup].
      rewrite decide_False in Hset by lia.
      destruct (ids !! 0%nat); [rewrite decide_False by lia|]; exact Hset.
Qed.

Lemma read_bands_shape gds ox oy qfp h w c ids :
  forall i dst d,
  has_shape dst h w c ->
  read_bands gds ox oy qfp i ids dst = Return d -> has_shape d h w c.
Proof.
  induction ids as [|id ids IH]; intros i dst d Hdst Hrun.
  - simpl in Hrun. by injection Hrun as <-.
  - cbn [read_bands] in Hrun.
    destruct (_gdalband_of_band_id gds id) as [[gb|]|e]; cbn [bind] in Hrun; try done.
    destruct (ReadAsArray gds gb ox oy (rsizex qfp) (rsizey qfp)) as [a|]; [|done].
    eapply IH; [|exact Hrun]. by apply set_chan_shape.
Qed.

End Driver.

(** ** Remapping *)

Section Remap.

Context `{Collaborators}.

Lemma remap_same b f a nd dn mm interp h w c :
  shape f = (h, w) -> shape_of a = (h, w, c) -> has_shape (data a) h w c ->
  remap b f f a None nd dn mm interp = Return (a, None).
Proof.
  intros Hsh Hsa Ha. unfold remap. rewrite same_grid_refl.
  unfold remap_slice. rewrite spatial_to_raster_self, Hsh, Hsa. simpl.
  rewrite (crop_id _ _ h w) by (by eapply has_shape_matrix).
  destruct a; simpl in *. by subst.
Qed.

Lemma remap_shape b src dst a msk nd dn mm interp a' msk' h w c :
  shape_of a = (h, w, c) -> has_shape (data a) h w c ->
  remap b src dst a msk nd dn mm interp = Return (a', msk') ->
  dtype_of a' = dtype_of a /\
  shape_of a' = ((shape dst).1, (shape dst).2, c) /\
  has_shape (data a') (shape dst).1 (shape dst).2 c.
Proof.
  intros Hsa Ha. unfold remap. rewrite Hsa. simpl.
  destruct (same_grid src dst).
  - intros [= <- _]. simpl. split; [done|]. split; [done|].
    unfold remap_slice. destruct (spatial_to_raster src (tl dst)) as [dx dy].
    unfold crop. apply has_shape_tabulate2. intros y x _ _.
    destruct (cell (data a) (Z.of_nat y + dy) (Z.of_nat x + dx)) as [px|] eqn:E; simpl.
    + by eapply cell_px_length.
    + by rewrite length_replicate.
  - destruct (allow_interpolation b); [|done].
    intros [= <- _]. simpl. split; [done|]. split; [done|].
    apply has_shape_tabulate2. intros y x _ _. by rewrite length_fmap, length_seq.
Qed.

End Remap.

(** ** get_data and set_data *)

Section DataAccess.

Context `{Collaborators}.

Lemma allocator_w self fs file :
  mode self = "w"%string -> fs !! path self = Some file ->
  _allocator self fs
  = Return (mkDataset true (RasterXSize file) (RasterYSize file) (bands file)).
Proof.
  intros Hm Hf. unfold _allocator, _open_file, OpenEx. rewrite Hm, Hf. done.
Qed.

Lemma placed_of_contains f q :
  wf f = true -> wf q = true -> contains f q = true ->
  exists ox oy, placed f q ox oy.
Proof.
  intros Hwf Hwq Hc. apply contains_spec in Hc as (Hs & Hi0 & Hi1 & Hj0 & Hj1).
  apply wf_det in Hwq as (_ & Hx & Hy).
  destruct (spatial_to_raster f (tl q)) as [i j] eqn:E. simpl in *.
  exists i, j. unfold placed. rewrite E. repeat split; lia.
Qed.

Lemma get_data_none self qfp band_ids dst_nodata interp b :
  build_sampling_footprint self qfp interp = None ->
  get_data self qfp band_ids dst_nodata interp b
  = Return (full (shape qfp) (length band_ids) dst_nodata (dtype self), b).
Proof. intros Hn. unfold get_data. by rewrite Hn. Qed.

(** C1 (as amended): on a raster opened for writing, for a footprint of
    the raster's grid that lies inside the raster, [set_data] of an array of
    the raster's dtype and of the footprint's shape, without mask, for
    pairwise distinct integer identifiers of raster bands that the file
    has, followed by [get_data] on the same footprint and bands, returns the
    array that was written, whatever [dst_nodata] and the interpolations
    are.  The identifiers of masks are left out: what a mask reads after a
    write depends on its kind.  The helper [slices_of_matrix] is taken to
    yield the full slice for no mask. *)
Theorem set_data_get_data_round_trip self qfp a band_ids interp interp' dst_nodata b file :
  slices_of_matrix None = [(mkSlice 0 None, mkSlice 0 None)] ->
  wf (fp self) = true -> wf qfp = true ->
  contains (fp self) qfp = true ->
  mode self = "w"%string ->
  files b !! path self = Some file ->
  dataset_ok (rsizex (fp self)) (rsizey (fp self)) file = true ->
  NoDup band_ids ->
  forallb (raster_band_ok file) band_ids = true ->
  dtype_of a = dtype self ->
  array_ok a (shape qfp) (length band_ids) = true ->
  exists b1 b2,
    set_data self a qfp band_ids interp None b = Return b1 /\
    get_data self qfp band_ids dst_nodata interp' b1 = Return (a, b2).
Proof.
  intros Hsl Hwf Hwq Hc Hmode Hfile Hds Hnd Hids Hdt Harr.
  apply raster_band_ok_all in Hids.
  destruct (placed_of_contains _ _ Hwf Hwq Hc) as (ox & oy & Hpl).
  pose proof Hpl as (Hsp & Hox & Hoy & Hx & Hy & Hw1 & Hh1).
  destruct (share_area_contained _ _ Hwf Hwq Hc) as [Hsa Hsa'].
  pose proof (proj1 (contains_spec _ _ Hc)) as Hsg.
  pose proof (same_grid_sym _ _ Hwf Hsg) as Hsg'.
  pose proof (intersection_contained _ _ Hwf Hwq Hc) as Hint.
  destruct (array_ok_shape _ _ _ Harr) as [Hshape Ha].
  destruct (shape qfp) as [h w] eqn:Eshape. simpl in Hshape, Ha.
  set (c := length band_ids) in *.
  destruct (dataset_ok_spec _ _ _ Hds) as (HX & HY & _).
  apply forallb_Forall_true in Hids.
  (* writing *)
  destruct (write_bands_spec self qfp a ox oy h w c band_ids Hsl Hpl Eshape Ha
              0%nat (reopened file)) as (gds' & Hwrite & Hu' & Hop' & Hl' & Hcells & _);
    [done | by split | done | by (eapply Forall_impl; [exact Hids|]; intros id Hid;
                                   rewrite (band_id_ok_length file)) |].
  set (b0 := log_event (set_active b (pool_insert (max_active b) (uid self) (active b)))
                       (Acquire (uid self))).
  exists (release_driver_object b0 (path self) gds').
  set (b1 := release_driver_object b0 (path self) gds').
  assert (set_data self a qfp band_ids interp None b = Return b1) as Hset.
  { unfold set_data. rewrite Hsa', Hsg'. simpl.
    unfold intersection. rewrite Hsg, Hint. cbn [bind].
    rewrite (remap_same b qfp a _ _ _ _ h w c Eshape Hshape Ha). cbn [bind].
    rewrite (astype_same _ _ Hdt).
    unfold acquire_driver_object. rewrite (allocator_w self _ file Hmode Hfile).
    cbn [bind]. fold (reopened file). fold b0. rewrite Hwrite. done. }
  (* reading back *)
  assert (files b1 !! path self = Some gds') as Hfile1.
  { unfold b1, release_driver_object, set_files. simpl. apply lookup_insert_eq. }
  set (b2 := log_event (set_active b1 (pool_insert (max_active b1) (uid self) (active b1)))
                       (Acquire (uid self))).
  exists (release_driver_object b2 (path self) (reopened gds')).
  split; [exact Hset|].
  unfold get_data, build_sampling_footprint. rewrite Hsa, Hsg, Hint. simpl negb. cbn iota.
  unfold _sample. rewrite (py_assert_true _ Hsg'). cbn [bind].
  unfold acquire_driver_object. rewrite (allocator_w self _ gds' Hmode Hfile1).
  cbn [bind]. fold (reopened gds'). fold b2.
  unfold get_data_driver. rewrite Hsp.
  destruct Hop' as [HX' HY'].
  rewrite !py_assert_true by (rewrite andb_true_iff, Z.leb_le, Z.ltb_lt; lia).
  cbn [bind]. rewrite Eshape.
  destruct (read_bands_spec (reopened gds') qfp ox oy h w c band_ids Eshape)
    with (i := 0%nat) (dst := data (empty (h, w) c (dtype self)))
    as (d & Hread & Hd & Hget); try done; try lia.
  { simpl. lia. } { simpl. lia. }
  { eapply Forall_impl; [exact Hids|]. intros id Hid. simpl in *.
    unfold band_id_ok in *. simpl. by rewrite Hl'. }
  { apply has_shape_replicate. }
  fold c. rewrite Hread. cbn [bind].
  assert (d = data a) as ->.
  { apply (array_ext _ _ h w c Hd Ha). intros y x j Hyh Hxw Hj.
    rewrite (Hget y x j Hyh Hxw Hj). rewrite Nat.sub_0_r.
    destruct (lookup_lt_is_Some_2 band_ids j Hj) as [id Hid]. rewrite Hid.
    rewrite decide_True by lia.
    rewrite cells_reopened, (Hcells j id Hid). simpl.
    rewrite Forall_lookup in Hids. specialize (Hids j id Hid). simpl in Hids.
    destruct (gdalband_ok file id Hids) as [_ Hidx].
    pose proof (dataset_ok_cells _ _ file (ref_of id) Hds Hidx) as Hm.
    rewrite cells_reopened.
    unfold shape in Eshape. injection Eshape as Eh Ew.
    destruct (cell_in_shape (cells file (ref_of id)) _ _
                (y + Z.to_nat oy) (x + Z.to_nat ox) Hm) as [v Hv]; [lia | lia |].
    replace (Z.of_nat y + oy) with (Z.of_nat (y + Z.to_nat oy)) by lia.
    replace (Z.of_nat x + ox) with (Z.of_nat (x + Z.to_nat ox)) by lia.
    rewrite (cell_paste _ _ _ _ _ _ v Hv).
    replace (Z.of_nat (y + Z.to_nat oy) - oy) with (Z.of_nat y) by lia.
    replace (Z.of_nat (x + Z.to_nat ox) - ox) with (Z.of_nat x) by lia.
    destruct (get3_in_shape (data a) h w c y x j Ha Hyh Hxw Hj) as [va Hva].
    rewrite (cell_chan_get3 _ _ _ _ _ Hva). simpl. by rewrite Hva. }
  simpl dtype_of. simpl shape_of.
  assert (mkArray (dtype self) (h, w, c) (data a) = a) as ->.
  { destruct a; simpl in *. by subst. }
  rewrite (remap_same _ qfp a _ _ _ _ h w c Eshape Hshape Ha). cbn [bind].
  by rewrite (astype_same _ _ Hdt).
Qed.

(** C2: when the requested footprint shares no area with the raster, the
    sampling footprint is none and [get_data] returns, without touching the
    back, the array of shape [(fp.ry, fp.rx, len(band_ids))] and of the
    raster's dtype whose every cell is [dst_nodata] as a value of that
    dtype: [dst_nodata] itself whenever the dtype can hold it. *)
Theorem get_data_outside self qfp band_ids dst_nodata interp b :
  share_area (fp self) qfp = false ->
  build_sampling_footprint self qfp interp = None /\
  get_data self qfp band_ids dst_nodata interp b
  = Return (mkArray (dtype self)
              ((shape qfp).1, (shape qfp).2, length band_ids)
              (replicate (shape qfp).1
                 (replicate (shape qfp).2
                    (replicate (length band_ids) (cast (dtype self) dst_nodata)))),
            b) /\
  (in_range (dtype self) dst_nodata = true ->
   cast (dtype self) dst_nodata = dst_nodata).
Proof.
  intros Hsa.
  assert (build_sampling_footprint self qfp interp = None) as Hn.
  { unfold build_sampling_footprint. by rewrite Hsa. }
  split; [exact Hn|]. split; [by rewrite get_data_none | apply cast_in_range].
Qed.

(** C9: [set_data] with a footprint that shares no area with the raster
    returns at once: the back is the one it was given, with the same files,
    the same pool and no [Acquire] added to its journal. *)
Theorem set_data_outside self a qfp band_ids interp msk b :
  share_area qfp (fp self) = false ->
  set_data self a qfp band_ids interp msk b = Return b.
Proof. intros Hsa. unfold set_data. by rewrite Hsa. Qed.

(** C10: whenever [get_data] returns, on the path without intersection
    and on the sampled path, the array has the raster's dtype and is a
    regular array of shape [(fp.ry, fp.rx, len(band_ids))]. *)
Theorem get_data_shape self qfp band_ids dst_nodata interp b a b' :
  get_data self qfp band_ids dst_nodata interp b = Return (a, b') ->
  dtype_of a = dtype self /\
  shape_of a = ((shape qfp).1, (shape qfp).2, length band_ids) /\
  has_shape (data a) (shape qfp).1 (shape qfp).2 (length band_ids).
Proof.
  unfold get_data.
  destruct (build_sampling_footprint self qfp interp) as [samplefp|].
  - unfold _sample.
    destruct (py_assert (same_grid samplefp (fp self))) as [[]|e]; cbn [bind]; [|done].
    destruct (acquire_driver_object b (uid self) (_allocator self))
      as [[gds b1]|e]; cbn [bind]; [|done].
    unfold get_data_driver.
    destruct (spatial_to_raster (fp self) (tl samplefp)) as [rtlx rtly].
    destruct (py_assert _) as [[]|e]; cbn [bind]; [|done].
    destruct (py_assert _) as [[]|e]; cbn [bind]; [|done].
    destruct (read_bands gds rtlx rtly samplefp 0 band_ids _) as [d|e] eqn:Er;
      cbn [bind]; [|done].
    apply read_bands_shape
      with (h := (shape samplefp).1) (w := (shape samplefp).2) (c := length band_ids)
      in Er; [|apply has_shape_replicate].
    destruct (remap _ samplefp qfp _ None (nodata self) dst_nodata "erode" interp)
      as [[arr msk]|e] eqn:Em; cbn [bind]; [|done].
    apply remap_shape
      with (h := (shape samplefp).1) (w := (shape samplefp).2) (c := length band_ids)
      in Em; [|done|done].
    destruct Em as (Hd & Hs & Hh).
    intros [= <- _]. by apply astype_shape.
  - intros [= <- _]. simpl. split; [done|]. split; [done|]. apply has_shape_replicate.
Qed.

End DataAccess.

End RasterProofs.

(** * Proofs about the DataSource *)

Module DataSourceProofs.

Import DataSource.

(** ** Construction, closing and recipes *)

Section Registry.

Context `{Externals}.

Lemma foldl_proxy_close (l : list Proxy) : forall self,
  _ds_closed (foldl proxy_close self l) = _ds_closed self /\
  journal (_back (foldl proxy_close self l))
  = journal (_back self) ++ ((fun p => ProxyClose (uid p)) <$> l) /\
  wkt (foldl proxy_close self l) = wkt self /\
  Forall (fun e : Proxy * list string =>
            e ∈ _keys_of_proxy self /\ uid e.1 ∉ uid <$> l)
         (_keys_of_proxy (foldl proxy_close self l)) /\
  Forall (fun e : string * Proxy =>
            e ∈ _proxy_of_key self /\ uid e.2 ∉ uid <$> l)
         (_proxy_of_key (foldl proxy_close self l)).
Proof.
  induction l as [|p l IH]; intros self.
  - simpl. rewrite app_nil_r. repeat split; try done.
    all: apply Forall_forall; intros e He; split; [done | apply not_elem_of_nil].
  - simpl. destruct (IH (proxy_close self p)) as (Hc & Hj & Hw & Hk & Hp).
    rewrite Hc, Hj, Hw. simpl. rewrite <- app_assoc. simpl.
    repeat split; try done.
    + eapply Forall_impl; [exact Hk|]. intros e [He Hn]. simpl in He.
      apply list_elem_of_filter in He as [Hu He]. split; [done|].
      rewrite not_elem_of_cons. split; [done|exact Hn].
    + eapply Forall_impl; [exact Hp|]. intros e [He Hn]. simpl in He.
      apply list_elem_of_filter in He as [Hu He]. split; [done|].
      rewrite not_elem_of_cons. split; [done|exact Hn].
Qed.

Lemma all_closed {A} (proj : A -> Proxy) (src res : list A) (l : list Proxy) :
  (forall e, e ∈ src -> uid (proj e) ∈ uid <$> l) ->
  Forall (fun e => e ∈ src /\ uid (proj e) ∉ uid <$> l) res -> res = [].
Proof.
  intros Hin Hf. destruct res as [|e res]; [done|].
  apply Forall_cons in Hf as [[He Hn] _]. exfalso. apply Hn. by apply Hin.
Qed.

Lemma call_close_open self :
  _ds_closed self = false ->
  call_close self = Return (foldl proxy_close (closing self) (_keys_of_proxy self).*1).
Proof. intros Ho. unfold call_close, close, _close. rewrite Ho. cbn [bind]. by rewrite Ho. Qed.

Lemma call_close_closed self :
  _ds_closed self = true -> call_close self = Raise Closed.
Proof. intros Hc. unfold call_close, close. by rewrite Hc. Qed.

Lemma covering_weaken t f :
  is_tiling_covering_fp t f false false = true -> is_tiling_covering_fp t f true true = true.
Proof.
  unfold is_tiling_covering_fp. cbn [orb]. rewrite !andb_true_iff. tauto.
Qed.

(** C7: [create_raster_recipe] performs no action: for every argument
    list it returns [None] and leaves the DataSource as it was. *)
Theorem create_raster_recipe_noop (self : DataSource) (call : raster_recipe_call) :
  create_raster_recipe self call = Return (PyNone, self).
Proof. reflexivity. Qed.

(** C4: once the deprecated keywords are streamlined and no unexpected
    keyword is left, construction fails with [BadSrMode] for every
    combination of [(sr_work, sr_fallback, sr_forced)] outside the four of
    the table, and for each of the four it succeeds (given spatial
    references that OSR reads and [max_active >= 1]). *)
Theorem init_sr_mode self_id sr_work sr_fallback sr_forced at_ ang ai ma0 obs kwargs
    fb fo mav kw1 kw2 :
  streamline_with_kwargs "sr_fallback" [("sr_implicit", "0.4.4")]
    "DataSource.__init__" sr_fallback (negb (is_None sr_fallback)) kwargs
  = Return (fb, kw1) ->
  streamline_with_kwargs "sr_forced" [("sr_origin", "0.4.4")]
    "DataSource.__init__" sr_forced (negb (is_None sr_forced)) kw1
  = Return (fo, kw2) ->
  streamline_with_kwargs "max_active" [("max_activated", "0.5.0")]
    "DataSource.__init__" ma0 (neq_inf ma0) kw2
  = Return (mav, []) ->
  let mode := (negb (is_None sr_work), negb (is_None fb), negb (is_None fo)) in
  let built :=
    __init__ self_id sr_work sr_fallback sr_forced at_ ang ai ma0 obs kwargs in
  (legal_sr_mode mode = false -> built = Raise BadSrMode) /\
  (legal_sr_mode mode = true ->
   wkt_usable sr_work && wkt_usable fb && wkt_usable fo = true ->
   forall ma, mav = PyNum ma -> lt_number ma (Finite 1) = false ->
   exists ds, built = Return ds /\ _ds_closed ds = false /\
              max_active (_back ds) = ma /\ __len__ ds = 0%nat).
Proof.
  intros H1 H2 H3 mode built. subst mode built. unfold __init__.
  rewrite H1. cbn [bind]. rewrite H2. cbn [bind]. rewrite H3. cbn [bind].
  unfold wkt_usable.
  destruct (is_None sr_work), (is_None fb), (is_None fo); cbn [negb];
    (split; [intros Hl | intros Hl Hw ma -> Hm]);
    try (vm_compute in Hl; discriminate Hl); try reflexivity.
  all: cbn [orb andb] in Hw.
  all: repeat match type of Hw with
       | context [GetUserInputAsWKT ?v] =>
           destruct (GetUserInputAsWKT v) eqn:?; cbn [returns andb] in Hw;
           try discriminate Hw
       end.
  all: cbn [bind as_number]; rewrite Hm; cbn [bind]; eexists; repeat split.
Qed.

(** C3 (as amended): the first [close()] on an open DataSource succeeds:
    it sets the flag, stops the scheduler, joins the pools and closes every
    registered source, in that order, and leaves the registry empty.  A
    second [close()] fails with [Closed].  Operations that do not read the
    flag still answer: [wkt], [len] and [create_raster_recipe]. *)
Theorem close_then_closed (self : DataSource) :
  _ds_closed self = false ->
  registry_consistent self = true ->
  exists self',
    call_close self = Return self' /\
    _ds_closed self' = true /\
    journal (_back self')
    = journal (_back self) ++ [StopScheduler; JoinAllPools]
      ++ ((fun p => ProxyClose (uid p)) <$> (_keys_of_proxy self).*1) /\
    _keys_of_proxy self' = [] /\ _proxy_of_key self' = [] /\
    call_close self' = Raise Closed /\
    wkt self' = wkt self /\
    __len__ self' = 0%nat /\
    (forall call, create_raster_recipe self' call = Return (PyNone, self')).
Proof.
  intros Hopen Hreg. rewrite (call_close_open self Hopen).
  set (s0 := closing self).
  destruct (foldl_proxy_close (_keys_of_proxy self).*1 s0) as (Hc & Hj & Hw & Hk & Hp).
  exists (foldl proxy_close s0 (_keys_of_proxy self).*1).
  assert (_keys_of_proxy (foldl proxy_close s0 (_keys_of_proxy self).*1) = []) as Hk0.
  { eapply (all_closed fst); [|exact Hk]. intros e He.
    by apply list_elem_of_fmap_2, list_elem_of_fmap_2. }
  assert (_proxy_of_key (foldl proxy_close s0 (_keys_of_proxy self).*1) = []) as Hp0.
  { eapply (all_closed snd); [|exact Hp]. intros e He.
    unfold registry_consistent in Hreg. rewrite forallb_forall in Hreg.
    apply list_elem_of_In in He. apply Hreg in He. by apply bool_decide_eq_true in He. }
  split; [done|]. split; [by rewrite Hc|].
  split; [rewrite Hj; simpl; by rewrite <- !app_assoc|].
  split; [exact Hk0|]. split; [exact Hp0|].
  split; [apply call_close_closed; by rewrite Hc|].
  split; [by rewrite Hw|]. split; [|done].
  unfold __len__. by rewrite Hk0.
Qed.


(** C8: when [cache_tiles] is an exact cover without overlap and
    [computation_tiles] is an explicit array, the tilings stage passes and
    keeps [computation_tiles] as it is, whatever it covers: a failure of the
    construction comes from a later step, and a constructed recipe holds
    both tilings as given. *)
Theorem computation_tiles_unchecked self c f dt schema wkt backs kws conv pools tc t :
  check_classic self c = Return (f, dt, schema, wkt) ->
  check_callables c = Return tt ->
  check_primitives self c = Return (backs, kws, conv) ->
  check_pools self c = Return pools ->
  cache_tiles c = PyTiles tc ->
  is_tiling_covering_fp tc f false false = true ->
  computation_tiles c = PyTiles t ->
  check_tilings f (cache_tiles c) (computation_tiles c) = Return (tc, t) /\
  (forall e, create_cached_raster_recipe self c = Raise e ->
     check_misc c = Raise e \/
     (exists args, r_computation_tiles args = t /\
                   CachedRasterRecipe self args = Raise e) \/
     (exists prox, _register self [key c] prox = Raise e)) /\
  (forall prox self', create_cached_raster_recipe self c = Return (prox, self') ->
     exists args, CachedRasterRecipe self args = Return prox /\
                  r_cache_tiles args = tc /\ r_computation_tiles args = t).
Proof.
  intros H1 H2 H3 H4 Hct Hcov Hcp.
  assert (check_tilings f (cache_tiles c) (computation_tiles c) = Return (tc, t)) as Ht.
  { unfold check_tilings, cache_tiling, computation_tiling.
    rewrite Hct, Hcp, Hcov. cbn [negb bind].
    by rewrite (covering_weaken _ _ Hcov). }
  split; [exact Ht|].
  unfold create_cached_raster_recipe.
  rewrite H1. cbn [bind]. rewrite H2. cbn [bind]. rewrite H3. cbn [bind].
  rewrite H4. destruct pools as [[[cp mp] ip] rp]. cbn [bind].
  rewrite Ht. cbn [bind].
  destruct (check_misc c) as [dir|e0]; cbn [bind].
  2:{ split; [intros e [= <-]; by left | done]. }
  match goal with |- context [CachedRasterRecipe self ?a] => set (args := a) end.
  destruct (CachedRasterRecipe self args) as [p|e0] eqn:Ep; cbn [bind].
  2:{ split; [|done]. intros e [= <-]. right. left. by exists args. }
  destruct (_register self [key c] p) as [s|e0] eqn:Er; cbn [bind].
  2:{ split; [|done]. intros e [= <-]. right. right. by exists p. }
  split; [done|]. intros prox self' [= <- <-]. by exists args.
Qed.

End Registry.

(** ** Activation *)

Section Activation.

Lemma activate_fresh p b :
  is_active p b = false ->
  (Z.of_nat (length (active b)) < match max_active b with Finite c => c | Inf => Z.of_nat (length (active b)) + 1 end) ->
  activate p b = match alloc p (files b) with
                 | Some e => Raise e
                 | None => Return (set_active b (active b ++ [uid p]))
                 end.
Proof.
  intros Hin Hcap. unfold activate, pool_insert. unfold is_active in Hin. rewrite Hin.
  destruct (alloc p (files b)); [done|].
  destruct (max_active b) as [c|]; simpl; [|done].
  destruct (Z.eqb_spec (Z.of_nat (length (active b))) c); [lia | done].
Qed.

Lemma pool_room (proxs : list Proxy) (pool : list nat) u :
  NoDup pool -> (forall v, v ∈ pool -> v ∈ uid <$> proxs) ->
  u ∈ uid <$> proxs -> u ∉ pool ->
  (length pool < length proxs)%nat.
Proof.
  intros Hnd Hsub Hu Hn.
  assert (NoDup (u :: pool)) as Hnd' by (by apply NoDup_cons).
  assert (u :: pool ⊆+ uid <$> proxs) as Hs.
  { apply NoDup_submseteq; [done|]. intros v Hv.
    apply elem_of_cons in Hv as [->|Hv]; [done | by apply Hsub]. }
  apply submseteq_length in Hs. rewrite length_fmap in Hs. simpl in Hs. lia.
Qed.

Lemma cycle_loop_spec (proxs : list Proxy) cap fs :
  NoDup (uid <$> proxs) ->
  lt_number cap (Finite (Z.of_nat (length proxs))) = false ->
  forall fuel ring i b,
  ring ≡ₚ proxs -> max_active b = cap -> files b = fs ->
  NoDup (active b) -> (forall v, v ∈ active b -> v ∈ uid <$> proxs) ->
  (i <= length proxs)%nat ->
  Forall (fun p => is_active p b = true) (drop (length proxs - i) ring) ->
  ((length proxs - length (active b)) * (length proxs + 1) + (length proxs - i) < fuel)%nat ->
  exists r, cycle_loop fuel (length proxs) ring i b = Some r /\
    match r with
    | Return b' =>
        all_active proxs b' = true /\ files b' = fs /\ max_active b' = cap /\
        journal b' = journal b
    | Raise e => exists p, p ∈ proxs /\ alloc p fs = Some e
    end.
Proof.
  intros Hnd Hcap. remember (length proxs) as T eqn:HT.
  induction fuel as [|fuel IH]; intros ring i b Hperm Hmax Hfs Hpool Hsub Hi Hact Hfuel;
    [by apply Nat.nlt_0_r in Hfuel|].
  assert (length ring = T) as Hlen by (by rewrite Hperm, HT).
  cbn [cycle_loop].
  destruct ring as [|p rest].
  { exists (Return b). split; [done|].
    apply Permutation_nil_l in Hperm. rewrite <- Hperm. done. }
  simpl in Hlen.
  assert (p ∈ proxs) as Hp by (rewrite <- Hperm; by left).
  destruct (Nat.eqb_spec i T) as [->|Hne].
  { exists (Return b). split; [done|]. rewrite Nat.sub_diag in Hact. simpl in Hact.
    split; [|done]. unfold all_active. apply forallb_forall. intros q Hq.
    rewrite Forall_forall in Hact. apply Hact. rewrite Hperm.
    by apply list_elem_of_In. }
  assert (rest ++ [p] ≡ₚ proxs) as Hperm'.
  { rewrite <- Hperm. symmetry. apply Permutation_cons_append. }
  destruct (is_active p b) eqn:Ea; cbn [negb].
  - (* already active *)
    apply (IH (rest ++ [p]) (i + 1)%nat b); try done; try lia.
    replace (T - (i + 1))%nat with (T - i - 1)%nat by lia.
    rewrite drop_app_le by lia. apply Forall_app. split; [|by repeat constructor].
    replace (T - i)%nat with (S (T - i - 1)) in Hact by lia. exact Hact.
  - (* activated *)
    assert (uid p ∉ active b) as Hnin.
    { unfold is_active in Ea. by apply bool_decide_eq_false in Ea. }
    assert (length (active b) < T)%nat as Hroom.
    { rewrite HT. apply (pool_room proxs (active b) (uid p)); try done. by apply list_elem_of_fmap_2. }
    rewrite activate_fresh; [|done|].
    2:{ rewrite Hmax. destruct cap as [c|]; [|lia]. simpl in Hcap.
        apply Z.ltb_ge in Hcap. lia. }
    rewrite Hfs. destruct (alloc p fs) as [e|] eqn:Eal.
    { exists (Raise e). split; [done|]. by exists p. }
    destruct (IH (rest ++ [p]) 1%nat (set_active b (active b ++ [uid p])))
      as (r & Hrun & Hpost); try done.
    + simpl. apply NoDup_app. split; [done|]. split; [|apply NoDup_singleton].
      intros v Hv Hv'. apply list_elem_of_singleton in Hv'. by subst.
    + simpl. intros v Hv. apply elem_of_app in Hv as [Hv|Hv]; [by apply Hsub|].
      apply list_elem_of_singleton in Hv. subst. by apply list_elem_of_fmap_2.
    + lia.
    + replace (T - 1)%nat with (length rest) by lia. rewrite drop_app_length.
      repeat constructor. unfold is_active. simpl. apply bool_decide_eq_true.
      apply elem_of_app. right. by left.
    + simpl. rewrite length_app. simpl. nia.
    + exists r. split; [exact Hrun|]. destruct r; [|done]. simpl in Hpost. exact Hpost.
Qed.

(** C6: with more pooled sources than [max_active], [activate_all] fails
    with [TooMany]; otherwise the loop over the cycle ends within
    [(n + 1) * (n + 1)] iterations for [n] pooled sources, and when the call
    returns every pooled source is active, whatever the pool held before.
    An allocator that fails ends the call with its error. *)
Theorem activate_all_spec (self : DataSource) :
  pool_consistent self = true ->
  let proxs := pooled_proxies self in
  let too_many :=
    lt_number (max_active (_back self)) (Finite (Z.of_nat (length proxs))) in
  (too_many = true -> forall fuel, activate_all fuel self = Some (Raise TooMany)) /\
  (too_many = false ->
   forall fuel, ((length proxs + 1) * (length proxs + 1) <= fuel)%nat ->
   exists r, activate_all fuel self = Some r /\
     match r with
     | Return self' =>
         all_active (pooled_proxies self') (_back self') = true /\
         _keys_of_proxy self' = _keys_of_proxy self /\
         files (_back self') = files (_back self)
     | Raise e => exists p, p ∈ proxs /\ alloc p (files (_back self)) = Some e
     end).
Proof.
  intros Hinv proxs too_many. subst too_many. unfold activate_all. fold proxs.
  split; [by intros -> |]. intros Hcap fuel Hfuel. rewrite Hcap.
  unfold pool_consistent in Hinv. fold proxs in Hinv.
  rewrite !andb_true_iff, !bool_decide_eq_true, forallb_forall in Hinv.
  destruct Hinv as [[Hnd Hpool] Hsub].
  destruct (cycle_loop_spec proxs (max_active (_back self)) (files (_back self)) Hnd Hcap
              fuel proxs 0%nat (_back self)) as (r & Hrun & Hpost); try done.
  - intros v Hv. apply list_elem_of_In in Hv. apply Hsub in Hv.
    by apply bool_decide_eq_true in Hv.
  - lia.
  - rewrite Nat.sub_0_r, drop_all. constructor.
  - nia.
  - rewrite Hrun. destruct r as [b'|e].
    + exists (Return (with_back self b')). split; [done|].
      destruct Hpost as (Hall & Hf & _). done.
    + exists (Raise e). done.
Qed.

End Activation.

End DataSourceProofs.

(** * Laws of the file raster *)

Module RasterLaws.

Import Attrs BackGDALFileRaster RasterProofs.

(** ** Pixels of two footprints of one grid *)

Section Grid.

Lemma spatial_to_raster_node f c r :
  det f <> 0 -> spatial_to_raster f (raster_to_spatial f (c, r)) = (c, r).
Proof.
  intros Hd. unfold spatial_to_raster.
  assert (col_num f (raster_to_spatial f (c, r)) = c * det f) as ->.
  { unfold col_num, raster_to_spatial, det. simpl. ring. }
  assert (row_num f (raster_to_spatial f (c, r)) = r * det f) as ->.
  { unfold row_num, raster_to_spatial, det. simpl. ring. }
  by rewrite !Z.div_mul.
Qed.

Lemma nodes_same_grid f a b ca ra cb rb :
  det f <> 0 ->
  ax a = ax f -> ay a = ay f -> ax b = ax f -> ay b = ay f ->
  origin a = raster_to_spatial f (ca, ra) ->
  origin b = raster_to_spatial f (cb, rb) ->
  same_grid a b = true /\ spatial_to_raster a (tl b) = (cb - ca, rb - ra).
Proof.
  intros Hd Haa Hay Hba Hby Hoa Hob.
  assert (det a = det f) as Hda by (unfold det; by rewrite Haa, Hay).
  assert (col_num a (origin b) = (cb - ca) * det f) as Hc.
  { unfold col_num, det. rewrite Hoa, Hob, Hay. unfold raster_to_spatial. simpl. ring. }
  assert (row_num a (origin b) = (rb - ra) * det f) as Hr.
  { unfold row_num, det. rewrite Hoa, Hob, Haa. unfold raster_to_spatial. simpl. ring. }
  split.
  - unfold same_grid, on_grid. rewrite Haa, Hay, Hba, Hby, Hda, Hc, Hr.
    rewrite !bool_decide_eq_true_2 by done. by rewrite !Z.mod_mul.
  - unfold spatial_to_raster, tl. rewrite Hda, Hc, Hr. by rewrite !Z.div_mul.
Qed.

Lemma origin_node f : origin f = raster_to_spatial f (0, 0).
Proof. unfold raster_to_spatial. destruct (origin f). simpl. f_equal; lia. Qed.

Lemma share_area_sym a b : share_area a b = share_area b a.
Proof.
  unfold share_area. cbn [forallb].
  assert (forall n, overlap_along n a b = overlap_along n b a) as E.
  { intros n. unfold overlap_along. apply andb_comm. }
  rewrite !E.
  destruct (overlap_along (perp (ax a)) b a), (overlap_along (perp (ay a)) b a),
    (overlap_along (perp (ax b)) b a), (overlap_along (perp (ay b)) b a); done.
Qed.

Lemma overlap_1d base D ra rb j :
  D <> 0 -> 1 <= ra -> 1 <= rb ->
  (Z.min base (base + ra * D) <? Z.max (base + j * D) (base + (j + rb) * D))
  && (Z.min (base + j * D) (base + (j + rb) * D) <? Z.max base (base + ra * D))
  = (0 <? j + rb) && (j <? ra).
Proof.
  intros HD Ha Hb. apply eq_true_iff_eq.
  rewrite !andb_true_iff, !Z.ltb_lt.
  destruct (Z.lt_trichotomy D 0) as [Hn|[H0|Hp]]; [|done|].
  - assert (ra * D < 0) by nia. assert (rb * D < 0) by nia.
    rewrite (Z.min_r base), (Z.max_l base) by lia.
    rewrite (Z.max_l (base + j * D)), (Z.min_r (base + j * D)) by lia.
    split; intros [H1 H2]; split; nia.
  - assert (0 < ra * D) by nia. assert (0 < rb * D) by nia.
    rewrite (Z.min_l base), (Z.max_r base) by lia.
    rewrite (Z.max_r (base + j * D)), (Z.min_l (base + j * D)) by lia.
    split; intros [H1 H2]; split; nia.
Qed.

Lemma dot_node n f c r :
  dot n (raster_to_spatial f (c, r))
  = dot n (origin f) + c * dot n (ax f) + r * dot n (ay f).
Proof. unfold dot, raster_to_spatial. simpl. ring. Qed.

Lemma dot_perp f :
  dot (perp (ax f)) (ax f) = 0 /\ dot (perp (ax f)) (ay f) = det f /\
  dot (perp (ay f)) (ax f) = - det f /\ dot (perp (ay f)) (ay f) = 0.
Proof. unfold dot, perp, det. simpl. repeat split; ring. Qed.

(** The shadow of a footprint of the grid of [f] along the two edge
    normals of [f]. *)
Lemma proj_on_grid f g i j :
  ax g = ax f -> ay g = ay f -> origin g = raster_to_spatial f (i, j) ->
  0 <= rsizex g -> 0 <= rsizey g ->
  let B := dot (perp (ax f)) (origin f) in
  let B' := dot (perp (ay f)) (origin f) in
  proj_min (perp (ax f)) g = Z.min (B + j * det f) (B + (j + rsizey g) * det f) /\
  proj_max (perp (ax f)) g = Z.max (B + j * det f) (B + (j + rsizey g) * det f) /\
  proj_min (perp (ay f)) g = Z.min (B' + i * - det f) (B' + (i + rsizex g) * - det f) /\
  proj_max (perp (ay f)) g = Z.max (B' + i * - det f) (B' + (i + rsizex g) * - det f).
Proof.
  intros Hax Hay Ho Hx Hy B B'.
  destruct (dot_perp f) as (E1 & E2 & E3 & E4).
  unfold proj_min, proj_max, corners. cbn [fmap list_fmap foldr].
  rewrite !dot_node, Hax, Hay, Ho, !dot_node, E1, E2, E3, E4.
  fold B B'. generalize (det f). intros D. clearbody B B'.
  repeat split; lia.
Qed.

Lemma share_area_pixels a b :
  wf a = true -> wf b = true -> same_grid a b = true ->
  share_area a b =
  ((0 <? (spatial_to_raster a (tl b)).1 + rsizex b)
   && ((spatial_to_raster a (tl b)).1 <? rsizex a))
  && ((0 <? (spatial_to_raster a (tl b)).2 + rsizey b)
      && ((spatial_to_raster a (tl b)).2 <? rsizey a)).
Proof.
  intros Hwa Hwb Hs.
  destruct (same_grid_spec a b Hwa Hs) as (Hax & Hay & Ho).
  apply wf_det in Hwb as (_ & Hx & Hy).
  apply wf_det in Hwa as (Hd & Hxa & Hya).
  destruct (spatial_to_raster a (tl b)) as [i j]. cbn [fst snd] in *.
  destruct (proj_on_grid a a 0 0) as (A1 & A2 & A3 & A4);
    [done | done | apply origin_node | lia | lia |].
  destruct (proj_on_grid a b i j) as (B1 & B2 & B3 & B4); [done | done | done | lia | lia |].
  unfold share_area, overlap_along. cbn [forallb]. rewrite Hax, Hay.
  rewrite A1, A2, A3, A4, B1, B2, B3, B4. rewrite !Z.mul_0_l, !Z.add_0_r, !Z.add_0_l.
  rewrite (overlap_1d _ (det a)) by lia.
  rewrite (overlap_1d _ (- det a)) by lia.
  rewrite andb_true_r.
  destruct ((0 <? j + rsizey b) && (j <? rsizey a)), ((0 <? i + rsizex b) && (i <? rsizex a)); done.
Qed.

End Grid.

(** ** What [get_data] reads *)

Section Cells.

Lemma cell_outside {A} (m : list (list A)) h w (Y X : Z) :
  matrix_shape m h w ->
  ~ (0 <= Y < Z.of_nat h /\ 0 <= X < Z.of_nat w) -> cell m Y X = None.
Proof.
  intros [Hl Hf] Hout. unfold cell.
  destruct (Z.leb_spec 0 Y), (Z.leb_spec 0 X); cbn [andb]; try done.
  destruct (m !! Z.to_nat Y) as [row|] eqn:Er; [|done].
  pose proof (lookup_lt_Some _ _ _ Er) as Hy.
  rewrite Forall_lookup in Hf. specialize (Hf _ _ Er). simpl in Hf.
  apply lookup_ge_None. lia.
Qed.

Lemma cell_inside {A} (m : list (list A)) h w (Y X : Z) :
  matrix_shape m h w ->
  0 <= Y < Z.of_nat h -> 0 <= X < Z.of_nat w -> exists v, cell m Y X = Some v.
Proof.
  intros Hs Hy Hx.
  destruct (cell_in_shape m h w (Z.to_nat Y) (Z.to_nat X) Hs) as [v Hv]; [lia | lia |].
  exists v. by rewrite !Z2Nat.id in Hv by lia.
Qed.

Lemma get3_tabulate2 h w (f : nat -> nat -> list Z) y x i :
  (y < h)%nat -> (x < w)%nat -> get3 (tabulate2 h w f) y x i = f y x !! i.
Proof.
  intros Hy Hx. unfold get3. rewrite tabulate2_lookup by done.
  rewrite list_lookup_fmap, lookup_seq_lt by done. done.
Qed.

Lemma get3_of_cell (d : list (list (list Z))) (Y X : Z) px i :
  cell d Y X = Some px -> get3 d (Z.to_nat Y) (Z.to_nat X) i = px !! i.
Proof.
  unfold cell, get3. destruct ((0 <=? Y) && (0 <=? X)); [|done].
  destruct (d !! Z.to_nat Y) as [row|]; [|done]. by intros ->.
Qed.

Lemma get3_replicate h w c (v : Z) y x i :
  (y < h)%nat -> (x < w)%nat -> (i < c)%nat ->
  get3 (replicate h (replicate w (replicate c v))) y x i = Some v.
Proof.
  intros Hy Hx Hi. unfold get3.
  rewrite lookup_replicate_2 by done. rewrite lookup_replicate_2 by done.
  by apply lookup_replicate_2.
Qed.

End Cells.

Section Sampling.

Context `{Collaborators}.

Lemma allocator_ok self fs file u :
  of_of_mode (mode self) = Return u -> fs !! path self = Some file ->
  _allocator self fs
  = Return (mkDataset u (RasterXSize file) (RasterYSize file) (bands file)).
Proof.
  intros Hm Hf. unfold _allocator, _open_file, OpenEx. rewrite Hm, Hf. done.
Qed.

(** The pixels that two footprints of one grid have in common. *)
Lemma intersection_pixels a q :
  wf a = true -> wf q = true -> same_grid a q = true ->
  let i := (spatial_to_raster a (tl q)).1 in
  let j := (spatial_to_raster a (tl q)).2 in
  let i0 := Z.max 0 i in
  let j0 := Z.max 0 j in
  let i1 := Z.min (rsizex a) (i + rsizex q) in
  let j1 := Z.min (rsizey a) (j + rsizey q) in
  if share_area a q
  then intersection_same_grid a q = Return (window a i0 j0 (i1 - i0) (j1 - j0))
       /\ i0 < i1 /\ j0 < j1
  else ~ (0 < i + rsizex q /\ i < rsizex a /\ 0 < j + rsizey q /\ j < rsizey a).
Proof.
  intros Hwa Hwq Hs. rewrite (share_area_pixels a q Hwa Hwq Hs).
  unfold intersection_same_grid.
  apply wf_det in Hwq as (_ & Hx & Hy).
  apply wf_det in Hwa as (Hd & Hxa & Hya).
  destruct (spatial_to_raster a (tl q)) as [i j]. cbn [fst snd].
  destruct (Z.ltb_spec 0 (i + rsizex q)), (Z.ltb_spec i (rsizex a)),
    (Z.ltb_spec 0 (j + rsizey q)), (Z.ltb_spec j (rsizey a)); cbn [andb]; try lia.
  replace ((Z.max 0 i <? Z.min (rsizex a) (i + rsizex q))
           && (Z.max 0 j <? Z.min (rsizey a) (j + rsizey q))) with true
    by (symmetry; rewrite andb_true_iff, !Z.ltb_lt; lia).
  split; [done|]. lia.
Qed.

Lemma window_nodes f c r w h :
  ax (window f c r w h) = ax f /\ ay (window f c r w h) = ay f /\
  origin (window f c r w h) = raster_to_spatial f (c, r) /\
  rsizex (window f c r w h) = w /\ rsizey (window f c r w h) = h.
Proof. done. Qed.

Lemma get_data_spec self qfp band_ids dst_nodata interp b file u :
  wf (fp self) = true -> wf qfp = true -> same_grid (fp self) qfp = true ->
  of_of_mode (mode self) = Return u ->
  files b !! path self = Some file ->
  dataset_ok (rsizex (fp self)) (rsizey (fp self)) file = true ->
  forallb (band_id_ok file) band_ids = true ->
  exists a b',
    get_data self qfp band_ids dst_nodata interp b = Return (a, b') /\
    forall y x i id,
      (y < (shape qfp).1)%nat -> (x < (shape qfp).2)%nat ->
      band_ids !! i = Some id ->
      get3 (data a) y x i
      = Some (default (cast (dtype self) dst_nodata)
                (cell (cells file (ref_of id))
                      ((spatial_to_raster (fp self) (tl qfp)).2 + Z.of_nat y)
                      ((spatial_to_raster (fp self) (tl qfp)).1 + Z.of_nat x))).
Proof.
  intros Hwf Hwq Hsg Hmode Hfile Hds Hids.
  pose proof (intersection_pixels _ _ Hwf Hwq Hsg) as Hint. cbn zeta in Hint.
  destruct (same_grid_spec _ _ Hwf Hsg) as (Hax & Hay & Ho).
  pose proof (wf_det _ Hwf) as (Hd & Hxa & Hya).
  pose proof (wf_det _ Hwq) as (_ & Hxq & Hyq).
  destruct (dataset_ok_spec _ _ _ Hds) as (HX & HY & _).
  apply forallb_Forall_true in Hids.
  assert (forall id, id ∈ band_ids ->
            matrix_shape (cells file (ref_of id))
              (Z.to_nat (rsizey (fp self))) (Z.to_nat (rsizex (fp self)))) as Hcells.
  { intros id Hin. rewrite Forall_forall in Hids.
    destruct (gdalband_ok file id (Hids _ Hin)) as [_ Hidx].
    by apply dataset_ok_cells. }
  destruct (spatial_to_raster (fp self) (tl qfp)) as [qx qy] eqn:Eq.
  cbn [fst snd] in *.
  set (c := length band_ids).
  unfold get_data, build_sampling_footprint. rewrite Hsg.
  destruct (share_area (fp self) qfp); cbn [negb].
  - (* the footprints share pixels *)
    destruct Hint as (Hint & Hi & Hj). rewrite Hint.
    set (i0 := Z.max 0 qx) in *. set (j0 := Z.max 0 qy) in *.
    set (i1 := Z.min (rsizex (fp self)) (qx + rsizex qfp)) in *.
    set (j1 := Z.min (rsizey (fp self)) (qy + rsizey qfp)) in *.
    set (s := window (fp self) i0 j0 (i1 - i0) (j1 - j0)).
    destruct (nodes_same_grid (fp self) s (fp self) i0 j0 0 0) as [Hss _];
      try done; [apply origin_node|].
    destruct (nodes_same_grid (fp self) s qfp i0 j0 qx qy) as [Hsq Hoff]; try done.
    unfold _sample. rewrite (py_assert_true _ Hss). cbn [bind].
    unfold acquire_driver_object. rewrite (allocator_ok self _ file u Hmode Hfile).
    cbn [bind].
    set (gds := mkDataset u _ _ _).
    set (b1 := log_event _ _).
    unfold get_data_driver.
    assert (spatial_to_raster (fp self) (tl s) = (i0, j0)) as ->
      by (by apply spatial_to_raster_node).
    rewrite !py_assert_true by (rewrite andb_true_iff, Z.leb_le, Z.ltb_lt; lia).
    cbn [bind].
    set (hs := Z.to_nat (j1 - j0)). set (ws := Z.to_nat (i1 - i0)).
    assert (shape s = (hs, ws)) as Eshape by done.
    rewrite Eshape.
    destruct (read_bands_spec gds s i0 j0 hs ws c band_ids Eshape)
      with (i := 0%nat) (dst := data (empty (hs, ws) c (dtype self)))
      as (d & Hread & Hdsh & Hget); try done; try (simpl; lia).
    { apply has_shape_replicate. }
    fold c. rewrite Hread. cbn [bind].
    unfold remap. rewrite Hsq. cbn [bind shape_of dtype_of data snd fst].
    rewrite astype_same by done.
    eexists _, _. split; [reflexivity|].
    intros y x i id Hy Hx Hid. cbn [data].
    unfold remap_slice. rewrite Hoff. unfold crop.
    rewrite get3_tabulate2 by done.
    assert (i < c)%nat as Hic by (by eapply lookup_lt_Some).
    assert (id ∈ band_ids) as Hin by (by eapply list_elem_of_lookup_2).
    specialize (Hcells id Hin).
    unfold shape in Hy, Hx. cbn [fst snd] in Hy, Hx.
    destruct (decide (0 <= Z.of_nat y + (qy - j0) < Z.of_nat hs
                      /\ 0 <= Z.of_nat x + (qx - i0) < Z.of_nat ws)) as [Hin'|Hout].
    + destruct (cell_inside d hs ws _ _ (has_shape_matrix _ _ _ _ Hdsh)
                  (proj1 Hin') (proj2 Hin')) as [px Hpx].
      rewrite Hpx. cbn [from_option Datatypes.id].
      rewrite <- (get3_of_cell _ _ _ _ i Hpx).
      rewrite Hget by lia. rewrite Nat.sub_0_r, Hid, decide_True by lia.
      rewrite !Z2Nat.id by lia.
      replace (Z.of_nat y + (qy - j0) + j0) with (qy + Z.of_nat y) by lia.
      replace (Z.of_nat x + (qx - i0) + i0) with (qx + Z.of_nat x) by lia.
      change (cells gds (ref_of id)) with (cells file (ref_of id)).
      destruct (cell_inside (cells file (ref_of id)) _ _
                  (qy + Z.of_nat y) (qx + Z.of_nat x) Hcells) as [v ->]; [lia | lia |].
      done.
    + rewrite (cell_outside d hs ws) by (done || by apply (has_shape_matrix _ _ _ c)).
      cbn [from_option empty shape_of dtype_of snd]. rewrite lookup_replicate_2 by done.
      rewrite (cell_outside (cells file (ref_of id)) _ _ _ _ Hcells); [done|].
      lia.
  - (* no pixel in common *)
    eexists _, _. split; [reflexivity|].
    intros y x i id Hy Hx Hid. cbn [full data].
    assert (i < c)%nat as Hic by (by eapply lookup_lt_Some).
    assert (id ∈ band_ids) as Hin by (by eapply list_elem_of_lookup_2).
    rewrite get3_replicate by done.
    unfold shape in Hy, Hx. cbn [fst snd] in Hy, Hx.
    rewrite (cell_outside (cells file (ref_of id)) _ _ _ _ (Hcells id Hin)); [done|].
    lia.
Qed.

(** X1: For a well-formed raster in mode r or w whose file is there with all
    the bands asked for, and a well-formed footprint on the raster's grid,
    [get_data] returns an array whose cell [(y, x, i)] is the value the file
    holds in band [band_ids[i]] at the raster pixel under the cell, and
    [dst_nodata] converted to the raster's dtype where the footprint lies
    outside the raster. *)
Theorem get_data_pointwise self qfp band_ids dst_nodata interp b file u :
  wf (fp self) = true -> wf qfp = true -> same_grid (fp self) qfp = true ->
  of_of_mode (mode self) = Return u ->
  files b !! path self = Some file ->
  dataset_ok (rsizex (fp self)) (rsizey (fp self)) file = true ->
  forallb (band_id_ok file) band_ids = true ->
  exists a b',
    get_data self qfp band_ids dst_nodata interp b = Return (a, b') /\
    forall y x i id,
      (y < (shape qfp).1)%nat -> (x < (shape qfp).2)%nat ->
      band_ids !! i = Some id ->
      get3 (data a) y x i
      = Some (default (cast (dtype self) dst_nodata)
                (cell (cells file (ref_of id))
                      ((spatial_to_raster (fp self) (tl qfp)).2 + Z.of_nat y)
                      ((spatial_to_raster (fp self) (tl qfp)).1 + Z.of_nat x))).
Proof. apply get_data_spec. Qed.

End Sampling.

(** ** What [set_data] writes *)

Section Writing.

Context `{Collaborators}.

Lemma cell_paste_any {A} (x y : Z) (a m : list (list A)) (Y X : Z) :
  cell (paste x y a m) Y X
  = match cell m Y X with
    | Some v => Some (default v (cell a (Y - y) (X - x)))
    | None => None
    end.
Proof.
  destruct (decide (0 <= Y /\ 0 <= X)) as [[HY HX]|Hneg].
  - rewrite (cell_nat (paste x y a m)), (cell_nat m) by lia.
    unfold paste. rewrite list_lookup_imap.
    destruct (m !! Z.to_nat Y) as [row|]; simpl; [|done].
    rewrite list_lookup_imap. rewrite !Z2Nat.id by lia.
    by destruct (row !! Z.to_nat X).
  - assert ((0 <=? Y) && (0 <=? X) = false) as E.
    { apply andb_false_iff. rewrite !Z.leb_gt. lia. }
    unfold cell at 1 2. by rewrite E.
Qed.

Lemma paste_shape {A} (x y : Z) (a m : list (list A)) h w :
  matrix_shape m h w -> matrix_shape (paste x y a m) h w.
Proof.
  intros [Hl Hf]. unfold paste. split; [by rewrite length_imap|].
  rewrite Forall_lookup. intros r row Hr. rewrite list_lookup_imap in Hr.
  destruct (m !! r) as [row0|] eqn:E; [|done]. injection Hr as <-.
  rewrite length_imap. rewrite Forall_lookup in Hf. by apply (Hf r).
Qed.

Lemma matrix_shape_ok {A} (m : list (list A)) h w :
  matrix_shape m h w -> matrix_ok h w m = true.
Proof.
  intros [Hl Hf]. unfold matrix_ok. rewrite andb_true_iff, Nat.eqb_eq. split; [done|].
  apply forallb_Forall_true. eapply Forall_impl; [exact Hf|].
  intros row Hr. by apply Nat.eqb_eq.
Qed.

Lemma dataset_ok_intro w h ds :
  RasterXSize ds = w -> RasterYSize ds = h ->
  (forall r, (ref_index r < length (bands ds))%nat ->
             matrix_shape (cells ds r) (Z.to_nat h) (Z.to_nat w)) ->
  dataset_ok w h ds = true.
Proof.
  intros HX HY Hc. unfold dataset_ok.
  rewrite !andb_true_iff, !Z.eqb_eq. split; [done|].
  apply forallb_Forall_true. rewrite Forall_lookup. intros k bd Hk.
  pose proof (lookup_lt_Some _ _ _ Hk) as Hlt.
  pose proof (Hc (RasterBand k) Hlt) as H1.
  pose proof (Hc (MaskBand k) Hlt) as H2.
  cbn [cells] in H1, H2. rewrite Hk in H1, H2. cbn in H1, H2.
  rewrite andb_true_iff. split; by apply matrix_shape_ok.
Qed.

Lemma get3_astype dt a y x i :
  get3 (data (astype dt a)) y x i
  = (fun v => if decide (dtype_of a = dt) then v else cast dt v) <$> get3 (data a) y x i.
Proof.
  unfold astype. destruct (decide (dtype_of a = dt)).
  - by destruct (get3 (data a) y x i).
  - cbn [data]. unfold get3. rewrite list_lookup_fmap.
    destruct (data a !! y) as [row|]; [|done]. cbn.
    rewrite list_lookup_fmap. destruct (row !! x) as [px|]; [|done]. cbn.
    by rewrite list_lookup_fmap.
Qed.

Lemma cell_chan_any i (d : list (list (list Z))) h w c (Y X : Z) :
  has_shape d h w c -> (i < c)%nat ->
  cell (chan i d) Y X
  = if decide (0 <= Y < Z.of_nat h /\ 0 <= X < Z.of_nat w)
    then get3 d (Z.to_nat Y) (Z.to_nat X) i else None.
Proof.
  intros Hd Hi. destruct (decide _) as [[Hy Hx]|Hout].
  - destruct (get3_in_shape d h w c (Z.to_nat Y) (Z.to_nat X) i Hd) as [v Hv];
      [lia | lia | done |].
    rewrite Hv. rewrite <- (cell_chan_get3 _ _ _ _ _ Hv). by rewrite !Z2Nat.id by lia.
  - apply (cell_outside _ h w); [by eapply chan_shape | done].
Qed.

Lemma set_data_spec self qfp a band_ids interp b file :
  slices_of_matrix None = [(mkSlice 0 None, mkSlice 0 None)] ->
  wf (fp self) = true -> wf qfp = true -> same_grid (fp self) qfp = true ->
  share_area qfp (fp self) = true ->
  mode self = "w"%string ->
  files b !! path self = Some file ->
  dataset_ok (rsizex (fp self)) (rsizey (fp self)) file = true ->
  NoDup band_ids ->
  forallb (band_id_ok file) band_ids = true ->
  array_ok a (shape qfp) (length band_ids) = true ->
  let qx := (spatial_to_raster (fp self) (tl qfp)).1 in
  let qy := (spatial_to_raster (fp self) (tl qfp)).2 in
  exists b1 file',
    set_data self a qfp band_ids interp None b = Return b1 /\
    files b1 = <[path self := file']> (files b) /\
    dataset_ok (rsizex (fp self)) (rsizey (fp self)) file' = true /\
    length (bands file') = length (bands file) /\
    (forall i id (y x : nat),
       band_ids !! i = Some id ->
       (y < (shape qfp).1)%nat -> (x < (shape qfp).2)%nat ->
       0 <= qy + Z.of_nat y < rsizey (fp self) ->
       0 <= qx + Z.of_nat x < rsizex (fp self) ->
       cell (cells file' (ref_of id)) (qy + Z.of_nat y) (qx + Z.of_nat x)
       = get3 (data (astype (dtype self) a)) y x i) /\
    (forall r Y X,
       (forall id, id ∈ band_ids -> ref_of id <> r) \/
       ~ (qy <= Y < qy + rsizey qfp /\ qx <= X < qx + rsizex qfp) ->
       cell (cells file' r) Y X = cell (cells file r) Y X).
Proof.
  intros Hsl Hwf Hwq Hsg Hsa Hmode Hfile Hds Hnd Hids Harr qx qy.
  pose proof (intersection_pixels _ _ Hwf Hwq Hsg) as Hint. cbn zeta in Hint.
  rewrite share_area_sym, Hsa in Hint.
  destruct (same_grid_spec _ _ Hwf Hsg) as (Hax & Hay & Ho).
  pose proof (same_grid_sym _ _ Hwf Hsg) as Hsg'.
  pose proof (wf_det _ Hwf) as (Hd & Hxa & Hya).
  pose proof (wf_det _ Hwq) as (_ & Hxq & Hyq).
  destruct (dataset_ok_spec _ _ _ Hds) as (HX & HY & _).
  apply forallb_Forall_true in Hids.
  destruct (array_ok_shape _ _ _ Harr) as [Hshape Ha].
  subst qx qy.
  destruct (spatial_to_raster (fp self) (tl qfp)) as [qx qy] eqn:Eq.
  cbn [fst snd] in *.
  destruct Hint as (Hint & Hi & Hj).
  set (i0 := Z.max 0 qx) in *. set (j0 := Z.max 0 qy) in *.
  set (i1 := Z.min (rsizex (fp self)) (qx + rsizex qfp)) in *.
  set (j1 := Z.min (rsizey (fp self)) (qy + rsizey qfp)) in *.
  set (s := window (fp self) i0 j0 (i1 - i0) (j1 - j0)) in *.
  set (c := length band_ids) in *.
  set (hs := Z.to_nat (j1 - j0)). set (ws := Z.to_nat (i1 - i0)).
  assert (shape s = (hs, ws)) as Eshape by done.
  destruct (nodes_same_grid (fp self) qfp s qx qy i0 j0) as [Hqs Hoff]; try done.
  assert (placed (fp self) s i0 j0) as Hpl.
  { unfold placed. rewrite (spatial_to_raster_node _ _ _ Hd : spatial_to_raster (fp self) (tl s) = _).
    cbn [s window rsizex rsizey]. repeat split; lia. }
  (* the array that is written *)
  set (fill := replicate c (cast (dtype_of a) (nodata_or_0 (nodata self)))).
  set (a1 := mkArray (dtype_of a) (hs, ws, c) (remap_slice qfp s (data a) fill)).
  assert (remap b qfp s a None (nodata self) (nodata_or_0 (nodata self)) "erode" interp
          = Return (a1, None)) as Hremap.
  { unfold remap. rewrite Hqs, Hshape. done. }
  assert (has_shape (data a1) hs ws c) as Ha1.
  { eapply (remap_shape b qfp s a None) in Hremap; [|exact Hshape|exact Ha].
    destruct Hremap as (_ & _ & Hh). exact Hh. }
  destruct (astype_shape (dtype self) a1 hs ws c eq_refl Ha1) as (_ & _ & Ha2).
  set (a2 := astype (dtype self) a1) in *.
  assert (forall (y' x' : nat) i, (y' < hs)%nat -> (x' < ws)%nat -> (i < c)%nat ->
            get3 (data a2) y' x' i
            = get3 (data (astype (dtype self) a))
                   (Z.to_nat (Z.of_nat y' + (j0 - qy))) (Z.to_nat (Z.of_nat x' + (i0 - qx))) i)
    as Hval.
  { intros y' x' i Hy' Hx' Hi'. unfold a2. rewrite !get3_astype. cbn [a1 dtype_of data].
    f_equal. unfold remap_slice. rewrite Hoff. unfold crop.
    rewrite get3_tabulate2 by done.
    destruct (cell_inside (data a) _ _ (Z.of_nat y' + (j0 - qy)) (Z.of_nat x' + (i0 - qx))
                (has_shape_matrix _ _ _ _ Ha)) as [px Hpx].
    { unfold shape. cbn [fst]. lia. } { unfold shape. cbn [snd]. lia. }
    rewrite Hpx. cbn [from_option Datatypes.id]. symmetry. by apply get3_of_cell. }
  (* writing *)
  destruct (write_bands_spec self s a2 i0 j0 hs ws c band_ids Hsl Hpl Eshape Ha2
              0%nat (reopened file)) as (gds' & Hwrite & Hu' & Hop' & Hl' & Hcells & Hframe);
    [done | by split | done | by (eapply Forall_impl; [exact Hids|]; intros id Hid;
                                   rewrite (band_id_ok_length file)) |].
  set (b0 := log_event (set_active b (pool_insert (max_active b) (uid self) (active b)))
                       (Acquire (uid self))).
  exists (release_driver_object b0 (path self) gds'), gds'.
  assert (forall id, id ∈ band_ids ->
            (ref_index (ref_of id) < length (bands file))%nat) as Hidx.
  { intros id Hin. rewrite Forall_forall in Hids.
    by destruct (gdalband_ok file id (Hids _ Hin)). }
  split; [|split; [done|]; split; [|split; [done|]; split]].
  - unfold set_data. rewrite Hsa, Hsg'. cbn [negb andb].
    unfold intersection. rewrite Hsg, Hint. cbn [bind].
    rewrite Hremap. cbn [bind]. fold a2.
    unfold acquire_driver_object. rewrite (allocator_w self _ file Hmode Hfile).
    cbn [bind]. fold (reopened file). fold b0. rewrite Hwrite. done.
  - destruct Hop' as [HX' HY'].
    apply dataset_ok_intro; [done | done |]. intros r Hr. rewrite Hl' in Hr.
    assert (matrix_shape (cells file r) (Z.to_nat (rsizey (fp self)))
              (Z.to_nat (rsizex (fp self)))) as Hold by (by apply dataset_ok_cells).
    destruct (decide (Exists (fun id => ref_of id = r) band_ids)) as [Hex|Hnex].
    + apply Exists_exists in Hex as (id & Hin & <-).
      apply list_elem_of_lookup in Hin as [k Hk].
      rewrite (Hcells k id Hk), cells_reopened. by apply paste_shape.
    + rewrite Hframe, cells_reopened; [done|].
      intros id Hin Heq. apply Hnex. apply Exists_exists. by exists id.
  - intros i id y x Hid Hy Hx HY' HX'.
    unfold shape in Hy, Hx. cbn [fst snd] in Hy, Hx.
    assert (i < c)%nat as Hic by (by eapply lookup_lt_Some).
    assert (id ∈ band_ids) as Hin by (by eapply list_elem_of_lookup_2).
    rewrite (Hcells i id Hid), cells_reopened, cell_paste_any. cbn [Nat.add].
    destruct (cell_inside (cells file (ref_of id)) _ _ (qy + Z.of_nat y) (qx + Z.of_nat x)
                (dataset_ok_cells _ _ file (ref_of id) Hds (Hidx id Hin))) as [old ->];
      [lia | lia |].
    rewrite (cell_chan_any i (data a2) hs ws c) by done.
    rewrite decide_True by lia.
    specialize (Hval (Z.to_nat (qy + Z.of_nat y - j0)) (Z.to_nat (qx + Z.of_nat x - i0)) i).
    rewrite Hval by lia.
    rewrite !Z2Nat.id by lia.
    replace (qy + Z.of_nat y - j0 + (j0 - qy)) with (Z.of_nat y) by lia.
    replace (qx + Z.of_nat x - i0 + (i0 - qx)) with (Z.of_nat x) by lia.
    destruct (astype_shape (dtype self) a _ _ c Hshape Ha) as (_ & _ & Hta).
    rewrite !Nat2Z.id.
    destruct (get3_in_shape _ _ _ c y x i Hta) as [v ->]; done.
  - intros r Y X Hcase.
    destruct (decide (Exists (fun id => ref_of id = r) band_ids)) as [Hex|Hnex].
    + destruct Hcase as [Hno|Hout].
      { exfalso. apply Exists_exists in Hex as (id & Hin & Heq). by apply (Hno id). }
      apply Exists_exists in Hex as (id & Hin & <-).
      apply list_elem_of_lookup in Hin as [k Hk].
      assert (k < c)%nat as Hkc by (by eapply lookup_lt_Some).
      rewrite (Hcells k id Hk), cells_reopened, cell_paste_any.
      destruct (cell (cells file (ref_of id)) Y X) as [old|]; [|done].
      rewrite (cell_chan_any _ (data a2) hs ws c) by done.
      rewrite decide_False by lia. done.
    + rewrite Hframe, cells_reopened; [done|].
      intros id Hin Heq. apply Hnex. apply Exists_exists. by exists id.
Qed.

(** X3: On a raster in mode w, for a footprint of the raster's grid that
    shares area with it, pairwise distinct integer identifiers of raster
    bands that the file has and an array of the footprint's shape with one
    channel per identifier, [set_data] without mask returns, and each raster
    pixel under the footprint then holds in band [band_ids[i]] the cell
    [(y, x, i)] of the array converted to the raster's dtype.  The helper
    [slices_of_matrix] is taken to yield the full slice for no mask. *)
Theorem set_data_writes self qfp a band_ids interp b file :
  slices_of_matrix None = [(mkSlice 0 None, mkSlice 0 None)] ->
  wf (fp self) = true -> wf qfp = true -> same_grid (fp self) qfp = true ->
  share_area qfp (fp self) = true ->
  mode self = "w"%string ->
  files b !! path self = Some file ->
  dataset_ok (rsizex (fp self)) (rsizey (fp self)) file = true ->
  NoDup band_ids ->
  forallb (raster_band_ok file) band_ids = true ->
  array_ok a (shape qfp) (length band_ids) = true ->
  let qx := (spatial_to_raster (fp self) (tl qfp)).1 in
  let qy := (spatial_to_raster (fp self) (tl qfp)).2 in
  exists b1 file',
    set_data self a qfp band_ids interp None b = Return b1 /\
    files b1 !! path self = Some file' /\
    forall i id (y x : nat),
      band_ids !! i = Some id ->
      (y < (shape qfp).1)%nat -> (x < (shape qfp).2)%nat ->
      0 <= qy + Z.of_nat y < rsizey (fp self) ->
      0 <= qx + Z.of_nat x < rsizex (fp self) ->
      cell (cells file' (ref_of id)) (qy + Z.of_nat y) (qx + Z.of_nat x)
      = get3 (data (astype (dtype self) a)) y x i /\
      is_Some (get3 (data (astype (dtype self) a)) y x i).
Proof.
  intros Hsl Hwf Hwq Hsg Hsa Hmode Hfile Hds Hnd Hids Harr qx qy.
  apply raster_band_ok_all in Hids.
  destruct (set_data_spec self qfp a band_ids interp b file)
    as (b1 & file' & Hset & Hfiles & _ & _ & Hin & _); try done.
  exists b1, file'. split; [done|]. split; [rewrite Hfiles; apply lookup_insert_eq|].
  intros i id y x Hid Hy Hx HY HX. split; [by apply Hin|].
  destruct (array_ok_shape _ _ _ Harr) as [Hshape Ha].
  destruct (astype_shape (dtype self) a _ _ _ Hshape Ha) as (_ & _ & Hta).
  destruct (get3_in_shape _ _ _ _ y x i Hta) as [v ->]; [done | done | |done].
  by eapply lookup_lt_Some.
Qed.

(** X4: Under the same conditions [set_data] changes the file of the raster
    only, keeps its size and the number of its bands, leaves the raster
    bands that [band_ids] does not name as they were, and leaves every cell
    of a raster band outside the window of the footprint as it was. *)
Theorem set_data_frame self qfp a band_ids interp b file :
  slices_of_matrix None = [(mkSlice 0 None, mkSlice 0 None)] ->
  wf (fp self) = true -> wf qfp = true -> same_grid (fp self) qfp = true ->
  share_area qfp (fp self) = true ->
  mode self = "w"%string ->
  files b !! path self = Some file ->
  dataset_ok (rsizex (fp self)) (rsizey (fp self)) file = true ->
  NoDup band_ids ->
  forallb (raster_band_ok file) band_ids = true ->
  array_ok a (shape qfp) (length band_ids) = true ->
  let qx := (spatial_to_raster (fp self) (tl qfp)).1 in
  let qy := (spatial_to_raster (fp self) (tl qfp)).2 in
  exists b1 file',
    set_data self a qfp band_ids interp None b = Return b1 /\
    files b1 !! path self = Some file' /\
    (forall p, p <> path self -> files b1 !! p = files b !! p) /\
    dataset_ok (rsizex (fp self)) (rsizey (fp self)) file' = true /\
    length (bands file') = length (bands file) /\
    (forall n, (forall id, id ∈ band_ids -> ref_of id <> RasterBand n) ->
       cells file' (RasterBand n) = cells file (RasterBand n)) /\
    (forall n Y X,
       ~ (qy <= Y < qy + rsizey qfp /\ qx <= X < qx + rsizex qfp) ->
       cell (cells file' (RasterBand n)) Y X = cell (cells file (RasterBand n)) Y X).
Proof.
  intros Hsl Hwf Hwq Hsg Hsa Hmode Hfile Hds Hnd Hids Harr qx qy.
  apply raster_band_ok_all in Hids.
  destruct (set_data_spec self qfp a band_ids interp b file)
    as (b1 & file' & Hset & Hfiles & Hds' & Hlen & _ & Hout); try done.
  exists b1, file'. split; [done|]. rewrite Hfiles.
  split; [apply lookup_insert_eq|]. split; [by intros p Hp; rewrite lookup_insert_ne|].
  split; [done|]. split; [done|]. split.
  - intros n Hr.
    destruct (decide (n < length (bands file))%nat) as [Hi|Hi].
    + apply (matrix_ext _ _ (Z.to_nat (rsizey (fp self))) (Z.to_nat (rsizex (fp self)))).
      * apply dataset_ok_cells; [done | cbn; lia].
      * by apply dataset_ok_cells.
      * intros y x _ _. apply Hout. by left.
    + cbn. rewrite !(lookup_ge_None_2 _ n) by lia. done.
  - intros n Y X Hno. apply Hout. by right.
Qed.

End Writing.

(** ** Reading after writing *)

Section Composition.

Context `{Collaborators}.

Lemma stored_lookup_insert (fs : gmap string dataset) p d d0 :
  fs !! p = Some d0 -> stored d = stored d0 ->
  forall q, stored <$> <[p := d]> fs !! q = stored <$> fs !! q.
Proof.
  intros Hp Hs q. destruct (decide (p = q)) as [<-|Hne].
  - rewrite lookup_insert_eq, Hp. cbn. by rewrite Hs.
  - by rewrite lookup_insert_ne.
Qed.

(** X2: Whenever [get_data] returns, every file keeps its size and the
    contents of its bands and masks, and the limit of the pool is unchanged;
    the back is either left as it was or has the raster's driver object
    inserted in the pool, with one acquisition appended to the journal. *)
Theorem get_data_reads_only self qfp band_ids dst_nodata interp b a b' :
  get_data self qfp band_ids dst_nodata interp b = Return (a, b') ->
  (forall p, stored <$> files b' !! p = stored <$> files b !! p) /\
  max_active b' = max_active b /\
  (b' = b \/
   active b' = pool_insert (max_active b) (uid self) (active b) /\
   journal b' = journal b ++ [Acquire (uid self)]).
Proof.
  unfold get_data.
  destruct (build_sampling_footprint self qfp interp) as [samplefp|];
    [|intros [= _ <-]; auto].
  unfold _sample.
  destruct (py_assert (same_grid samplefp (fp self))) as [[]|e]; cbn [bind]; [|done].
  unfold acquire_driver_object, _allocator, _open_file.
  destruct (of_of_mode (mode self)) as [u|e]; cbn [bind]; [|done].
  unfold OpenEx. destruct (files b !! path self) as [d0|] eqn:Ef;
    cbn [bind fmap option_fmap option_map]; [|done].
  match goal with
  | |- context [get_data_driver ?s ?f ?ids ?g] =>
      destruct (get_data_driver s f ids g) as [array|e]; cbn [bind]; [|done]
  end.
  destruct (remap _ samplefp qfp array None (nodata self) dst_nodata "erode" interp)
    as [[arr m]|e]; cbn [bind]; [|done].
  intros [= _ <-]. split; [|split; [done|right; done]].
  apply (stored_lookup_insert _ _ _ d0); done.
Qed.

Lemma of_of_mode_w : of_of_mode "w" = Return true.
Proof. done. Qed.

Lemma band_ids_ok_length ds ds' ids :
  length (bands ds') = length (bands ds) ->
  forallb (band_id_ok ds) ids = true -> forallb (band_id_ok ds') ids = true.
Proof.
  intros Hl Hok. apply forallb_Forall_true. apply forallb_Forall_true in Hok.
  eapply Forall_impl; [exact Hok|]. intros id Hid. cbn in *.
  by rewrite (band_id_ok_length ds ds').
Qed.

(** X5: Under the same conditions, for integer identifiers of raster bands,
    [get_data] on the same footprint and bands after [set_data] returns the
    array converted to the raster's dtype in the cells over the raster and
    [dst_nodata] converted to that dtype in the cells outside, also when the
    footprint leaves the raster. *)
Theorem set_data_then_get_data self qfp a band_ids interp interp' dst_nodata b file :
  slices_of_matrix None = [(mkSlice 0 None, mkSlice 0 None)] ->
  wf (fp self) = true -> wf qfp = true -> same_grid (fp self) qfp = true ->
  share_area qfp (fp self) = true ->
  mode self = "w"%string ->
  files b !! path self = Some file ->
  dataset_ok (rsizex (fp self)) (rsizey (fp self)) file = true ->
  NoDup band_ids ->
  forallb (raster_band_ok file) band_ids = true ->
  array_ok a (shape qfp) (length band_ids) = true ->
  let qx := (spatial_to_raster (fp self) (tl qfp)).1 in
  let qy := (spatial_to_raster (fp self) (tl qfp)).2 in
  exists b1 b2 r,
    set_data self a qfp band_ids interp None b = Return b1 /\
    get_data self qfp band_ids dst_nodata interp' b1 = Return (r, b2) /\
    forall y x i : nat,
      (y < (shape qfp).1)%nat -> (x < (shape qfp).2)%nat -> (i < length band_ids)%nat ->
      get3 (data r) y x i
      = if decide (0 <= qy + Z.of_nat y < rsizey (fp self)
                   /\ 0 <= qx + Z.of_nat x < rsizex (fp self))
        then get3 (data (astype (dtype self) a)) y x i
        else Some (cast (dtype self) dst_nodata).
Proof.
  intros Hsl Hwf Hwq Hsg Hsa Hmode Hfile Hds Hnd Hids Harr qx qy.
  apply raster_band_ok_all in Hids.
  destruct (set_data_spec self qfp a band_ids interp b file)
    as (b1 & file' & Hset & Hfiles & Hds' & Hlen & Hin & Hout); try done.
  assert (files b1 !! path self = Some file') as Hfile'
    by (rewrite Hfiles; apply lookup_insert_eq).
  destruct (get_data_spec self qfp band_ids dst_nodata interp' b1 file' true)
    as (r & b2 & Hget & Hval); try done.
  { by rewrite Hmode. }
  { by apply (band_ids_ok_length file). }
  exists b1, b2, r. split; [done|]. split; [done|].
  intros y x i Hy Hx Hi.
  destruct (lookup_lt_is_Some_2 band_ids i Hi) as [id Hid].
  rewrite (Hval y x i id Hy Hx Hid). subst qx qy.
  destruct (decide _) as [[HY HX]|Hno].
  - rewrite (Hin i id y x Hid Hy Hx HY HX).
    destruct (array_ok_shape _ _ _ Harr) as [Hshape Ha].
    destruct (astype_shape (dtype self) a _ _ _ Hshape Ha) as (_ & _ & Hta).
    destruct (get3_in_shape _ _ _ _ y x i Hta) as [v ->]; done.
  - assert (id ∈ band_ids) as Hidin by (by eapply list_elem_of_lookup_2).
    apply forallb_Forall_true in Hids. rewrite Forall_forall in Hids.
    destruct (gdalband_ok file id (Hids _ Hidin)) as [_ Hidx]. rewrite <- Hlen in Hidx.
    rewrite (cell_outside _ _ _ _ _ (dataset_ok_cells _ _ file' (ref_of id) Hds' Hidx));
      [done|]. lia.
Qed.

Lemma bands_ext d d' :
  length (bands d) = length (bands d') ->
  (forall r, cells d r = cells d' r) -> bands d = bands d'.
Proof.
  intros Hl Hc. apply (list_eq_same_length _ _ (length (bands d))); [done | done |].
  intros k bd bd' Hk Hb Hb'.
  pose proof (Hc (RasterBand k)) as H1. pose proof (Hc (MaskBand k)) as H2.
  cbn [cells] in H1, H2. rewrite Hb, Hb' in H1, H2. cbn in H1, H2.
  destruct bd, bd'. cbn in *. by subst.
Qed.

Lemma cells_ext w h d d' :
  dataset_ok w h d = true -> dataset_ok w h d' = true ->
  length (bands d) = length (bands d') ->
  (forall r Y X, cell (cells d r) Y X = cell (cells d' r) Y X) ->
  stored d = stored d'.
Proof.
  intros Hd Hd' Hl Hc.
  destruct (dataset_ok_spec _ _ _ Hd) as (HX & HY & _).
  destruct (dataset_ok_spec _ _ _ Hd') as (HX' & HY' & _).
  unfold stored. rewrite HX, HY, HX', HY'. f_equal.
  apply bands_ext; [done|]. intros r.
  destruct (decide (ref_index r < length (bands d))%nat) as [Hr|Hr].
  - apply (matrix_ext _ _ (Z.to_nat h) (Z.to_nat w)).
    + by apply dataset_ok_cells.
    + apply dataset_ok_cells; [done | lia].
    + intros y x _ _. apply Hc.
  - destruct r as [k|k]; cbn in *;
      rewrite !(lookup_ge_None_2 _ k) by lia; done.
Qed.

(** X6: Writing [a1] and then [a2] on the same footprint and bands leaves
    the file with the size and band contents that writing [a2] alone gives:
    the second [set_data] overwrites the first. *)
Theorem set_data_overwrites self qfp a1 a2 band_ids interp1 interp2 b file :
  slices_of_matrix None = [(mkSlice 0 None, mkSlice 0 None)] ->
  wf (fp self) = true -> wf qfp = true -> same_grid (fp self) qfp = true ->
  share_area qfp (fp self) = true ->
  mode self = "w"%string ->
  files b !! path self = Some file ->
  dataset_ok (rsizex (fp self)) (rsizey (fp self)) file = true ->
  NoDup band_ids ->
  forallb (band_id_ok file) band_ids = true ->
  array_ok a1 (shape qfp) (length band_ids) = true ->
  array_ok a2 (shape qfp) (length band_ids) = true ->
  exists b1 b12 b2 f12 f2,
    set_data self a1 qfp band_ids interp1 None b = Return b1 /\
    set_data self a2 qfp band_ids interp2 None b1 = Return b12 /\
    set_data self a2 qfp band_ids interp2 None b = Return b2 /\
    files b12 = <[path self := f12]> (files b) /\
    files b2 = <[path self := f2]> (files b) /\
    stored f12 = stored f2.
Proof.
  intros Hsl Hwf Hwq Hsg Hsa Hmode Hfile Hds Hnd Hids Harr1 Harr2.
  destruct (set_data_spec self qfp a1 band_ids interp1 b file)
    as (b1 & f1 & Hset1 & Hfiles1 & Hds1 & Hlen1 & Hin1 & Hout1); try done.
  assert (files b1 !! path self = Some f1) as Hfile1
    by (rewrite Hfiles1; apply lookup_insert_eq).
  destruct (set_data_spec self qfp a2 band_ids interp2 b1 f1)
    as (b12 & f12 & Hset12 & Hfiles12 & Hds12 & Hlen12 & Hin12 & Hout12); try done.
  { by apply (band_ids_ok_length file). }
  destruct (set_data_spec self qfp a2 band_ids interp2 b file)
    as (b2 & f2 & Hset2 & Hfiles2 & Hds2 & Hlen2 & Hin2 & Hout2); try done.
  exists b1, b12, b2, f12, f2. repeat (split; [done|]).
  split; [by rewrite Hfiles12, Hfiles1, insert_insert_eq|]. split; [done|].
  apply (cells_ext (rsizex (fp self)) (rsizey (fp self))); [done | done | congruence |].
  intros r Y X.
  set (qx := (spatial_to_raster (fp self) (tl qfp)).1) in *.
  set (qy := (spatial_to_raster (fp self) (tl qfp)).2) in *.
  pose proof (wf_det _ Hwq) as (_ & Hxq & Hyq).
  destruct (decide (Exists (fun id => ref_of id = r) band_ids)) as [Hex|Hnex].
  - apply Exists_exists in Hex as (id & Hidin & <-).
    apply list_elem_of_lookup in Hidin as [i Hid].
    destruct (decide ((qy <= Y < qy + rsizey qfp /\ qx <= X < qx + rsizex qfp)
                      /\ 0 <= Y < rsizey (fp self) /\ 0 <= X < rsizex (fp self)))
      as [[[HY HX] [HY' HX']]|Hno].
    + replace Y with (qy + Z.of_nat (Z.to_nat (Y - qy))) by lia.
      replace X with (qx + Z.of_nat (Z.to_nat (X - qx))) by lia.
      rewrite (Hin12 i id), (Hin2 i id); try done; unfold shape; cbn [fst snd]; lia.
    + destruct (decide (qy <= Y < qy + rsizey qfp /\ qx <= X < qx + rsizex qfp))
        as [Hwin|Hnwin].
      * assert (id ∈ band_ids) as Hidin by (by eapply list_elem_of_lookup_2).
        apply forallb_Forall_true in Hids. rewrite Forall_forall in Hids.
        destruct (gdalband_ok file id (Hids _ Hidin)) as [_ Hidx].
        rewrite (cell_outside _ _ _ _ _ (dataset_ok_cells _ _ f12 (ref_of id) Hds12
                                          ltac:(congruence))) by lia.
        rewrite (cell_outside _ _ _ _ _ (dataset_ok_cells _ _ f2 (ref_of id) Hds2
                                          ltac:(congruence))) by lia.
        done.
      * rewrite Hout12, Hout1, Hout2 by (by right). done.
  - assert (forall id, id ∈ band_ids -> ref_of id <> r) as Hno.
    { intros id Hidin Heq. apply Hnex. apply Exists_exists. by exists id. }
    rewrite Hout12, Hout1, Hout2 by (by left). done.
Qed.

End Composition.

(** ** [fill] *)

Section Filling.

Context `{Collaborators}.

Lemma list_comp_bands gds ids :
  Forall (fun id => band_id_ok gds id = true) ids ->
  list_comp (_gdalband_of_band_id gds) ids
  = Return ((fun id => Some (ref_of id)) <$> ids).
Proof.
  induction 1 as [|id ids Hid _ IH]; [done|].
  cbn [list_comp]. destruct (gdalband_ok gds id Hid) as [-> _]. cbn [bind].
  by rewrite IH.
Qed.

Lemma cell_const (m : matrix) (v : Z) Y X :
  cell ((fun row : list Z => (fun _ : Z => v) <$> row) <$> m) Y X
  = (fun _ => v) <$> cell m Y X.
Proof.
  unfold cell. destruct ((0 <=? Y) && (0 <=? X)); [|done].
  rewrite list_lookup_fmap. destruct (m !! Z.to_nat Y) as [row|]; [|done]. cbn.
  by rewrite list_lookup_fmap.
Qed.

Lemma const_const (m : matrix) (v : Z) :
  (fun row : list Z => (fun _ : Z => v) <$> row)
    <$> ((fun row : list Z => (fun _ : Z => v) <$> row) <$> m)
  = (fun row : list Z => (fun _ : Z => v) <$> row) <$> m.
Proof.
  rewrite <- list_fmap_compose. apply list_fmap_ext. intros _ row _. cbn.
  by rewrite <- list_fmap_compose.
Qed.

Lemma const_shape (m : matrix) (v : Z) h w :
  matrix_shape m h w ->
  matrix_shape ((fun row : list Z => (fun _ : Z => v) <$> row) <$> m) h w.
Proof.
  intros [Hl Hf]. split; [by rewrite length_fmap|].
  apply Forall_fmap. eapply Forall_impl; [exact Hf|]. intros row Hr. cbn.
  by rewrite length_fmap.
Qed.

Lemma fill_bands_spec dt v refs :
  forall gds,
  update gds = true ->
  Forall (fun r => (ref_index r < length (bands gds))%nat) refs ->
  exists gds',
    fill_bands dt (Some <$> refs) v gds = Return gds' /\
    update gds' = true /\
    RasterXSize gds' = RasterXSize gds /\ RasterYSize gds' = RasterYSize gds /\
    length (bands gds') = length (bands gds) /\
    (forall r, r ∈ refs ->
       cells gds' r
       = (fun row : list Z => (fun _ : Z => clamp dt v) <$> row) <$> cells gds r) /\
    (forall r, r ∉ refs -> cells gds' r = cells gds r).
Proof.
  induction refs as [|r refs IH]; intros gds Hu Hok.
  - exists gds. repeat split; try done. intros r Hr. by apply elem_of_nil in Hr.
  - apply Forall_cons in Hok as [Hr Hok]. cbn [fmap list_fmap fill_bands].
    unfold Fill at 1. rewrite Hu.
    set (m := (fun row : list Z => (fun _ : Z => clamp dt v) <$> row) <$> cells gds r).
    destruct (set_cells_frame gds r m) as (Fu & FX & FY & Fl).
    destruct (IH (set_cells gds r m)) as (gds' & Hrun & Hu' & HX & HY & Hl & Hin & Hout).
    { congruence. }
    { eapply Forall_impl; [exact Hok|]. intros r' Hr'. cbn in *. by rewrite Fl. }
    exists gds'. split; [exact Hrun|]. split; [done|].
    split; [congruence|]. split; [congruence|]. split; [congruence|]. split.
    + intros r' Hr'. destruct (decide (r' ∈ refs)) as [Hi|Hn].
      * rewrite (Hin r' Hi). destruct (decide (r = r')) as [<-|Hne].
        -- rewrite cells_set_cells_eq by done. apply const_const.
        -- by rewrite cells_set_cells_ne.
      * rewrite (Hout r' Hn). apply elem_of_cons in Hr' as [->|Hr']; [|done].
        by rewrite cells_set_cells_eq.
    + intros r' Hr'. apply not_elem_of_cons in Hr' as [Hne Hn].
      rewrite (Hout r' Hn). by rewrite cells_set_cells_ne.
Qed.

Lemma fill_spec self v band_ids b file :
  mode self = "w"%string ->
  files b !! path self = Some file ->
  dataset_ok (rsizex (fp self)) (rsizey (fp self)) file = true ->
  forallb (band_id_ok file) band_ids = true ->
  exists b1 file',
    fill self v band_ids b = Return b1 /\
    files b1 = <[path self := file']> (files b) /\
    dataset_ok (rsizex (fp self)) (rsizey (fp self)) file' = true /\
    length (bands file') = length (bands file) /\
    (forall id Y X, id ∈ band_ids ->
       cell (cells file' (ref_of id)) Y X
       = (fun _ => clamp (dtype self) v) <$> cell (cells file (ref_of id)) Y X) /\
    (forall r, (forall id, id ∈ band_ids -> ref_of id <> r) ->
       cells file' r = cells file r).
Proof.
  intros Hmode Hfile Hds Hids.
  apply forallb_Forall_true in Hids.
  destruct (dataset_ok_spec _ _ _ Hds) as (HX & HY & _).
  assert (Forall (fun id => band_id_ok (reopened file) id = true) band_ids) as Hids'.
  { eapply Forall_impl; [exact Hids|]. intros id Hid. cbn in *.
    by rewrite (band_id_ok_length file). }
  destruct (fill_bands_spec (dtype self) v (ref_of <$> band_ids) (reopened file))
    as (gds' & Hrun & Hu' & HX' & HY' & Hl' & Hin & Hout); [done| |].
  { apply Forall_fmap. eapply Forall_impl; [exact Hids|]. intros id Hid. cbn in *.
    by destruct (gdalband_ok file id Hid). }
  set (b0 := log_event (set_active b (pool_insert (max_active b) (uid self) (active b)))
                       (Acquire (uid self))).
  exists (release_driver_object b0 (path self) gds'), gds'.
  split; [|split; [done|]; split; [|split; [done|]; split]].
  - unfold fill, acquire_driver_object. rewrite (allocator_w self _ file Hmode Hfile).
    cbn [bind]. fold (reopened file). fold b0.
    rewrite (list_comp_bands _ _ Hids'). cbn [bind].
    rewrite <- list_fmap_compose in Hrun. unfold compose in Hrun.
    by rewrite Hrun.
  - apply dataset_ok_intro; [cbn in *; congruence | cbn in *; congruence |].
    intros r Hr. rewrite Hl' in Hr.
    assert (matrix_shape (cells file r) (Z.to_nat (rsizey (fp self)))
              (Z.to_nat (rsizex (fp self)))) as Hold by (by apply dataset_ok_cells).
    destruct (decide (r ∈ ref_of <$> band_ids)) as [Hi|Hn].
    + rewrite (Hin r Hi), cells_reopened. by apply const_shape.
    + by rewrite (Hout r Hn), cells_reopened.
  - intros id Y X Hid.
    rewrite (Hin (ref_of id)) by (by apply list_elem_of_fmap_2).
    by rewrite cells_reopened, cell_const.
  - intros r Hr. rewrite Hout, cells_reopened; [done|].
    intros Hi. apply list_elem_of_fmap in Hi as (id & -> & Hid). by apply (Hr id).
Qed.

(** X7: After [fill] on a raster in mode w, with integer identifiers of
    raster bands that the file has, [get_data] on any footprint of the
    raster's grid returns, in every cell over the raster, the value brought
    into the range of the raster's dtype, and [dst_nodata] converted to the
    raster's dtype elsewhere. *)
Theorem fill_then_get_data self v qfp band_ids dst_nodata interp b file :
  wf (fp self) = true -> wf qfp = true -> same_grid (fp self) qfp = true ->
  mode self = "w"%string ->
  files b !! path self = Some file ->
  dataset_ok (rsizex (fp self)) (rsizey (fp self)) file = true ->
  forallb (raster_band_ok file) band_ids = true ->
  let qx := (spatial_to_raster (fp self) (tl qfp)).1 in
  let qy := (spatial_to_raster (fp self) (tl qfp)).2 in
  exists b1 b2 r,
    fill self v band_ids b = Return b1 /\
    get_data self qfp band_ids dst_nodata interp b1 = Return (r, b2) /\
    forall y x i : nat,
      (y < (shape qfp).1)%nat -> (x < (shape qfp).2)%nat -> (i < length band_ids)%nat ->
      get3 (data r) y x i
      = Some (if decide (0 <= qy + Z.of_nat y < rsizey (fp self)
                         /\ 0 <= qx + Z.of_nat x < rsizex (fp self))
              then clamp (dtype self) v else cast (dtype self) dst_nodata).
Proof.
  intros Hwf Hwq Hsg Hmode Hfile Hds Hids qx qy.
  apply raster_band_ok_all in Hids.
  destruct (fill_spec self v band_ids b file)
    as (b1 & file' & Hfill & Hfiles & Hds' & Hlen & Hin & Hout); try done.
  assert (files b1 !! path self = Some file') as Hfile'
    by (rewrite Hfiles; apply lookup_insert_eq).
  destruct (get_data_spec self qfp band_ids dst_nodata interp b1 file' true)
    as (r & b2 & Hget & Hval); try done.
  { by rewrite Hmode. }
  { by apply (band_ids_ok_length file). }
  exists b1, b2, r. split; [done|]. split; [done|].
  intros y x i Hy Hx Hi.
  destruct (lookup_lt_is_Some_2 band_ids i Hi) as [id Hid].
  assert (id ∈ band_ids) as Hidin by (by eapply list_elem_of_lookup_2).
  rewrite (Hval y x i id Hy Hx Hid). subst qx qy. f_equal.
  rewrite Hin by done.
  apply forallb_Forall_true in Hids. rewrite Forall_forall in Hids.
  destruct (gdalband_ok file id (Hids _ Hidin)) as [_ Hidx].
  pose proof (dataset_ok_cells _ _ file (ref_of id) Hds Hidx) as Hm.
  destruct (decide _) as [[HY HX]|Hno].
  - destruct (cell_inside _ _ _
                 ((spatial_to_raster (fp self) (tl qfp)).2 + Z.of_nat y)
                 ((spatial_to_raster (fp self) (tl qfp)).1 + Z.of_nat x) Hm)
      as [old ->]; [lia | lia | done].
  - rewrite (cell_outside _ _ _ _ _ Hm); [done | lia].
Qed.

(** X8: [fill] on a raster in mode w, with integer identifiers of raster
    bands that the file has, returns, changes the file of the raster only,
    keeps its size and the number of its bands, and leaves every raster band
    that [band_ids] does not name as it was. *)
Theorem fill_frame self v band_ids b file :
  mode self = "w"%string ->
  files b !! path self = Some file ->
  dataset_ok (rsizex (fp self)) (rsizey (fp self)) file = true ->
  forallb (raster_band_ok file) band_ids = true ->
  exists b1 file',
    fill self v band_ids b = Return b1 /\
    files b1 !! path self = Some file' /\
    (forall p, p <> path self -> files b1 !! p = files b !! p) /\
    dataset_ok (rsizex (fp self)) (rsizey (fp self)) file' = true /\
    length (bands file') = length (bands file) /\
    forall n, (forall id, id ∈ band_ids -> ref_of id <> RasterBand n) ->
      cells file' (RasterBand n) = cells file (RasterBand n).
Proof.
  intros Hmode Hfile Hds Hids. apply raster_band_ok_all in Hids.
  destruct (fill_spec self v band_ids b file)
    as (b1 & file' & Hfill & Hfiles & Hds' & Hlen & Hin & Hout); try done.
  exists b1, file'. rewrite Hfiles. split; [done|].
  split; [apply lookup_insert_eq|]. split; [by intros p Hp; rewrite lookup_insert_ne|].
  split; [done|]. split; [done|]. intros n Hn. by apply Hout.
Qed.

End Filling.

(** ** Bands and files that are not there *)

Section Failures.

Context `{Collaborators}.

Lemma band_id_bad gds id :
  band_id_ok gds id = false ->
  match id with
  | IntId _ => _gdalband_of_band_id gds id = Return None
  | ComplexId _ =>
      _gdalband_of_band_id gds id
      = Raise (AttributeError "'NoneType' object has no attribute 'GetMaskBand'")
  end.
Proof.
  unfold band_id_ok, _gdalband_of_band_id, GetRasterBand.
  destruct id as [n|n]; intros ->; done.
Qed.

Lemma band_ids_ok_eq ds ds' ids :
  length (bands ds') = length (bands ds) ->
  forallb (band_id_ok ds') ids = forallb (band_id_ok ds) ids.
Proof.
  intros Hl. induction ids as [|id ids IH]; [done|]. cbn [forallb].
  by rewrite IH, (band_id_ok_length ds ds').
Qed.

Lemma read_bands_bad gds qfp ox oy ids :
  window_ok gds ox oy (rsizex qfp) (rsizey qfp) = true ->
  forallb (band_id_ok gds) ids = false ->
  forall i dst, exists msg,
    read_bands gds ox oy qfp i ids dst = Raise (AttributeError msg).
Proof.
  intros Hwin. induction ids as [|id ids IH]; [done|].
  cbn [forallb]. intros Hbad i dst. cbn [read_bands].
  destruct (band_id_ok gds id) eqn:Eid.
  - destruct (gdalband_ok gds id Eid) as [-> _]. cbn [bind].
    unfold ReadAsArray. rewrite Hwin. apply IH. exact Hbad.
  - pose proof (band_id_bad gds id Eid) as Hb. destruct id; rewrite Hb; cbn [bind];
      eexists; reflexivity.
Qed.

Lemma write_slices_none self ox oy (m : matrix) gds h w :
  matrix_shape m h w -> (1 <= h)%nat ->
  0 <= ox -> 0 <= oy ->
  ox + Z.of_nat w <= rsizex (fp self) -> oy + Z.of_nat h <= rsizey (fp self) ->
  write_slices self None ox oy m [(mkSlice 0 None, mkSlice 0 None)] gds
  = Raise (AttributeError "'NoneType' object has no attribute 'WriteArray'").
Proof.
  intros Hm Hh Hox Hoy Hx Hy. simpl.
  rewrite getitem2_full.
  destruct (ncols_shape m h w Hm Hh) as [Hnc Hnr]. rewrite Hnc, Hnr.
  rewrite !py_assert_true by (apply Z.leb_le; lia). done.
Qed.

Lemma write_bands_bad self qfp a ox oy h w c ids :
  slices_of_matrix None = [(mkSlice 0 None, mkSlice 0 None)] ->
  placed (fp self) qfp ox oy ->
  shape qfp = (h, w) ->
  has_shape (data a) h w c ->
  forall i gds,
  update gds = true -> opened (rsizex (fp self)) (rsizey (fp self)) gds ->
  forallb (band_id_ok gds) ids = false ->
  exists msg, write_bands self qfp a None i ids gds = Raise (AttributeError msg).
Proof.
  intros Hsl (Hsp & Hox & Hoy & Hx & Hy & Hw1 & Hh1) Hshape Ha.
  unfold shape in Hshape. injection Hshape as Hh Hw.
  induction ids as [|id ids IH]; intros i gds Hu Hop Hbad; [done|].
  cbn [forallb] in Hbad. cbn [write_bands]. rewrite Hsp, Hsl.
  destruct (band_id_ok gds id) eqn:Eid.
  - destruct (gdalband_ok gds id Eid) as [-> Hidx]. cbn [bind].
    rewrite (write_slices_full self (ref_of id) ox oy (chan i (data a)) gds h w);
      [| by eapply chan_shape | lia | lia | lia | lia | lia | done | done ].
    cbn [bind].
    destruct (set_cells_frame gds (ref_of id)
                (paste ox oy (chan i (data a)) (cells gds (ref_of id))))
      as (Fu & FX & FY & Fl).
    apply IH.
    + congruence.
    + destruct Hop. split; congruence.
    + rewrite <- Hbad. cbn [andb]. by apply band_ids_ok_eq.
  - pose proof (band_id_bad gds id Eid) as Hb. destruct id; rewrite Hb; cbn [bind].
    + rewrite (write_slices_none self ox oy (chan i (data a)) gds h w);
        [| by eapply chan_shape | lia | lia | lia | lia | lia ].
      cbn [bind]. eexists; reflexivity.
    + eexists; reflexivity.
Qed.

Lemma fill_bands_none dt v l :
  None ∈ l ->
  forall gds, exists msg, fill_bands dt l v gds = Raise (AttributeError msg).
Proof.
  induction l as [|[r|] l IH]; intros Hin gds.
  - by apply elem_of_nil in Hin.
  - cbn [fill_bands]. apply IH. by apply elem_of_cons in Hin as [|].
  - eexists; reflexivity.
Qed.

Lemma list_comp_bad gds ids :
  forallb (band_id_ok gds) ids = false ->
  (exists msg, list_comp (_gdalband_of_band_id gds) ids = Raise (AttributeError msg)) \/
  (exists l, list_comp (_gdalband_of_band_id gds) ids = Return l /\ None ∈ l).
Proof.
  induction ids as [|id ids IH]; [done|]. cbn [forallb list_comp]. intros Hbad.
  destruct (band_id_ok gds id) eqn:Eid.
  - destruct (gdalband_ok gds id Eid) as [-> _]. cbn [bind].
    destruct (IH Hbad) as [[msg ->]|(l & -> & Hl)]; cbn [bind].
    + left. by eexists.
    + right. eexists. split; [done|]. by right.
  - pose proof (band_id_bad gds id Eid) as Hb. destruct id; rewrite Hb; cbn [bind].
    + destruct (list_comp _ ids) as [l|[cls msg]] eqn:El; cbn [bind].
      * right. eexists. split; [done|]. by left.
      * clear IH Hbad. revert cls msg El.
        induction ids as [|id' ids IH']; intros cls msg El; [done|].
        cbn [list_comp] in El.
        destruct (_gdalband_of_band_id gds id') as [r|e] eqn:Er; cbn [bind] in El.
        -- destruct (list_comp _ ids) as [l|[cls' msg']] eqn:El'; cbn [bind] in El; [done|].
           injection El as <- <-. by apply (IH' cls' msg').
        -- injection El as ->. unfold _gdalband_of_band_id in Er.
           destruct id'; [done|]. destruct (GetRasterBand gds imag); [done|].
           injection Er as <- <-. left. by eexists.
    + left. by eexists.
Qed.

(** X9: When [band_ids] names a band that the file does not have, [get_data]
    and [set_data] on a footprint that shares area with the raster, and
    [fill], fail with an [AttributeError], whatever the other identifiers
    are. *)
Theorem missing_band_fails self qfp a v band_ids interp dst_nodata b file :
  slices_of_matrix None = [(mkSlice 0 None, mkSlice 0 None)] ->
  wf (fp self) = true -> wf qfp = true -> same_grid (fp self) qfp = true ->
  share_area qfp (fp self) = true ->
  mode self = "w"%string ->
  files b !! path self = Some file ->
  dataset_ok (rsizex (fp self)) (rsizey (fp self)) file = true ->
  array_ok a (shape qfp) (length band_ids) = true ->
  forallb (band_id_ok file) band_ids = false ->
  (exists msg,
     get_data self qfp band_ids dst_nodata interp b = Raise (AttributeError msg)) /\
  (exists msg,
     set_data self a qfp band_ids interp None b = Raise (AttributeError msg)) /\
  (exists msg, fill self v band_ids b = Raise (AttributeError msg)).
Proof.
  intros Hsl Hwf Hwq Hsg Hsa Hmode Hfile Hds Harr Hbad.
  pose proof (intersection_pixels _ _ Hwf Hwq Hsg) as Hint. cbn zeta in Hint.
  rewrite share_area_sym, Hsa in Hint.
  destruct (same_grid_spec _ _ Hwf Hsg) as (Hax & Hay & Ho).
  pose proof (same_grid_sym _ _ Hwf Hsg) as Hsg'.
  pose proof (wf_det _ Hwf) as (Hd & Hxa & Hya).
  pose proof (wf_det _ Hwq) as (_ & Hxq & Hyq).
  destruct (dataset_ok_spec _ _ _ Hds) as (HX & HY & _).
  destruct (array_ok_shape _ _ _ Harr) as [Hshape Ha].
  destruct (spatial_to_raster (fp self) (tl qfp)) as [qx qy] eqn:Eq.
  cbn [fst snd] in *.
  destruct Hint as (Hint & Hi & Hj).
  set (i0 := Z.max 0 qx) in *. set (j0 := Z.max 0 qy) in *.
  set (i1 := Z.min (rsizex (fp self)) (qx + rsizex qfp)) in *.
  set (j1 := Z.min (rsizey (fp self)) (qy + rsizey qfp)) in *.
  set (s := window (fp self) i0 j0 (i1 - i0) (j1 - j0)) in *.
  set (c := length band_ids) in *.
  assert (forallb (band_id_ok (reopened file)) band_ids = false) as Hbad'.
  { rewrite <- Hbad. by apply band_ids_ok_eq. }
  assert (spatial_to_raster (fp self) (tl s) = (i0, j0)) as Hs2r
    by (by apply spatial_to_raster_node).
  set (b0 := log_event (set_active b (pool_insert (max_active b) (uid self) (active b)))
                       (Acquire (uid self))).
  split; [|split].
  - unfold get_data, build_sampling_footprint.
    rewrite <- share_area_sym, Hsa, Hsg, Hint. cbn [negb].
    destruct (nodes_same_grid (fp self) s (fp self) i0 j0 0 0) as [Hss _];
      try done; [apply origin_node|].
    unfold _sample. rewrite (py_assert_true _ Hss). cbn [bind].
    unfold acquire_driver_object. rewrite (allocator_w self _ file Hmode Hfile).
    cbn [bind]. fold (reopened file). fold b0.
    unfold get_data_driver. rewrite Hs2r.
    rewrite !py_assert_true by (rewrite andb_true_iff, Z.leb_le, Z.ltb_lt; lia).
    cbn [bind].
    destruct (read_bands_bad (reopened file) s i0 j0 band_ids) with (i := 0%nat)
      (dst := data (empty (shape s) (length band_ids) (dtype self))) as [msg ->];
      [|done|by exists msg].
    unfold window_ok. cbn. rewrite HX, HY, !andb_true_iff, !Z.leb_le. lia.
  - set (hs := Z.to_nat (j1 - j0)). set (ws := Z.to_nat (i1 - i0)).
    assert (shape s = (hs, ws)) as Eshape by done.
    destruct (nodes_same_grid (fp self) qfp s qx qy i0 j0) as [Hqs Hoff]; try done.
    assert (placed (fp self) s i0 j0) as Hpl.
    { unfold placed. rewrite Hs2r. cbn [s window rsizex rsizey]. repeat split; lia. }
    unfold set_data. rewrite Hsa, Hsg'. cbn [negb andb].
    unfold intersection. rewrite Hsg, Hint. cbn [bind].
    destruct (remap b qfp s a None (nodata self) (nodata_or_0 (nodata self)) "erode" interp)
      as [[a1 m1]|e] eqn:Hremap.
    2:{ unfold remap in Hremap. by rewrite Hqs in Hremap. }
    cbn [bind].
    pose proof (remap_shape b qfp s a None _ _ _ _ a1 m1 _ _ c Hshape Ha Hremap)
      as (_ & Hs1 & Ha1).
    assert (m1 = None) as ->.
    { unfold remap in Hremap. rewrite Hqs in Hremap. by injection Hremap as _ <-. }
    destruct (astype_shape (dtype self) a1 hs ws c Hs1 Ha1) as (_ & _ & Ha2).
    unfold acquire_driver_object. rewrite (allocator_w self _ file Hmode Hfile).
    cbn [bind]. fold (reopened file). fold b0.
    destruct (write_bands_bad self s (astype (dtype self) a1) i0 j0 hs ws c band_ids
                Hsl Hpl Eshape Ha2 0%nat (reopened file)) as [msg ->];
      [done | by split | done | by exists msg].
  - unfold fill, acquire_driver_object. rewrite (allocator_w self _ file Hmode Hfile).
    cbn [bind]. fold (reopened file). fold b0.
    destruct (list_comp_bad (reopened file) band_ids Hbad') as [[msg ->]|(l & -> & Hl)];
      cbn [bind]; [by exists msg|].
    destruct (fill_bands_none (dtype self) v l Hl (reopened file)) as [msg ->]. by exists msg.
Qed.

Lemma allocator_missing self fs u :
  of_of_mode (mode self) = Return u -> fs !! path self = None ->
  _allocator self fs
  = Raise (ValueError "Could not open `{}` with `{}` (gdal error: `{}`)").
Proof.
  intros Hm Hf. unfold _allocator, _open_file, OpenEx. rewrite Hm, Hf. done.
Qed.

(** X10: When the raster holds no driver object and its file cannot be
    opened, [get_data] and [set_data] on a footprint that shares area with
    the raster, and [fill], fail with the [ValueError] of [_open_file]. *)
Theorem missing_file_fails self qfp a v band_ids interp dst_nodata b u :
  wf (fp self) = true -> wf qfp = true -> same_grid (fp self) qfp = true ->
  share_area qfp (fp self) = true ->
  of_of_mode (mode self) = Return u ->
  files b !! path self = None ->
  bool_decide (uid self ∈ active b) = false ->
  let err := ValueError "Could not open `{}` with `{}` (gdal error: `{}`)" in
  get_data self qfp band_ids dst_nodata interp b = Raise err /\
  set_data self a qfp band_ids interp None b = Raise err /\
  fill self v band_ids b = Raise err.
Proof.
  intros Hwf Hwq Hsg Hsa Hmode Hfile _ err.
  pose proof (intersection_pixels _ _ Hwf Hwq Hsg) as Hint. cbn zeta in Hint.
  rewrite share_area_sym, Hsa in Hint.
  destruct (same_grid_spec _ _ Hwf Hsg) as (Hax & Hay & Ho).
  pose proof (same_grid_sym _ _ Hwf Hsg) as Hsg'.
  pose proof (wf_det _ Hwf) as (Hd & Hxa & Hya).
  destruct (spatial_to_raster (fp self) (tl qfp)) as [qx qy] eqn:Eq.
  cbn [fst snd] in *.
  destruct Hint as (Hint & Hi & Hj).
  set (s := window (fp self) _ _ _ _) in *.
  split; [|split].
  - unfold get_data, build_sampling_footprint.
    rewrite <- share_area_sym, Hsa, Hsg, Hint. cbn [negb].
    destruct (nodes_same_grid (fp self) s (fp self) (Z.max 0 qx) (Z.max 0 qy) 0 0)
      as [Hss _]; try done; [apply origin_node|].
    unfold _sample. rewrite (py_assert_true _ Hss). cbn [bind].
    unfold acquire_driver_object. by rewrite (allocator_missing self _ u Hmode Hfile).
  - destruct (nodes_same_grid (fp self) qfp s qx qy (Z.max 0 qx) (Z.max 0 qy))
      as [Hqs _]; try done.
    unfold set_data. rewrite Hsa, Hsg'. cbn [negb andb].
    unfold intersection. rewrite Hsg, Hint. cbn [bind].
    unfold remap. rewrite Hqs. cbn [bind].
    unfold acquire_driver_object. by rewrite (allocator_missing self _ u Hmode Hfile).
  - unfold fill, acquire_driver_object.
    by rewrite (allocator_missing self _ u Hmode Hfile).
Qed.

End Failures.

(** ** The assertions of [_sample] and [get_data_driver] *)

Section Guards.

Context `{Collaborators}.

(** X26: [_sample] stops at an assertion when the footprint is not on the
    raster's grid, and [get_data_driver] when the top left corner of the
    footprint is not a pixel of the raster; with the corner inside,
    [get_data_driver] returns the empty array for no band, and fails with a
    [ValueError] at the first band when the window of the footprint leaves
    the file. *)
Theorem sample_guards self qfp band_ids b gds :
  let rt := spatial_to_raster (fp self) (tl qfp) in
  let inside :=
    (0 <=? rt.1) && (rt.1 <? rsizex (fp self))
    && ((0 <=? rt.2) && (rt.2 <? rsizey (fp self))) in
  (same_grid qfp (fp self) = false ->
   _sample self qfp band_ids b = Raise AssertionError) /\
  (inside = false ->
   get_data_driver self qfp band_ids gds = Raise AssertionError) /\
  (inside = true ->
   get_data_driver self qfp [] gds = Return (empty (shape qfp) 0 (dtype self))) /\
  (inside = true ->
   window_ok gds rt.1 rt.2 (rsizex qfp) (rsizey qfp) = false ->
   forall id rest, band_id_ok gds id = true ->
     get_data_driver self qfp (id :: rest) gds
     = Raise (ValueError "Could not read array (gdal error: `{}`)")).
Proof.
  intros rt inside. subst rt inside. unfold _sample, get_data_driver.
  destruct (spatial_to_raster (fp self) (tl qfp)) as [x y]. cbn [fst snd].
  split; [by intros ->|]. split; [|split].
  - intros Hin. destruct ((0 <=? x) && (x <? rsizex (fp self))); cbn [py_assert bind]; [|done].
    cbn [andb] in Hin. by rewrite Hin.
  - intros Hin. apply andb_true_iff in Hin as [-> ->]. done.
  - intros Hin Hwin id rest Hid. apply andb_true_iff in Hin as [-> ->].
    cbn [py_assert bind read_bands].
    destruct (gdalband_ok gds id Hid) as [-> _]. cbn [bind].
    unfold ReadAsArray. by rewrite Hwin.
Qed.

End Guards.

End RasterLaws.

(** * Laws of [_concat] *)

Module ConcatLaws.

Import Concat RasterProofs RasterLaws.

(** ** Masks and slice assignment *)

Section Masks.

Implicit Types (m : mask) (s : int_slice * int_slice).

Lemma cell_lookup {A} (m : list (list A)) (y x : nat) :
  cell m (Z.of_nat y) (Z.of_nat x)
  = match m !! y with Some row => row !! x | None => None end.
Proof. rewrite cell_nat by lia. by rewrite !Nat2Z.id. Qed.

Lemma region_set_shape s m h w :
  matrix_shape m h w -> matrix_shape (region_set s m) h w.
Proof.
  intros [Hl Hf]. unfold region_set. split; [by rewrite length_imap|].
  rewrite Forall_lookup. intros y row Hr. rewrite list_lookup_imap in Hr.
  destruct (m !! y) as [row0|] eqn:E; [|done]. injection Hr as <-.
  rewrite length_imap. rewrite Forall_lookup in Hf. by apply (Hf y).
Qed.

Lemma cell_region_set s m h w (y x : nat) :
  matrix_shape m h w ->
  cell (region_set s m) (Z.of_nat y) (Z.of_nat x)
  = (fun v => in_region h w s y x || v) <$> cell m (Z.of_nat y) (Z.of_nat x).
Proof.
  intros [Hl Hf]. rewrite !cell_lookup. unfold region_set.
  rewrite list_lookup_imap. destruct (m !! y) as [row|] eqn:E; [|done]. cbn.
  rewrite list_lookup_imap. rewrite Forall_lookup in Hf. specialize (Hf y row E).
  cbn in Hf. unfold nrows. by rewrite Hl, Hf.
Qed.

Lemma forallb_imap_true {A} (f : nat -> A -> bool) (l : list A) :
  forallb id (imap f l) = true <-> forall k v, l !! k = Some v -> f k v = true.
Proof.
  rewrite forallb_Forall_true, Forall_lookup. split.
  - intros Hf k v Hk. apply (Hf k). by rewrite list_lookup_imap, Hk.
  - intros Hf k b Hk. rewrite list_lookup_imap in Hk.
    destruct (l !! k) as [v|] eqn:E; [|done]. injection Hk as <-. cbn. by apply Hf.
Qed.

Lemma region_clear_spec s m h w :
  matrix_shape m h w ->
  region_clear s m = true <->
  forall y x : nat, in_region h w s y x = true ->
    cell m (Z.of_nat y) (Z.of_nat x) <> Some true.
Proof.
  intros [Hl Hf]. unfold region_clear. rewrite forallb_imap_true.
  rewrite Forall_lookup in Hf. split.
  - intros Hc y x Hin. rewrite cell_lookup.
    destruct (m !! y) as [row|] eqn:E; [|done].
    specialize (Hc y row E). rewrite forallb_imap_true in Hc.
    destruct (row !! x) as [v|] eqn:Ex; [|done].
    specialize (Hc x v Ex). specialize (Hf y row E). cbn in Hf.
    unfold nrows in Hc. rewrite Hl, Hf, Hin in Hc. by destruct v.
  - intros Hc y row E. rewrite forallb_imap_true. intros x v Ex.
    specialize (Hf y row E). cbn in Hf. unfold nrows. rewrite Hl, Hf.
    destruct (in_region h w s y x) eqn:Hin; [|done].
    specialize (Hc y x Hin). rewrite cell_lookup, E, Ex in Hc. by destruct v.
Qed.

Lemma all_true_spec m h w :
  matrix_shape m h w ->
  all_true m = true <->
  forall y x : nat, (y < h)%nat -> (x < w)%nat ->
    cell m (Z.of_nat y) (Z.of_nat x) = Some true.
Proof.
  intros [Hl Hf]. unfold all_true. rewrite forallb_Forall_true, Forall_lookup.
  rewrite Forall_lookup in Hf. split.
  - intros Ha y x Hy Hx. rewrite cell_lookup.
    destruct (lookup_lt_is_Some_2 m y) as [row E]; [lia|]. rewrite E.
    specialize (Ha y row E). cbn in Ha. rewrite forallb_Forall_true, Forall_lookup in Ha.
    specialize (Hf y row E). cbn in Hf.
    destruct (lookup_lt_is_Some_2 row x) as [v Ex]; [lia|]. rewrite Ex.
    specialize (Ha x v Ex). cbn in Ha. by subst.
  - intros Ha y row E. cbn. rewrite forallb_Forall_true, Forall_lookup. intros x v Ex.
    pose proof (lookup_lt_Some _ _ _ E) as Hy. pose proof (lookup_lt_Some _ _ _ Ex) as Hx.
    specialize (Hf y row E). cbn in Hf.
    specialize (Ha y x ltac:(lia) ltac:(lia)). rewrite cell_lookup, E, Ex in Ha.
    by injection Ha as ->.
Qed.

Lemma zeros_shape sh : matrix_shape (zeros sh) sh.1 sh.2.
Proof.
  unfold zeros. split; [by rewrite length_replicate|].
  apply Forall_replicate. by rewrite length_replicate.
Qed.

Lemma cell_zeros sh (y x : nat) :
  (y < sh.1)%nat -> (x < sh.2)%nat ->
  cell (zeros sh) (Z.of_nat y) (Z.of_nat x) = Some false.
Proof.
  intros Hy Hx. rewrite cell_lookup. unfold zeros.
  rewrite lookup_replicate_2 by done. by apply lookup_replicate_2.
Qed.

Lemma in_region_lt h w s y x :
  in_region h w s y x = true -> (y < h)%nat /\ (x < w)%nat.
Proof.
  assert (forall len i, (clip_index len i <= len)%nat) as Hc.
  { intros len i. unfold clip_index. destruct (Z.ltb_spec i 0); lia. }
  unfold in_region, in_slice.
  rewrite !andb_true_iff, !Nat.leb_le, !Nat.ltb_lt.
  pose proof (Hc h (istop s.1)). pose proof (Hc w (istop s.2)). lia.
Qed.

End Masks.

Section Assignment.

Lemma setitem_spec s src dst arr h w c :
  shape_of dst = (h, w, c) -> has_shape (data dst) h w c ->
  setitem s src dst = Return arr ->
  shape_of arr = (h, w, c) /\ dtype_of arr = dtype_of dst /\
  has_shape (data arr) h w c /\
  broadcasts (shape_of src).1.1 (slice_length h s.1) = true /\
  broadcasts (shape_of src).1.2 (slice_length w s.2) = true /\
  broadcasts (shape_of src).2 c = true /\
  forall y x i, (y < h)%nat -> (x < w)%nat -> (i < c)%nat ->
    get3 (data arr) y x i
    = if in_region h w s y x
      then match broadcast_get src (y - clip_index h (istart s.1))
                                   (x - clip_index w (istart s.2)) i with
           | Some v => Some (convert (dtype_of src) (dtype_of dst) v)
           | None => get3 (data dst) y x i
           end
      else get3 (data dst) y x i.
Proof.
  intros Hsh Hd. unfold setitem. rewrite Hsh.
  destruct (shape_of src) as [[sh sw] sc]. cbn [fst snd].
  destruct (broadcasts sh _ && broadcasts sw _ && broadcasts sc c) eqn:Eb; [|done].
  rewrite !andb_true_iff in Eb. destruct Eb as [[B1 B2] B3].
  intros [= <-]. cbn [shape_of dtype_of data].
  split; [done|]. split; [done|]. split; [|split; [done|]; split; [done|]; split; [done|]].
  - split; [rewrite length_imap; apply Hd|].
    rewrite Forall_lookup. intros y row Hr. rewrite list_lookup_imap in Hr.
    destruct (data dst !! y) as [row0|] eqn:E; [|done]. injection Hr as <-.
    destruct (has_shape_lookup _ _ _ _ _ _ Hd E) as [Hw Hf].
    split; [by rewrite length_imap|].
    rewrite Forall_lookup. intros x px Hp. rewrite list_lookup_imap in Hp.
    destruct (row0 !! x) as [px0|] eqn:E2; [|done]. injection Hp as <-.
    rewrite Forall_lookup in Hf. specialize (Hf x px0 E2). cbn in Hf.
    destruct (in_region h w s y x); [by rewrite length_imap | done].
  - intros y x i Hy Hx Hi. unfold get3 at 1. rewrite list_lookup_imap.
    destruct (lookup_lt_is_Some_2 (data dst) y) as [row Hr]; [destruct Hd; lia|].
    rewrite Hr. cbn. rewrite list_lookup_imap.
    destruct (has_shape_lookup _ _ _ _ _ _ Hd Hr) as [Hw _].
    destruct (lookup_lt_is_Some_2 row x) as [px Hp]; [lia|].
    rewrite Hp. cbn.
    pose proof (has_shape_px _ _ _ _ _ _ _ _ Hd Hr Hp) as Hl.
    destruct (lookup_lt_is_Some_2 px i) as [old Ho]; [lia|].
    assert (get3 (data dst) y x i = Some old) as -> by (unfold get3; by rewrite Hr, Hp).
    destruct (in_region h w s y x); [|done].
    rewrite list_lookup_imap, Ho. cbn.
    by destruct (broadcast_get _ _ _ _).
Qed.

Lemma setitem_total s src dst h w c :
  shape_of dst = (h, w, c) ->
  broadcasts (shape_of src).1.1 (slice_length h s.1) = true ->
  broadcasts (shape_of src).1.2 (slice_length w s.2) = true ->
  broadcasts (shape_of src).2 c = true ->
  exists arr, setitem s src dst = Return arr.
Proof.
  intros Hsh B1 B2 B3. unfold setitem. rewrite Hsh.
  destruct (shape_of src) as [[sh sw] sc]. cbn [fst snd] in *.
  rewrite B1, B2, B3. by eexists.
Qed.

Lemma broadcast_get_some a c y x i yl xl :
  array_ok a (shape_of a).1 (shape_of a).2 = true ->
  broadcasts (shape_of a).1.1 yl = true -> broadcasts (shape_of a).1.2 xl = true ->
  broadcasts (shape_of a).2 c = true ->
  (y < yl)%nat -> (x < xl)%nat -> (i < c)%nat ->
  exists v, broadcast_get a y x i = Some v.
Proof.
  intros Hok B1 B2 B3 Hy Hx Hi.
  destruct (array_ok_shape _ _ _ Hok) as [_ Ha].
  unfold broadcast_get. destruct (shape_of a) as [[sh sw] sc]. cbn [fst snd] in *.
  unfold broadcasts in *. unfold bcast.
  apply (get3_in_shape _ _ _ _ _ _ _ Ha).
  - destruct (Nat.eqb_spec sh 1); [lia|]. rewrite orb_false_r in B1.
    apply Nat.eqb_eq in B1. lia.
  - destruct (Nat.eqb_spec sw 1); [lia|]. rewrite orb_false_r in B2.
    apply Nat.eqb_eq in B2. lia.
  - destruct (Nat.eqb_spec sc 1); [lia|]. rewrite orb_false_r in B3.
    apply Nat.eqb_eq in B3. lia.
Qed.

Lemma in_slice_offset len sl k :
  in_slice len sl k = true ->
  (k - clip_index len (istart sl) < slice_length len sl)%nat.
Proof.
  unfold in_slice, slice_length. rewrite andb_true_iff, Nat.leb_le, Nat.ltb_lt. lia.
Qed.

End Assignment.

(** ** The loop over the tiles *)

Section Loop.

Context `{FootprintSlices}.

Lemma concat_loop_spec fp h w c items :
  forall arr m arr' m',
  shape_of arr = (h, w, c) -> has_shape (data arr) h w c -> matrix_shape m h w ->
  concat_loop fp items arr m = Return (arr', m') ->
  exists sl,
    Forall2 (fun (it : Footprint * ndarray) s =>
               slice_in it.1 fp = Return s /\ shape it.1 = (shape_of it.2).1 /\
               broadcasts (shape_of it.2).1.1 (slice_length h s.1) = true /\
               broadcasts (shape_of it.2).1.2 (slice_length w s.2) = true /\
               broadcasts (shape_of it.2).2 c = true) items sl /\
    shape_of arr' = (h, w, c) /\ dtype_of arr' = dtype_of arr /\
    has_shape (data arr') h w c /\ matrix_shape m' h w /\
    (forall (y x : nat) v,
       cell m (Z.of_nat y) (Z.of_nat x) = Some v ->
       cell m' (Z.of_nat y) (Z.of_nat x)
       = Some (v || existsb (fun s => in_region h w s y x) sl)) /\
    (forall k s (y x : nat),
       sl !! k = Some s -> in_region h w s y x = true ->
       cell m (Z.of_nat y) (Z.of_nat x) <> Some true /\
       forall k' s', sl !! k' = Some s' -> in_region h w s' y x = true -> k' = k) /\
    (forall k it s (y x i : nat),
       items !! k = Some it -> sl !! k = Some s ->
       in_region h w s y x = true -> (i < c)%nat ->
       array_ok it.2 (shape_of it.2).1 (shape_of it.2).2 = true ->
       exists v,
         broadcast_get it.2 (y - clip_index h (istart s.1))
                            (x - clip_index w (istart s.2)) i = Some v /\
         get3 (data arr') y x i = Some (convert (dtype_of it.2) (dtype_of arr) v)) /\
    (forall y x i : nat,
       (y < h)%nat -> (x < w)%nat -> (i < c)%nat ->
       existsb (fun s => in_region h w s y x) sl = false ->
       get3 (data arr') y x i = get3 (data arr) y x i).
Proof.
  induction items as [|[t a] items IH]; intros arr m arr' m' Hsh Hd Hm Hrun.
  - injection Hrun as <- <-. exists []. split; [constructor|].
    repeat (split; [done|]). split; [|split; [done|]; split; [done|done]].
    intros y x v ->. by rewrite orb_false_r.
  - cbn [concat_loop] in Hrun.
    destruct (bool_decide (shape t = (shape_of a).1)) eqn:Esh; cbn [py_assert bind] in Hrun;
      [|done].
    apply bool_decide_eq_true in Esh.
    destruct (slice_in t fp) as [s|e] eqn:Es; cbn [bind] in Hrun; [|done].
    destruct (region_clear s m) eqn:Ec; cbn [py_assert bind] in Hrun; [|done].
    destruct (setitem s a arr) as [arr1|e] eqn:Eset; cbn [bind] in Hrun; [|done].
    destruct (setitem_spec s a arr arr1 h w c Hsh Hd Eset)
      as (Hsh1 & Hdt1 & Hd1 & B1 & B2 & B3 & Hval).
    pose proof (region_set_shape s m h w Hm) as Hm1.
    destruct (IH arr1 (region_set s m) arr' m' Hsh1 Hd1 Hm1 Hrun)
      as (sl & Hsl & Hsh' & Hdt' & Hd' & Hm' & Hmask & Hdis & Hv1 & Hv2).
    pose proof (proj1 (region_clear_spec s m h w Hm) Ec) as Hclear.
    assert (forall (y x : nat) s', s' ∈ sl -> in_region h w s' y x = true ->
              in_region h w s y x = false) as Hsep.
    { intros y x s' Hin Hr. apply list_elem_of_lookup in Hin as [k Hk].
      destruct (Hdis k s' y x Hk Hr) as [Hnt _].
      destruct (in_region_lt _ _ _ _ _ Hr) as [Hy Hx].
      destruct (cell_in_shape m h w y x Hm Hy Hx) as [v Hv].
      rewrite (cell_region_set s m h w) in Hnt by done. rewrite Hv in Hnt. cbn in Hnt.
      destruct (in_region h w s y x); [done|done]. }
    assert (forall y x : nat, in_region h w s y x = true ->
              existsb (fun s' => in_region h w s' y x) sl = false) as Hsep'.
    { intros y x Hr. apply not_true_iff_false. intros Hex.
      apply existsb_exists in Hex as (s' & Hin & Hr').
      apply list_elem_of_In in Hin. by rewrite (Hsep y x s' Hin Hr') in Hr. }
    exists (s :: sl). split; [constructor; [done|exact Hsl]|].
    split; [done|]. split; [congruence|]. split; [done|]. split; [done|].
    split; [|split; [|split]].
    + intros y x v Hv.
      rewrite (Hmask y x (in_region h w s y x || v)).
      * cbn [existsb]. f_equal.
        destruct (in_region h w s y x), v, (existsb _ sl); done.
      * rewrite (cell_region_set s m h w) by done. by rewrite Hv.
    + intros k s0 y x Hk Hr.
      destruct (in_region_lt _ _ _ _ _ Hr) as [Hy Hx].
      destruct (cell_in_shape m h w y x Hm Hy Hx) as [v Hv].
      destruct k as [|k]; cbn in Hk.
      * injection Hk as <-. split; [by apply Hclear|].
        intros k' s' Hk' Hr'. destruct k' as [|k']; [done|]. cbn in Hk'.
        apply list_elem_of_lookup_2 in Hk'. by rewrite (Hsep y x s' Hk' Hr') in Hr.
      * destruct (Hdis k s0 y x Hk Hr) as [Hnt Huniq].
        rewrite (cell_region_set s m h w) in Hnt by done. rewrite Hv in Hnt. cbn in Hnt.
        split.
        -- rewrite Hv. intros [= ->]. by rewrite orb_true_r in Hnt.
        -- intros k' s' Hk' Hr'. destruct k' as [|k']; cbn in Hk'.
           ++ injection Hk' as <-. by rewrite Hr' in Hnt.
           ++ f_equal. by apply (Huniq k' s').
    + intros k it s0 y x i Hit Hk Hr Hi Hok.
      destruct k as [|k]; cbn in Hit, Hk.
      * injection Hit as <-. injection Hk as <-. cbn [fst snd] in *.
        destruct (in_region_lt _ _ _ _ _ Hr) as [Hy Hx].
        rewrite (Hv2 y x i Hy Hx Hi (Hsep' y x Hr)).
        rewrite (Hval y x i Hy Hx Hi), Hr.
        unfold in_region in Hr. apply andb_true_iff in Hr as [Hr1 Hr2].
        destruct (broadcast_get_some a c (y - clip_index h (istart s.1))
                    (x - clip_index w (istart s.2)) i
                    (slice_length h s.1) (slice_length w s.2)) as [v Hv]; try done.
        { by apply in_slice_offset. } { by apply in_slice_offset. }
        rewrite Hv. by exists v.
      * destruct (Hv1 k it s0 y x i Hit Hk Hr Hi Hok) as (v & Hb & Hg).
        exists v. split; [done|]. by rewrite Hg, Hdt1.
    + intros y x i Hy Hx Hi Hex. cbn [existsb] in Hex.
      apply orb_false_iff in Hex as [Hr Hex].
      rewrite (Hv2 y x i Hy Hx Hi Hex), (Hval y x i Hy Hx Hi), Hr. done.
Qed.

Lemma concat_loop_total fp h w c items sl :
  Forall2 (fun (it : Footprint * ndarray) s =>
             slice_in it.1 fp = Return s /\ shape it.1 = (shape_of it.2).1 /\
             broadcasts (shape_of it.2).1.1 (slice_length h s.1) = true /\
             broadcasts (shape_of it.2).1.2 (slice_length w s.2) = true /\
             broadcasts (shape_of it.2).2 c = true) items sl ->
  (forall k k' s s' (y x : nat),
     sl !! k = Some s -> sl !! k' = Some s' ->
     in_region h w s y x = true -> in_region h w s' y x = true -> k = k') ->
  forall arr m,
  shape_of arr = (h, w, c) -> has_shape (data arr) h w c -> matrix_shape m h w ->
  (forall s (y x : nat), s ∈ sl -> in_region h w s y x = true ->
     cell m (Z.of_nat y) (Z.of_nat x) <> Some true) ->
  exists arr' m', concat_loop fp items arr m = Return (arr', m').
Proof.
  induction 1 as [|[t a] s items sl (Hs & Hsh & B1 & B2 & B3) _ IH];
    intros Hdis arr m Harr Hd Hm Hfree.
  - by eexists _, _.
  - cbn [fst snd] in *. cbn [concat_loop]. rewrite Hs.
    rewrite bool_decide_eq_true_2 by done. cbn [py_assert bind].
    assert (region_clear s m = true) as ->.
    { apply (region_clear_spec s m h w Hm). intros y x Hr. apply (Hfree s); [by left|done]. }
    cbn [py_assert bind].
    destruct (setitem_total s a arr h w c Harr B1 B2 B3) as [arr1 Hset].
    rewrite Hset. cbn [bind].
    destruct (setitem_spec s a arr arr1 h w c Harr Hd Hset) as (Hsh1 & _ & Hd1 & _).
    apply IH; try done.
    + intros k k' s1 s2 y x Hk Hk' Hr Hr'.
      by injection (Hdis (S k) (S k') s1 s2 y x Hk Hk' Hr Hr').
    + by apply region_set_shape.
    + intros s' y x Hin Hr. rewrite (cell_region_set s m h w) by done.
      destruct (in_region_lt _ _ _ _ _ Hr) as [Hy Hx].
      destruct (cell_in_shape m h w y x Hm Hy Hx) as [v Hv]. rewrite Hv. cbn.
      apply list_elem_of_lookup in Hin as [k Hk].
      destruct (in_region h w s y x) eqn:Hrs.
      { by specialize (Hdis 0%nat (S k) s s' y x eq_refl Hk Hrs Hr). }
      cbn. intros [= ->]. apply (Hfree s' y x); [|done|done].
      right. by eapply list_elem_of_lookup_2.
Qed.

End Loop.

(** ** Exact cover *)

Section Cover.

Context {A : Type}.

Lemma filter_none (P : A -> bool) (l : list A) :
  length (List.filter P l) = 0%nat <-> existsb P l = false.
Proof.
  induction l as [|a l IH]; [done|]. cbn. destruct (P a); cbn; [|exact IH].
  split; [lia|done].
Qed.

Lemma filter_one (P : A -> bool) (l : list A) :
  length (List.filter P l) = 1%nat <->
  exists k a, l !! k = Some a /\ P a = true /\
    forall k' a', l !! k' = Some a' -> P a' = true -> k' = k.
Proof.
  induction l as [|a l IH].
  - cbn. split; [lia|]. by intros (k & a & Hk & _).
  - cbn [List.filter]. destruct (P a) eqn:Ea; cbn [length].
    + split.
      * intros Hl. assert (existsb P l = false) as Hn by (apply filter_none; lia).
        exists 0%nat, a. split; [done|]. split; [done|].
        intros k' a' Hk' Ha'. destruct k' as [|k']; [done|]. cbn in Hk'.
        exfalso. apply not_true_iff_false in Hn. apply Hn.
        apply existsb_exists. exists a'. split; [|done].
        apply list_elem_of_In. by eapply list_elem_of_lookup_2.
      * intros (k & a0 & Hk & Ha0 & Hu). f_equal. apply filter_none.
        apply not_true_iff_false. intros Hex.
        apply existsb_exists in Hex as (a' & Hin & Ha').
        apply list_elem_of_In, list_elem_of_lookup in Hin as [k' Hk'].
        pose proof (Hu 0%nat a eq_refl Ea) as H0.
        pose proof (Hu (S k') a' Hk' Ha') as H1. lia.
    + rewrite IH. split.
      * intros (k & a0 & Hk & Ha0 & Hu). exists (S k), a0. split; [done|]. split; [done|].
        intros k' a' Hk' Ha'. destruct k' as [|k']; cbn in Hk'.
        -- injection Hk' as <-. congruence.
        -- f_equal. by apply (Hu k' a').
      * intros (k & a0 & Hk & Ha0 & Hu). destruct k as [|k]; cbn in Hk.
        -- injection Hk as <-. congruence.
        -- exists k, a0. split; [done|]. split; [done|].
           intros k' a' Hk' Ha'. by injection (Hu (S k') a' Hk' Ha').
Qed.

End Cover.

Lemma covered_once_spec h w sl :
  covered_once h w sl = true <->
  forall y x : nat, (y < h)%nat -> (x < w)%nat ->
    exists k s, sl !! k = Some s /\ in_region h w s y x = true /\
      forall k' s', sl !! k' = Some s' -> in_region h w s' y x = true -> k' = k.
Proof.
  unfold covered_once. rewrite forallb_Forall_true, Forall_forall. split.
  - intros Hc y x Hy Hx. specialize (Hc y). cbn in Hc.
    rewrite forallb_Forall_true, Forall_forall in Hc.
    apply filter_one, Nat.eqb_eq. apply Hc.
    + apply elem_of_seq. lia.
    + apply elem_of_seq. lia.
  - intros Hc y Hy. cbn. rewrite forallb_Forall_true, Forall_forall. intros x Hx. cbn.
    apply elem_of_seq in Hy, Hx.
    apply Nat.eqb_eq, filter_one. apply Hc; lia.
Qed.

Section Theorems.

Context `{FootprintSlices}.

Lemma empty_shape sh c dt :
  shape_of (empty sh c dt) = (sh.1, sh.2, c) /\ dtype_of (empty sh c dt) = dt /\
  has_shape (data (empty sh c dt)) sh.1 sh.2 c.
Proof. split; [done|]. split; [done|]. apply has_shape_replicate. Qed.

Lemma concat_cons fp t0 a0 rest dt :
  _concat fp ((t0, a0) :: rest) dt
  = bind (concat_loop fp ((t0, a0) :: rest) (empty (shape fp) (shape_of a0).2 dt)
                      (zeros (shape fp)))
         (fun r => bind (py_assert (all_true r.2)) (fun _ => Return r.1)).
Proof.
  unfold _concat. by destruct (concat_loop _ _ _ _) as [[arr m]|e].
Qed.

(** X11: If [_concat] returns, [array_per_fp] is not empty, [slice_in]
    answered for every tile, and the slices of the tiles cover every pixel of
    the footprint exactly once: a gap or an overlap stops at an
    assertion. *)
Theorem concat_partition fp array_per_fp dt arr :
  _concat fp array_per_fp dt = Return arr ->
  array_per_fp <> [] /\
  exists sl,
    Forall2 (fun (it : Footprint * ndarray) s => slice_in it.1 fp = Return s)
            array_per_fp sl /\
    covered_once (shape fp).1 (shape fp).2 sl = true.
Proof.
  destruct array_per_fp as [|[t0 a0] rest]; [done|].
  rewrite concat_cons. set (items := (t0, a0) :: rest). set (c := (shape_of a0).2).
  destruct (empty_shape (shape fp) c dt) as (Hsh & Hdt & Hd).
  destruct (concat_loop fp items _ _) as [[arr' m']|e] eqn:Erun; cbn [bind fst snd]; [|done].
  destruct (concat_loop_spec fp _ _ c items _ _ _ _ Hsh Hd (zeros_shape _) Erun)
    as (sl & Hsl & Hsh' & Hdt' & Hd' & Hm' & Hmask & Hdis & _).
  destruct (all_true m') eqn:Eall; cbn [py_assert bind]; [|done].
  intros [= <-]. split; [done|].
  exists sl. split.
  - eapply Forall2_impl; [exact Hsl|]. by intros it s (Hs & _).
  - apply covered_once_spec. intros y x Hy Hx.
    pose proof (proj1 (all_true_spec m' _ _ Hm') Eall y x Hy Hx) as Ht.
    rewrite (Hmask y x false) in Ht by (by apply cell_zeros).
    injection Ht as Ht. cbn in Ht.
    apply existsb_exists in Ht as (s & Hin & Hr).
    apply list_elem_of_In, list_elem_of_lookup in Hin as [k Hk].
    exists k, s. split; [done|]. split; [done|].
    by destruct (Hdis k s y x Hk Hr) as [_ Hu].
Qed.

(** X12: If [_concat] returns, the result has the raster's dtype and the shape
    of the footprint with the band count of the first array, and each cell
    inside the slices of a tile holds the value of the tile's array at the
    same offset, broadcast as numpy does and converted to the raster's
    dtype. *)
Theorem concat_values fp array_per_fp dt arr :
  _concat fp array_per_fp dt = Return arr ->
  let h := (shape fp).1 in
  let w := (shape fp).2 in
  let band_count := default 0%nat ((fun it : Footprint * ndarray => (shape_of it.2).2)
                                     <$> head array_per_fp) in
  dtype_of arr = dt /\ shape_of arr = (h, w, band_count) /\
  has_shape (data arr) h w band_count /\
  forall k tile tile_arr s (y x i : nat),
    array_per_fp !! k = Some (tile, tile_arr) ->
    array_ok tile_arr (shape_of tile_arr).1 (shape_of tile_arr).2 = true ->
    slice_in tile fp = Return s ->
    in_region h w s y x = true -> (i < band_count)%nat ->
    exists v,
      broadcast_get tile_arr (y - clip_index h (istart s.1))
                             (x - clip_index w (istart s.2)) i = Some v /\
      get3 (data arr) y x i = Some (convert (dtype_of tile_arr) dt v).
Proof.
  destruct array_per_fp as [|[t0 a0] rest]; [done|].
  cbn [head fmap option_fmap option_map from_option fst snd].
  rewrite concat_cons. set (items := (t0, a0) :: rest). set (c := (shape_of a0).2).
  destruct (empty_shape (shape fp) c dt) as (Hsh & Hdt & Hd).
  destruct (concat_loop fp items _ _) as [[arr' m']|e] eqn:Erun; cbn [bind fst snd]; [|done].
  destruct (concat_loop_spec fp _ _ c items _ _ _ _ Hsh Hd (zeros_shape _) Erun)
    as (sl & Hsl & Hsh' & Hdt' & Hd' & Hm' & Hmask & Hdis & Hv1 & _).
  destruct (all_true m'); cbn [py_assert bind]; [|done].
  intros [= <-]. change (id c) with c. split; [congruence|]. split; [done|]. split; [done|].
  intros k tile tile_arr s y x i Hk Hok Hs Hr Hi.
  destruct (Forall2_lookup_l _ _ _ _ _ Hsl Hk) as (s' & Hk' & Hs' & _).
  cbn [fst] in Hs'. rewrite Hs in Hs'. injection Hs' as <-.
  destruct (Hv1 k (tile, tile_arr) s y x i Hk Hk' Hr Hi Hok) as (v & Hb & Hg).
  exists v. split; [done|]. by rewrite Hg, Hdt.
Qed.

(** X13: [_concat] returns when [array_per_fp] is not empty, every tile has
    the first two dimensions of its array and slices that its array
    broadcasts to, with the band count of the first array, and the slices
    cover every pixel of the footprint exactly once. *)
Theorem concat_total fp tile0 arr0 rest sl dt :
  let array_per_fp := (tile0, arr0) :: rest in
  let h := (shape fp).1 in
  let w := (shape fp).2 in
  let band_count := (shape_of arr0).2 in
  Forall2 (fun (it : Footprint * ndarray) s =>
             slice_in it.1 fp = Return s /\ shape it.1 = (shape_of it.2).1 /\
             broadcasts (shape_of it.2).1.1 (slice_length h s.1) = true /\
             broadcasts (shape_of it.2).1.2 (slice_length w s.2) = true /\
             broadcasts (shape_of it.2).2 band_count = true) array_per_fp sl ->
  covered_once h w sl = true ->
  exists arr, _concat fp array_per_fp dt = Return arr.
Proof.
  intros items h w c Hsl Hcov. unfold items at 1. rewrite concat_cons. fold items. fold c.
  destruct (empty_shape (shape fp) c dt) as (Hsh & Hdt & Hd).
  pose proof (proj1 (covered_once_spec h w sl) Hcov) as Hc.
  destruct (concat_loop_total fp h w c items sl Hsl) with
    (arr := empty (shape fp) c dt) (m := zeros (shape fp)) as (arr' & m' & Hrun);
    try done.
  - intros k k' s s' y x Hk Hk' Hr Hr'.
    destruct (in_region_lt _ _ _ _ _ Hr) as [Hy Hx].
    destruct (Hc y x Hy Hx) as (k0 & s0 & _ & _ & Hu).
    rewrite (Hu k s Hk Hr), (Hu k' s' Hk' Hr'). done.
  - apply zeros_shape.
  - intros s y x _ Hr. destruct (in_region_lt _ _ _ _ _ Hr) as [Hy Hx].
    by rewrite cell_zeros.
  - rewrite Hrun. cbn [bind fst snd].
    destruct (concat_loop_spec fp _ _ c items _ _ _ _ Hsh Hd (zeros_shape _) Hrun)
      as (sl' & Hsl' & _ & _ & _ & Hm' & Hmask & _).
    assert (sl' = sl) as ->.
    { clear -Hsl Hsl'. revert sl' Hsl'. induction Hsl as [|it s l sl0 (Hs & _) _ IH];
        intros sl' Hsl'; inversion Hsl' as [|? s' ? sl1 (Hs' & _) Hrest]; subst; [done|].
      rewrite Hs in Hs'. injection Hs' as <-. f_equal. by apply IH. }
    assert (all_true m' = true) as ->.
    { apply (all_true_spec m' _ _ Hm'). intros y x Hy Hx.
      rewrite (Hmask y x false) by (by apply cell_zeros). cbn. f_equal.
      destruct (Hc y x Hy Hx) as (k & s & Hk & Hr & _).
      apply existsb_exists. exists s. split; [|done].
      apply list_elem_of_In. by eapply list_elem_of_lookup_2. }
    cbn [py_assert bind]. by eexists.
Qed.

End Theorems.

End ConcatLaws.

(** * Laws of the DataSource *)

Module RegistryLaws.

Import DataSource DataSourceProofs.

(** ** Entry points and the registry *)

Section Register.

Context `{Externals} `{Sources}.

Lemma dict_get_app {V} (d : list (string * V)) k v key :
  dict_get (d ++ [(k, v)]) key
  = match dict_get d key with
    | Some x => Some x
    | None => if String.eqb k key then Some v else None
    end.
Proof.
  induction d as [|[k0 v0] d IH]; cbn; [done|].
  destruct (String.eqb k0 key); [done | exact IH].
Qed.

Lemma dict_get_None {V} (d : list (string * V)) key :
  key ∉ d.*1 -> dict_get d key = None.
Proof.
  induction d as [|[k0 v0] d IH]; cbn; [done|]. intros Hn.
  apply not_elem_of_cons in Hn as [Hne Hn].
  destruct (String.eqb_spec k0 key); [congruence | by apply IH].
Qed.

Lemma validate_key_ok self key :
  _validate_key self key = Return tt ->
  key <> ""%string /\ registered_key self key = false.
Proof.
  unfold _validate_key. destruct (String.eqb_spec key ""); [done|].
  destruct (registered_key self key); done.
Qed.

Lemma validate_key_taken self key :
  key <> ""%string -> registered_key self key = true ->
  _validate_key self key = Raise DuplicateKey.
Proof.
  intros Hne Hreg. unfold _validate_key. rewrite Hreg.
  by destruct (String.eqb_spec key "").
Qed.

Lemma contains_proxy_app self b prox keys :
  contains_proxy
    {| _ds_closed := _ds_closed self; _back := b;
       _keys_of_proxy := _keys_of_proxy self ++ [(prox, keys)];
       _proxy_of_key := _proxy_of_key self ++ ((fun k => (k, prox)) <$> keys) |} prox = true.
Proof.
  unfold contains_proxy. cbn. apply bool_decide_eq_true.
  rewrite !fmap_app. apply elem_of_app. right. cbn. by left.
Qed.

Lemma register_keyed self b key prox self' :
  _register (with_back self b) [key] prox = Return self' ->
  registered_as self self' key prox.
Proof.
  unfold _register. cbn [validate_keys].
  destruct (_validate_key (with_back self b) key) as [[]|e] eqn:Ev; cbn [bind]; [|done].
  apply validate_key_ok in Ev as [Hne Hreg]. intros [= <-].
  unfold registered_as, __contains__, __getitem__, __len__. cbn.
  unfold registered_key in Hreg. cbn in Hreg. apply bool_decide_eq_false in Hreg.
  split; [done|]. split; [by apply bool_decide_eq_false|].
  split; [|split; [|split; [|split]]].
  - rewrite dict_get_app, (dict_get_None _ _ Hreg), String.eqb_refl. done.
  - intros k Hk. rewrite dict_get_app.
    destruct (dict_get (_proxy_of_key self) k); [done|].
    by destruct (String.eqb_spec key k); [congruence|].
  - rewrite length_app. cbn. lia.
  - apply (contains_proxy_app self b prox [key]).
  - done.
Qed.

Lemma register_anonymous self b prox self' :
  _register (with_back self b) [] prox = Return self' ->
  registered_anonymously self self' prox.
Proof.
  unfold _register. cbn. intros [= <-].
  unfold registered_anonymously, __getitem__, __len__. cbn.
  rewrite app_nil_r. split; [done|]. split; [rewrite length_app; cbn; lia|].
  split; [|done]. unfold contains_proxy. cbn. apply bool_decide_eq_true.
  rewrite !fmap_app. apply elem_of_app. right. cbn. by left.
Qed.

(** X14: Whenever [open_raster], [create_raster], [wrap_numpy_raster] or
    [create_cached_raster_recipe] returns a proxy, its key is not empty and
    was free, [ds[key]] is that proxy afterwards, every other key answers as
    before, [len(ds)] is one more, the proxy is in the DataSource, and the
    DataSource is as open or closed as before. *)
Theorem keyed_entry_registers self self' prox key path driver options mode
    fp dtype band_count band_schema sr array c :
  open_raster self key path driver options mode = Return (prox, self') \/
  create_raster self key path fp dtype band_count band_schema driver options sr
  = Return (prox, self') \/
  wrap_numpy_raster self key fp array band_schema sr mode = Return (prox, self') \/
  (create_cached_raster_recipe self c = Return (prox, self') /\ DataSource.key c = key) ->
  registered_as self self' key prox.
Proof.
  intros [Hrun|[Hrun|[Hrun|[Hrun <-]]]].
  - unfold open_raster in Hrun.
    destruct (_validate_key self key) as [[]|e]; cbn [bind] in Hrun; [|done].
    destruct (BackGDALFileRaster.of_of_mode mode) as [u|e]; cbn [bind] in Hrun; [|done].
    destruct (dispatch_open _ _ _ _ _ _) as [[p b]|e]; cbn [bind] in Hrun; [|done].
    destruct (_register _ [key] p) as [s|e] eqn:Er; cbn [bind] in Hrun; [|done].
    injection Hrun as <- <-. by apply (register_keyed self b).
  - unfold create_raster in Hrun.
    destruct (_validate_key self key) as [[]|e]; cbn [bind] in Hrun; [|done].
    destruct (check_creation _ _ _ _ _ _) as [[[[f dt] schema] wkt]|e];
      cbn [bind] in Hrun; [|done].
    destruct (dispatch_create _ _ _ _ _ _ _ _ _) as [[p b]|e]; cbn [bind] in Hrun; [|done].
    destruct (_register _ [key] p) as [s|e] eqn:Er; cbn [bind] in Hrun; [|done].
    injection Hrun as <- <-. by apply (register_keyed self b).
  - unfold wrap_numpy_raster in Hrun.
    destruct (_validate_key self key) as [[]|e]; cbn [bind] in Hrun; [|done].
    destruct (check_wrapping _ _ _ _ _ _) as [[[f schema] wkt]|e];
      cbn [bind] in Hrun; [|done].
    destruct (NumpyRaster _ _ _ _ _ _) as [[p b]|e]; cbn [bind] in Hrun; [|done].
    destruct (_register _ [key] p) as [s|e] eqn:Er; cbn [bind] in Hrun; [|done].
    injection Hrun as <- <-. by apply (register_keyed self b).
  - unfold create_cached_raster_recipe in Hrun.
    destruct (check_classic self c) as [[[[f dt] schema] wkt]|e]; cbn [bind] in Hrun; [|done].
    destruct (check_callables c) as [[]|e]; cbn [bind] in Hrun; [|done].
    destruct (check_primitives self c) as [[[backs kws] conv]|e]; cbn [bind] in Hrun; [|done].
    destruct (check_pools self c) as [[[[cp mp] ip] rp]|e]; cbn [bind] in Hrun; [|done].
    destruct (check_tilings _ _ _) as [[ct cpt]|e]; cbn [bind] in Hrun; [|done].
    destruct (check_misc c) as [dir|e]; cbn [bind] in Hrun; [|done].
    destruct (CachedRasterRecipe _ _) as [p|e]; cbn [bind] in Hrun; [|done].
    destruct (_register self [DataSource.key c] p) as [s|e] eqn:Er; cbn [bind] in Hrun; [|done].
    injection Hrun as <- <-. apply (register_keyed self (_back self)).
    by destruct self.
Qed.

(** X15: Whenever [aopen_raster], [acreate_raster] or [awrap_numpy_raster]
    returns a proxy, every key answers as before, [len(ds)] is one more, the
    proxy is in the DataSource, and the DataSource is as open or closed as
    before. *)
Theorem anonymous_entry_registers self self' prox path driver options mode
    fp dtype band_count band_schema sr array :
  aopen_raster self path driver options mode = Return (prox, self') \/
  acreate_raster self path fp dtype band_count band_schema driver options sr
  = Return (prox, self') \/
  awrap_numpy_raster self fp array band_schema sr mode = Return (prox, self') ->
  registered_anonymously self self' prox.
Proof.
  intros [Hrun|[Hrun|Hrun]].
  - unfold aopen_raster in Hrun.
    destruct (BackGDALFileRaster.of_of_mode mode) as [u|e]; cbn [bind] in Hrun; [|done].
    destruct (dispatch_open _ _ _ _ _ _) as [[p b]|e]; cbn [bind] in Hrun; [|done].
    destruct (_register _ [] p) as [s|e] eqn:Er; cbn [bind] in Hrun; [|done].
    injection Hrun as <- <-. by apply (register_anonymous self b).
  - unfold acreate_raster in Hrun.
    destruct (check_creation _ _ _ _ _ _) as [[[[f dt] schema] wkt]|e];
      cbn [bind] in Hrun; [|done].
    destruct (dispatch_create _ _ _ _ _ _ _ _ _) as [[p b]|e]; cbn [bind] in Hrun; [|done].
    destruct (_register _ [] p) as [s|e] eqn:Er; cbn [bind] in Hrun; [|done].
    injection Hrun as <- <-. by apply (register_anonymous self b).
  - unfold awrap_numpy_raster in Hrun.
    destruct (check_wrapping _ _ _ _ _ _) as [[[f schema] wkt]|e];
      cbn [bind] in Hrun; [|done].
    destruct (NumpyRaster _ _ _ _ _ _) as [[p b]|e]; cbn [bind] in Hrun; [|done].
    destruct (_register _ [] p) as [s|e] eqn:Er; cbn [bind] in Hrun; [|done].
    injection Hrun as <- <-. by apply (register_anonymous self b).
Qed.

(** X16: With a key that is not empty and registered already, [open_raster],
    [create_raster], [wrap_numpy_raster] and [create_cached_raster_recipe]
    fail with [DuplicateKey], whatever the other arguments are. *)
Theorem taken_key_rejected self key path driver options mode
    fp dtype band_count band_schema sr array c :
  key <> ""%string -> __contains__ self key = true ->
  open_raster self key path driver options mode = Raise DuplicateKey /\
  create_raster self key path fp dtype band_count band_schema driver options sr
  = Raise DuplicateKey /\
  wrap_numpy_raster self key fp array band_schema sr mode = Raise DuplicateKey /\
  (DataSource.key c = key -> create_cached_raster_recipe self c = Raise DuplicateKey).
Proof.
  intros Hne Hin. pose proof (validate_key_taken self key Hne Hin) as Hv.
  unfold open_raster, create_raster, wrap_numpy_raster. rewrite Hv.
  repeat (split; [done|]). intros <-.
  unfold create_cached_raster_recipe, check_classic. by rewrite Hv.
Qed.

(** X17: With a driver whose name is [mem] in any case of letters,
    [open_raster] and [aopen_raster] fail with a [ValueError] once the key
    and the mode are accepted, and [create_raster] and [acreate_raster] do
    not depend on the path. *)
Theorem mem_driver self key path path' driver options mode
    fp dtype band_count band_schema sr :
  lower driver = "mem"%string ->
  (_validate_key self key = Return tt ->
   returns (BackGDALFileRaster.of_of_mode mode) = true ->
   open_raster self key path driver options mode
   = Raise (ValueError "Can't open a MEM raster, user create_raster")) /\
  (returns (BackGDALFileRaster.of_of_mode mode) = true ->
   aopen_raster self path driver options mode
   = Raise (ValueError "Can't open a MEM raster, user acreate_raster")) /\
  create_raster self key path fp dtype band_count band_schema driver options sr
  = create_raster self key path' fp dtype band_count band_schema driver options sr /\
  acreate_raster self path fp dtype band_count band_schema driver options sr
  = acreate_raster self path' fp dtype band_count band_schema driver options sr.
Proof.
  intros Hmem. unfold open_raster, aopen_raster, create_raster, acreate_raster,
    dispatch_open, dispatch_create. rewrite Hmem. cbn [String.eqb Ascii.eqb Bool.eqb].
  split; [|split; [|done]].
  - intros -> Hm. cbn [bind]. by destruct (BackGDALFileRaster.of_of_mode mode).
  - intros Hm. by destruct (BackGDALFileRaster.of_of_mode mode).
Qed.

End Register.

(** ** Wrapped arrays and the end of a DataSource *)

Section Wrapping.

Context `{Externals} `{Sources}.

(** X18: [wrap_numpy_raster] with a free key and a Footprint fails with a
    [ValueError] when the first two dimensions of the array are not the shape
    of the footprint, which includes every array of fewer than two
    dimensions, and with another [ValueError] when they are but the array has
    four dimensions or more; when it returns, the array has the shape of the
    footprint, with or without a third dimension. *)
Theorem wrap_numpy_raster_shape self key f array band_schema sr mode :
  _validate_key self key = Return tt ->
  let run := wrap_numpy_raster self key (PyFootprint f) array band_schema sr mode in
  let fits := take 2 (a_shape array) = [(shape f).1; (shape f).2] in
  ((length (a_shape array) < 2)%nat -> ~ fits) /\
  (~ fits -> run = Raise (ValueError "Incompatible shape between `array` and `fp`")) /\
  (fits -> (4 <= length (a_shape array))%nat ->
   run = Raise (ValueError "Array should have 2 or 3 dimensions")) /\
  (forall prox self', run = Return (prox, self') ->
   a_shape array = [(shape f).1; (shape f).2] \/
   exists band_count, a_shape array = [(shape f).1; (shape f).2; band_count]).
Proof.
  intros Hkey run fits. subst run fits.
  unfold wrap_numpy_raster, check_wrapping. rewrite Hkey. cbn [bind].
  split; [|split; [|split]].
  - intros Hl Hfit. apply (f_equal length) in Hfit. rewrite length_take in Hfit.
    cbn [length] in Hfit. lia.
  - intros Hn. by rewrite bool_decide_eq_false_2.
  - intros Hfit Hl. rewrite bool_decide_eq_true_2 by done. cbn [negb bind].
    rewrite bool_decide_eq_false_2; [done|].
    rewrite !elem_of_cons, elem_of_nil. lia.
  - intros prox self'.
    destruct (bool_decide (take 2 (a_shape array) = _)) eqn:Efit; cbn [negb bind]; [|done].
    apply bool_decide_eq_true in Efit.
    destruct (bool_decide (length (a_shape array) ∈ _)) eqn:Edim; cbn [negb bind]; [|done].
    apply bool_decide_eq_true in Edim. intros _.
    rewrite !elem_of_cons, elem_of_nil in Edim.
    destruct (a_shape array) as [|a [|b [|c [|d l]]]]; cbn in *; try lia.
    + left. done.
    + right. exists c. by injection Efit as -> ->.
Qed.

End Wrapping.

Section Lifecycle.

Context `{Externals}.

(** X19: On the object that [__init__] leaves when it raises, [__del__] fails
    with an [AttributeError], as [_ds_closed] was not assigned.  On a
    DataSource that was built, [__del__] returns and leaves it closed, the
    scheduler, the pools and the sources closing as modelled; on a closed
    DataSource it changes nothing, so that it can run again, where a second
    [close()] would fail. *)
Theorem del_closes self_id sr_work sr_fallback sr_forced at_ ang ai ma obs kwargs :
  let made := __init__ self_id sr_work sr_fallback sr_forced at_ ang ai ma obs kwargs in
  (forall e, made = Raise e ->
     exists msg, __del__ (constructed made) = Raise (AttributeError msg)) /\
  (forall self, made = Return self ->
     exists self', __del__ (constructed made) = Return self' /\ _ds_closed self' = true) /\
  (forall self : DataSource,
     exists self',
       __del__ (Built self) = Return self' /\ _ds_closed self' = true /\
       __del__ (Built self') = Return self' /\
       (_ds_closed self = true -> self' = self)).
Proof.
  intros made.
  assert (forall self : DataSource,
            exists self',
              __del__ (Built self) = Return self' /\ _ds_closed self' = true /\
              __del__ (Built self') = Return self' /\
              (_ds_closed self = true -> self' = self)) as Hbuilt.
  { intros self. unfold __del__. destruct (_ds_closed self) eqn:Ec; cbn [negb].
    - exists self. by rewrite Ec.
    - rewrite (call_close_open self Ec). eexists. split; [done|].
      destruct (foldl_proxy_close (_keys_of_proxy self).*1 (closing self)) as (Hc & _).
      rewrite Hc. cbn. done. }
  split; [|split; [|exact Hbuilt]].
  - intros e ->. cbn [constructed __del__]. by eexists.
  - intros self ->. cbn [constructed].
    destruct (Hbuilt self) as (self' & Hrun & Hc & _). by exists self'.
Qed.

Lemma filter_all {A} (P : A -> Prop) `{forall x, Decision (P x)} (l : list A) :
  (forall x, x ∈ l -> P x) -> filter P l = l.
Proof.
  induction l as [|a l IH]; intros Hl; [done|].
  rewrite filter_cons_True by (apply Hl; by left). f_equal. apply IH.
  intros x Hx. apply Hl. by right.
Qed.

Lemma filter_nothing {A} (P : A -> Prop) `{forall x, Decision (P x)} (l : list A) :
  (forall x, x ∈ l -> ~ P x) -> filter P l = [].
Proof.
  induction l as [|a l IH]; intros Hl; [done|].
  rewrite filter_cons_False by (apply Hl; by left). apply IH.
  intros x Hx. apply Hl. by right.
Qed.

Lemma deactivate_fold (l : list Proxy) :
  forall b,
  let b' := foldl (fun b prox => if is_active prox b then deactivate prox b else b) b l in
  active b' = filter (fun u => u ∉ uid <$> l) (active b) /\
  files b' = files b /\ journal b' = journal b /\ max_active b' = max_active b.
Proof.
  induction l as [|p l IH]; intros b; cbn [foldl].
  - cbn. split; [|done]. symmetry. apply filter_all. intros u _. apply not_elem_of_nil.
  - cbn zeta in IH.
    set (b1 := if is_active p b then deactivate p b else b).
    assert (active b1 = filter (fun u => u <> uid p) (active b) /\
            files b1 = files b /\ journal b1 = journal b /\ max_active b1 = max_active b)
      as (Ha & Hf & Hj & Hm).
    { unfold b1, is_active. destruct (bool_decide (uid p ∈ active b)) eqn:E; [done|].
      split; [|done]. apply bool_decide_eq_false in E. symmetry.
      apply filter_all. intros u Hu ->. done. }
    destruct (IH b1) as (Ha' & Hf' & Hj' & Hm').
    rewrite Ha', Hf', Hj', Hm', Ha. split; [|done].
    rewrite list_filter_filter. apply list_filter_iff. intros u. cbn.
    rewrite not_elem_of_cons. tauto.
Qed.

Lemma deactivate_loop_pooled (l : list Proxy) :
  forall b,
  forallb pooled l = true ->
  deactivate_loop l b
  = Return (foldl (fun b prox => if is_active prox b then deactivate prox b else b) b l).
Proof.
  induction l as [|p l IH]; intros b Hl; [done|].
  cbn [forallb] in Hl. apply andb_true_iff in Hl as [Hp Hl].
  cbn [deactivate_loop foldl]. unfold get_active. rewrite Hp. cbn [bind].
  by apply IH.
Qed.

Lemma deactivate_loop_other (l : list Proxy) :
  forall b,
  forallb pooled l = false ->
  exists msg, deactivate_loop l b = Raise (AttributeError msg).
Proof.
  induction l as [|p l IH]; intros b Hl; [done|].
  cbn [forallb] in Hl. cbn [deactivate_loop]. unfold get_active.
  destruct (pooled p); cbn [andb bind] in *; [by apply IH | by eexists].
Qed.

(** X20: When every registered source is pooled, [deactivate_all] returns,
    removes from the pool the driver objects of the registered sources and
    keeps the others, so that no registered source is active afterwards and
    [active_count] is 0 when the pool held registered sources only; the
    registry and the files are unchanged, and a second [deactivate_all]
    changes nothing.  When a registered source is not pooled, the call fails
    with an [AttributeError]: the loop reads [active] on every source. *)
Theorem deactivate_all_spec self :
  (forallb pooled (values self) = true ->
   exists self',
     deactivate_all self = Return self' /\
     active (_back self')
     = filter (fun u => u ∉ uid <$> values self) (active (_back self)) /\
     (forall prox, prox ∈ values self -> is_active prox (_back self') = false) /\
     ((forall u, u ∈ active (_back self) -> u ∈ uid <$> values self) ->
      active_count self' = 0%nat) /\
     _keys_of_proxy self' = _keys_of_proxy self /\
     _proxy_of_key self' = _proxy_of_key self /\
     files (_back self') = files (_back self) /\
     deactivate_all self' = Return self') /\
  (forallb pooled (values self) = false ->
   exists msg, deactivate_all self = Raise (AttributeError msg)).
Proof.
  unfold deactivate_all, values. split.
  - intros Hp. rewrite (deactivate_loop_pooled _ _ Hp). cbn [bind]. eexists.
    split; [reflexivity|].
    destruct (deactivate_fold (_keys_of_proxy self).*1 (_back self))
      as (Ha & Hf & Hj & Hm).
    cbn zeta in Ha. cbn [_back with_back _keys_of_proxy _proxy_of_key].
    set (b' := foldl _ _ _) in *.
    split; [done|]. split; [|split; [|split; [done|split; [done|split; [done|]]]]].
    + intros prox Hin. unfold is_active. apply bool_decide_eq_false. rewrite Ha.
      intros Hu. apply list_elem_of_filter in Hu as [Hn _]. apply Hn.
      by apply list_elem_of_fmap_2.
    + intros Hsub. unfold active_count. cbn. rewrite Ha.
      rewrite filter_nothing; [done|].
      intros u Hu Hn. apply Hn. by apply Hsub.
    + rewrite (deactivate_loop_pooled _ _ Hp). cbn [bind]. do 2 f_equal.
      assert (forall l b, (forall p, p ∈ l -> is_active p b = false) ->
                foldl (fun b prox => if is_active prox b then deactivate prox b else b) b l
                = b) as Hid.
      { induction l as [|p l IH]; intros b Hb; [done|]. cbn [foldl].
        rewrite (Hb p) by (by left). apply IH. intros q Hq. apply Hb. by right. }
      apply Hid. intros p Hp'. unfold is_active. apply bool_decide_eq_false. rewrite Ha.
      intros Hu. apply list_elem_of_filter in Hu as [Hn _]. apply Hn.
      by apply list_elem_of_fmap_2.
  - intros Hp.
    destruct (deactivate_loop_other _ (_back self) Hp) as [msg ->]. by exists msg.
Qed.

End Lifecycle.

(** ** Recipes and the pool *)

Section Recipes.

Context `{Externals}.

(** X21: When the other arguments of [create_cached_raster_recipe] pass
    their checks, a [max_resampling_size] of 1 or less fails with the
    [ValueError] whose message asks for more than 0, and a call that returns
    had [max_resampling_size] None or at least 2. *)
Theorem recipe_resampling_size self c f dt schema wkt backs kws conv pools tilings :
  check_classic self c = Return (f, dt, schema, wkt) ->
  check_callables c = Return tt ->
  check_primitives self c = Return (backs, kws, conv) ->
  check_pools self c = Return pools ->
  check_tilings f (cache_tiles c) (computation_tiles c) = Return tilings ->
  (forall n, max_resampling_size c = Some n -> n <= 1 ->
     create_cached_raster_recipe self c
     = Raise (ValueError "`max_resampling_size` should be >0")) /\
  (forall prox self', create_cached_raster_recipe self c = Return (prox, self') ->
     match max_resampling_size c with Some n => 2 <= n | None => True end).
Proof.
  intros H1 H2 H3 H4 H5. unfold create_cached_raster_recipe.
  rewrite H1. cbn [bind]. rewrite H2. cbn [bind]. rewrite H3. cbn [bind].
  rewrite H4. destruct pools as [[[cp mp] ip] rp]. cbn [bind].
  rewrite H5. destruct tilings as [ct cpt]. cbn [bind]. unfold check_misc.
  split.
  - intros n -> Hn. destruct (Z.leb_spec n 1); [done | lia].
  - intros prox self'. destruct (max_resampling_size c) as [n|]; [|done].
    destruct (Z.leb_spec n 1); [done | lia].
Qed.

End Recipes.

Section Pool.

Lemma pool_insert_inv (U : list nat) cap u pool :
  NoDup pool -> (forall v, v ∈ pool -> v ∈ U) -> u ∈ U ->
  NoDup (pool_insert cap u pool) /\
  (forall v, v ∈ pool_insert cap u pool -> v ∈ U).
Proof.
  intros Hnd Hsub Hu. unfold pool_insert.
  destruct (bool_decide (u ∈ pool)) eqn:Ein.
  - split.
    + apply NoDup_app. split; [by apply NoDup_filter|]. split; [|apply NoDup_singleton].
      intros v Hv Hv'. apply list_elem_of_singleton in Hv'. subst.
      by apply list_elem_of_filter in Hv as [Hne _].
    + intros v Hv. apply elem_of_app in Hv as [Hv|Hv].
      * apply list_elem_of_filter in Hv as [_ Hv]. by apply Hsub.
      * apply list_elem_of_singleton in Hv. by subst.
  - apply bool_decide_eq_false in Ein.
    assert (forall v, v ∈ tail pool -> v ∈ pool) as Htl.
    { intros v Hv. destruct pool; [done|]. by right. }
    destruct (eq_number _ cap).
    + split.
      * apply NoDup_app. split; [destruct pool; [done|]; by apply NoDup_cons in Hnd as [_ ?]|].
        split; [|apply NoDup_singleton].
        intros v Hv Hv'. apply list_elem_of_singleton in Hv'. subst. by apply Ein, Htl.
      * intros v Hv. apply elem_of_app in Hv as [Hv|Hv]; [by apply Hsub, Htl|].
        apply list_elem_of_singleton in Hv. by subst.
    + split.
      * apply NoDup_app. split; [done|]. split; [|apply NoDup_singleton].
        intros v Hv Hv'. apply list_elem_of_singleton in Hv'. by subst.
      * intros v Hv. apply elem_of_app in Hv as [Hv|Hv]; [by apply Hsub|].
        apply list_elem_of_singleton in Hv. by subst.
Qed.

Lemma cycle_loop_inv (U : list nat) total :
  forall fuel ring i b b',
  cycle_loop fuel total ring i b = Some (Return b') ->
  NoDup (active b) -> (forall v, v ∈ active b -> v ∈ U) ->
  (forall p, p ∈ ring -> uid p ∈ U) ->
  NoDup (active b') /\ (forall v, v ∈ active b' -> v ∈ U).
Proof.
  induction fuel as [|fuel IH]; intros ring i b b' Hrun Hnd Hsub Hring; [done|].
  cbn [cycle_loop] in Hrun. destruct ring as [|p rest]; [by injection Hrun as <-|].
  destruct (i =? total)%nat; [by injection Hrun as <-|].
  assert (forall q, q ∈ rest ++ [p] -> uid q ∈ U) as Hring'.
  { intros q Hq. apply Hring. apply elem_of_app in Hq as [Hq|Hq]; [by right|].
    apply list_elem_of_singleton in Hq. subst. by left. }
  destruct (is_active p b); cbn [negb] in Hrun.
  - by apply (IH _ _ _ _ Hrun).
  - unfold activate in Hrun. destruct (alloc p (files b)); [done|].
    destruct (pool_insert_inv U (max_active b) (uid p) (active b) Hnd Hsub) as [Hnd' Hsub'].
    { apply Hring. by left. }
    by apply (IH _ _ _ _ Hrun).
Qed.

Lemma cycle_loop_mono total :
  forall fuel fuel' ring i b r,
  cycle_loop fuel total ring i b = Some r -> (fuel <= fuel')%nat ->
  cycle_loop fuel' total ring i b = Some r.
Proof.
  induction fuel as [|fuel IH]; intros fuel' ring i b r Hrun Hle; [done|].
  destruct fuel' as [|fuel']; [lia|]. cbn [cycle_loop] in *.
  destruct ring as [|p rest]; [done|].
  destruct (i =? total)%nat; [done|].
  destruct (negb (is_active p b)).
  - destruct (activate p b); [|done]. apply (IH fuel'); [done | lia].
  - apply (IH fuel'); [done | lia].
Qed.

Lemma cycle_loop_settled total b :
  forall fuel ring i,
  Forall (fun p => is_active p b = true) ring ->
  (i <= total)%nat -> (total - i < fuel)%nat ->
  cycle_loop fuel total ring i b = Some (Return b).
Proof.
  induction fuel as [|fuel IH]; intros ring i Hact Hi Hfuel; [lia|].
  cbn [cycle_loop]. destruct ring as [|p rest]; [done|].
  destruct (Nat.eqb_spec i total); [done|].
  apply Forall_cons in Hact as [Hp Hrest]. rewrite Hp. cbn [negb].
  apply IH; [|lia|lia]. apply Forall_app. split; [done|]. by constructor.
Qed.

Lemma activate_all_run fuel self self' :
  pool_consistent self = true ->
  activate_all fuel self = Some (Return self') ->
  let proxs := pooled_proxies self in
  lt_number (max_active (_back self)) (Finite (Z.of_nat (length proxs))) = false /\
  self' = with_back self (_back self') /\
  max_active (_back self') = max_active (_back self) /\
  all_active proxs (_back self') = true /\
  NoDup (active (_back self')) /\
  (forall v, v ∈ active (_back self') -> v ∈ uid <$> proxs).
Proof.
  intros Hinv Hrun proxs. unfold activate_all in Hrun. fold proxs in Hrun.
  destruct (lt_number _ _) eqn:Hcap; [done|].
  unfold pool_consistent in Hinv. fold proxs in Hinv.
  rewrite !andb_true_iff, !bool_decide_eq_true, forallb_forall in Hinv.
  destruct Hinv as [[Hnd Hpool] Hsub].
  assert (forall v, v ∈ active (_back self) -> v ∈ uid <$> proxs) as Hsub'.
  { intros v Hv. apply list_elem_of_In in Hv. apply Hsub in Hv.
    by apply bool_decide_eq_true in Hv. }
  destruct (cycle_loop fuel (length proxs) proxs 0 (_back self)) as [[b'|e]|] eqn:Erun;
    [|done|done].
  injection Hrun as <-. cbn [_back with_back].
  split; [done|]. split; [done|].
  set (big := (fuel + (length proxs + 1) * (length proxs + 1) + 1)%nat).
  destruct (cycle_loop_spec proxs (max_active (_back self)) (files (_back self)) Hnd Hcap
              big proxs 0%nat (_back self)) as (r & Hbig & Hpost); try done.
  { lia. }
  { rewrite Nat.sub_0_r, drop_all. constructor. }
  { unfold big. nia. }
  rewrite (cycle_loop_mono _ fuel big _ _ _ _ Erun) in Hbig by (unfold big; lia).
  injection Hbig as <-. destruct Hpost as (Hall & _ & Hmax & _).
  split; [done|]. split; [done|].
  apply (cycle_loop_inv _ _ _ _ _ _ _ Erun); [done | done |].
  intros p Hp. by apply list_elem_of_fmap_2.
Qed.

(** X22: When the pooled sources have distinct identifiers and the pool holds
    driver objects of pooled sources only, one each at most, an
    [activate_all] that returns leaves [active_count] equal to the number of
    pooled sources, within [max_active], and the pool in that same
    state. *)
Theorem activate_all_count fuel self self' :
  pool_consistent self = true ->
  activate_all fuel self = Some (Return self') ->
  active_count self' = length (pooled_proxies self) /\
  lt_number (max_active (_back self')) (Finite (Z.of_nat (active_count self'))) = false /\
  pool_consistent self' = true.
Proof.
  intros Hinv Hrun.
  destruct (activate_all_run fuel self self' Hinv Hrun)
    as (Hcap & Hself & Hmax & Hall & Hnd & Hsub).
  pose proof Hinv as Hinv'. unfold pool_consistent in Hinv'.
  rewrite !andb_true_iff, !bool_decide_eq_true in Hinv'. destruct Hinv' as [[Hndu _] _].
  assert (active (_back self') ≡ₚ uid <$> pooled_proxies self) as Hperm.
  { apply NoDup_Permutation; [done | done |]. intros v. split; [apply Hsub|].
    intros Hv. apply list_elem_of_fmap in Hv as (p & -> & Hp).
    unfold all_active in Hall. rewrite forallb_forall in Hall.
    apply list_elem_of_In in Hp. specialize (Hall p Hp).
    by apply bool_decide_eq_true in Hall. }
  assert (active_count self' = length (pooled_proxies self)) as Hcount.
  { unfold active_count. by rewrite Hperm, length_fmap. }
  split; [done|]. split; [by rewrite Hcount, Hmax|].
  assert (pooled_proxies self' = pooled_proxies self) as Hpp by (by rewrite Hself).
  unfold pool_consistent. rewrite Hpp.
  rewrite !andb_true_iff, !bool_decide_eq_true, forallb_forall.
  split; [done|]. intros v Hv. apply bool_decide_eq_true. apply Hsub.
  by apply list_elem_of_In.
Qed.

(** X23: Under the same conditions, an [activate_all] after one that returned
    returns the same DataSource: it activates nothing and stops after one
    round over the pooled sources. *)
Theorem activate_all_idempotent fuel fuel' self self' :
  pool_consistent self = true ->
  activate_all fuel self = Some (Return self') ->
  (length (pooled_proxies self) < fuel')%nat ->
  activate_all fuel' self' = Some (Return self').
Proof.
  intros Hinv Hrun Hfuel.
  destruct (activate_all_run fuel self self' Hinv Hrun)
    as (Hcap & Hself & Hmax & Hall & Hnd & Hsub).
  assert (pooled_proxies self' = pooled_proxies self) as Hpp by (by rewrite Hself).
  unfold activate_all. rewrite Hpp, Hmax, Hcap.
  rewrite (cycle_loop_settled _ (_back self')); [| |lia|lia].
  - f_equal. f_equal. rewrite Hself at 2. by destruct self'.
  - apply RasterProofs.forallb_Forall_true. exact Hall.
Qed.

End Pool.

(** ** Construction *)

Section Construction.

Context `{Externals}.

(** X27: Whenever [__init__] returns, the references of the DataSource form a
    legal combination, [max_active] is 1 at least, and the DataSource is
    open, holds no source, no active driver object and no file, carries the
    identifier it was given, and its pool and its registry are
    consistent. *)
Theorem init_invariant self_id sr_work sr_fallback sr_forced at_ ang ai ma0 obs kwargs ds :
  __init__ self_id sr_work sr_fallback sr_forced at_ ang ai ma0 obs kwargs = Return ds ->
  let b := _back ds in
  legal_sr_mode (bool_decide (is_Some (wkt_work b)), bool_decide (is_Some (wkt_fallback b)),
                 bool_decide (is_Some (wkt_forced b))) = true /\
  lt_number (max_active b) (Finite 1) = false /\
  _ds_closed ds = false /\ __len__ ds = 0%nat /\ active_count ds = 0%nat /\
  files b = ∅ /\ ds_id b = self_id /\
  pool_consistent ds = true /\ registry_consistent ds = true.
Proof.
  unfold __init__.
  destruct (streamline_with_kwargs "sr_fallback" _ _ _ _ _) as [[fb kw1]|e]; cbn [bind]; [|done].
  destruct (streamline_with_kwargs "sr_forced" _ _ _ _ _) as [[fo kw2]|e]; cbn [bind]; [|done].
  destruct (streamline_with_kwargs "max_active" _ _ _ _ _) as [[mav kw3]|e]; cbn [bind]; [|done].
  destruct kw3; cbn [bind]; [|done].
  destruct (is_None sr_work), (is_None fb), (is_None fo); cbn [negb bind]; try done.
  all: repeat match goal with
       | |- context [GetUserInputAsWKT ?v] =>
           destruct (GetUserInputAsWKT v); cbn [bind]; [|done]
       end.
  all: destruct (as_number mav) as [ma|e]; cbn [bind]; [|done].
  all: destruct (lt_number ma (Finite 1)) eqn:Hm; cbn [bind]; [done|].
  all: intros [= <-]; cbn; repeat split; try done.
  all: vm_compute; done.
Qed.

Lemma shatter_all_spec self items backs kws :
  shatter_all self items = Return (backs, kws) ->
  backs.*1 = items.*1 /\ kws.*1 = items.*1 /\
  Forall (fun e : string * nat => e.2 = ds_id (_back self)) backs.
Proof.
  revert backs kws. induction items as [|[name met] items IH]; intros backs kws.
  - intros [= <- <-]. done.
  - cbn [shatter_all].
    destruct (shatter_queue_data_method met name) as [[owner kw]|e]; cbn [bind]; [|done].
    destruct (Nat.eqb_spec owner (ds_id (_back self))); cbn [negb]; [|done].
    destruct (shatter_all self items) as [[backs0 kws0]|e']; cbn [bind]; [|done].
    intros [= <- <-]. destruct (IH backs0 kws0 eq_refl) as (H1 & H2 & H3).
    cbn. rewrite H1, H2. repeat split. by constructor.
Qed.

(** X28: Whenever [create_cached_raster_recipe] returns, the recipe was built
    with a positive band count, callable [compute_array] and [merge_arrays],
    primitives named as in [queue_data_per_primitive] that all belong to this
    DataSource, one callable footprint conversion per primitive name, and the
    cache tiling as computation tiling when none was given. *)
Theorem recipe_args_validated self c prox self' :
  create_cached_raster_recipe self c = Return (prox, self') ->
  exists args,
    CachedRasterRecipe self args = Return prox /\
    0 < r_band_count args /\
    callable (r_compute_array args) = true /\
    callable (r_merge_arrays args) = true /\
    (r_primitives_back args).*1 = (queue_data_per_primitive c).*1 /\
    (r_primitives_kwargs args).*1 = (queue_data_per_primitive c).*1 /\
    Forall (fun e : string * nat => e.2 = ds_id (_back self)) (r_primitives_back args) /\
    Forall (fun e : string * pyval => callable e.2 = true)
           (r_convert_footprint_per_primitive args) /\
    (list_to_set (r_convert_footprint_per_primitive args).*1 : gset string)
    = list_to_set (queue_data_per_primitive c).*1 /\
    (computation_tiles c = PyNone -> r_computation_tiles args = r_cache_tiles args).
Proof.
  unfold create_cached_raster_recipe.
  destruct (check_classic self c) as [[[[f dt] schema] wkt]|e] eqn:E1; cbn [bind]; [|done].
  destruct (check_callables c) as [[]|e] eqn:E2; cbn [bind]; [|done].
  destruct (check_primitives self c) as [[[backs kws] conv]|e] eqn:E3; cbn [bind]; [|done].
  destruct (check_pools self c) as [[[[cp mp] ip] rp]|e]; cbn [bind]; [|done].
  destruct (check_tilings _ _ _) as [[ct cpt]|e] eqn:E5; cbn [bind]; [|done].
  destruct (check_misc c) as [dir|e]; cbn [bind]; [|done].
  match goal with |- context [CachedRasterRecipe self ?a] => set (args := a) end.
  destruct (CachedRasterRecipe self args) as [p|e] eqn:Ep; cbn [bind]; [|done].
  destruct (_register self [key c] p) as [s|e]; cbn [bind]; [|done].
  intros [= <- <-]. exists args. split; [done|]. cbn [args r_band_count r_compute_array
    r_merge_arrays r_primitives_back r_primitives_kwargs r_convert_footprint_per_primitive
    r_computation_tiles r_cache_tiles].
  (* classic *)
  assert (0 < band_count c) as Hbc.
  { unfold check_classic in E1.
    destruct (_validate_key self (key c)); cbn [bind] in E1; [|done].
    destruct (fp c); cbn [bind] in E1; try done.
    destruct (np_dtype (dtype c)); cbn [bind] in E1; [|done].
    destruct (Z.leb_spec (band_count c) 0); [done | lia]. }
  (* callables *)
  assert (callable (compute_array c) = true /\ callable (merge_arrays c) = true)
    as [Hca Hma].
  { unfold check_callables in E2. destruct (is_None (compute_array c)); [done|].
    destruct (callable (compute_array c)); [|done].
    by destruct (callable (merge_arrays c)). }
  (* primitives *)
  unfold check_primitives in E3.
  set (conv0 := match convert_footprint_per_primitive c with
                | Some d => d | None => _ end) in E3.
  destruct (bool_decide _) eqn:Ekeys in E3; cbn [negb] in E3; [|done].
  apply bool_decide_eq_true in Ekeys.
  destruct (shatter_all self (queue_data_per_primitive c)) as [[backs0 kws0]|e] eqn:Esh;
    cbn [bind] in E3; [|done].
  destruct (forallb _ conv0) eqn:Ecall; cbn [negb] in E3; [|done].
  injection E3 as <- <- <-.
  destruct (shatter_all_spec _ _ _ _ Esh) as (Hb1 & Hb2 & Hb3).
  repeat (split; [done|]). split.
  { apply RasterProofs.forallb_Forall_true in Ecall. exact Ecall. }
  split; [done|].
  intros Hnone. unfold check_tilings in E5.
  destruct (cache_tiling f (cache_tiles c)) as [ct0|e]; cbn [bind] in E5; [|done].
  rewrite Hnone in E5. cbn in E5. by injection E5 as <- <-.
Qed.

End Construction.

End RegistryLaws.

(** * Laws of the band schema *)

Module BandSchemaLaws.

Import BandSchema.

Section Setters.

Variable shared_bit : Z.

Lemma on_band_ok ds i attr f :
  (1 <= i <= RasterCount ds)%nat ->
  on_band ds i attr f
  = Return (mkMeta (alter f (i - 1)%nat (meta_bands ds)) (nodata_calls ds)
                   (mask_calls ds)).
Proof.
  intros Hi. unfold on_band.
  destruct (Nat.leb_spec 1 i), (Nat.leb_spec i (RasterCount ds)); cbn; (done || lia).
Qed.

(** Writing [vals] to the bands from band [S k] on. *)
Lemma set_each_spec attr (setter : Z -> band_meta -> band_meta) vals :
  forall k ds,
  (k + length vals <= RasterCount ds)%nat ->
  exists ds',
    set_each attr setter (S k) vals ds = Return ds' /\
    mask_calls ds' = mask_calls ds /\ nodata_calls ds' = nodata_calls ds /\
    length (meta_bands ds') = length (meta_bands ds) /\
    forall j, meta_bands ds' !! j
      = match vals !! (j - k)%nat with
        | Some v => if decide (k <= j)%nat then setter v <$> meta_bands ds !! j
                    else meta_bands ds !! j
        | None => meta_bands ds !! j
        end.
Proof.
  induction vals as [|v vals IH]; intros k ds Hlen.
  - exists ds. repeat split; try done.
  - cbn [length] in Hlen. cbn [set_each].
    rewrite on_band_ok by lia. cbn [bind].
    replace (S k - 1)%nat with k by lia.
    set (ds1 := mkMeta _ _ _).
    destruct (IH (S k) ds1) as (ds' & Hrun & Hm & Hn & Hl & Hget).
    { unfold RasterCount, ds1. cbn. rewrite length_alter. unfold RasterCount in Hlen. lia. }
    exists ds'. split; [done|]. split; [done|]. split; [done|].
    split; [rewrite Hl; unfold ds1; cbn; by rewrite length_alter|].
    intros j. rewrite Hget. unfold ds1. cbn [meta_bands].
    destruct (decide (k <= j)%nat) as [Hkj|Hkj].
    + destruct (decide (j = k)) as [->|Hne].
      * replace (k - S k)%nat with 0%nat by lia. replace (k - k)%nat with 0%nat by lia.
        cbn [lookup list_lookup].
        destruct (vals !! 0%nat); [rewrite decide_False by lia|];
          by rewrite list_lookup_alter_eq.
      * replace (j - k)%nat with (S (j - S k)) by lia. cbn [lookup list_lookup].
        destruct (vals !! (j - S k)%nat);
          [rewrite decide_True by lia|]; by rewrite list_lookup_alter_ne by lia.
    + replace (j - S k)%nat with 0%nat by lia. replace (j - k)%nat with 0%nat by lia.
      cbn [lookup list_lookup].
      destruct (vals !! 0%nat); [rewrite decide_False by lia|];
        by rewrite list_lookup_alter_ne by lia.
Qed.

Lemma set_nodata_spec vals :
  forall k ds,
  (k + length vals <= RasterCount ds)%nat ->
  exists ds',
    set_nodata (S k) vals ds = Return ds' /\
    meta_bands ds' = meta_bands ds /\ mask_calls ds' = mask_calls ds /\
    nodata_calls ds' = nodata_calls ds ++ nodata_set k vals.
Proof.
  induction vals as [|[v|] vals IH]; intros k ds Hlen.
  - exists ds. cbn. by rewrite app_nil_r.
  - cbn [length] in Hlen. cbn [set_nodata nodata_set]. unfold SetNoDataValue.
    destruct (Nat.leb_spec 1 (S k)), (Nat.leb_spec (S k) (RasterCount ds)); try lia.
    cbn [andb bind].
    destruct (IH (S k) (mkMeta (meta_bands ds) (nodata_calls ds ++ [(S k, v)])
                               (mask_calls ds)))
      as (ds' & Hrun & Hb & Hm & Hn); [unfold RasterCount in *; cbn; lia|].
    exists ds'. split; [done|]. split; [done|]. split; [done|]. rewrite Hn. cbn.
    by rewrite <- app_assoc.
  - cbn [length] in Hlen. cbn [set_nodata nodata_set]. apply IH. lia.
Qed.

Lemma nodata_set_spec vals :
  forall k i v,
  (i, v) ∈ nodata_set k vals
  <-> (k < i)%nat /\ vals !! (i - S k)%nat = Some (Some v).
Proof.
  induction vals as [|v0 vals IH]; intros k i v; cbn [nodata_set].
  - rewrite elem_of_nil. split; [done|]. by intros (_ & ?).
  - assert ((k < i)%nat /\ (v0 :: vals) !! (i - S k)%nat = Some (Some v)
            <-> (i = S k /\ v0 = Some v)
                \/ ((S k < i)%nat /\ vals !! (i - S (S k))%nat = Some (Some v))) as ->.
    { destruct (decide (i = S k)) as [->|Hne].
      - rewrite Nat.sub_diag. cbn. split.
        + intros (_ & [= ->]). by left.
        + intros [(_ & ->)|(Hlt & _)]; [split; [lia|done] | lia].
      - split.
        + intros (Hlt & Hl). right. split; [lia|].
          replace (i - S k)%nat with (S (i - S (S k))) in Hl by lia. done.
        + intros [(-> & _)|(Hlt & Hl)]; [done|]. split; [lia|].
          replace (i - S k)%nat with (S (i - S (S k))) by lia. done. }
    destruct v0 as [v0|].
    + rewrite elem_of_cons, IH. split.
      * intros [[= -> ->]|Hr]; [by left | by right].
      * intros [(-> & [= ->])|Hr]; [by left | by right].
    + rewrite IH. split; [by right|]. intros [(_ & [=])|Hr]; done.
Qed.

Lemma shared_mask_nodata vals ds :
  nodata_calls (shared_mask shared_bit vals ds) = nodata_calls ds.
Proof.
  induction vals as [|v vals IH]; [done|]. cbn [shared_mask].
  by destruct (negb (Z.land v shared_bit =? 0)).
Qed.

Lemma shared_mask_bands vals ds :
  meta_bands (shared_mask shared_bit vals ds) = meta_bands ds.
Proof.
  induction vals as [|v vals IH]; [done|]. cbn [shared_mask].
  by destruct (negb (Z.land v shared_bit =? 0)).
Qed.

Lemma band_masks_bands vals :
  forall k ds,
  (k + length vals <= RasterCount ds)%nat ->
  exists ds', band_masks shared_bit (S k) vals ds = Return ds' /\
              meta_bands ds' = meta_bands ds /\ nodata_calls ds' = nodata_calls ds.
Proof.
  induction vals as [|v vals IH]; intros k ds Hlen; [by exists ds|].
  cbn [length] in Hlen. cbn [band_masks].
  destruct (Z.land v shared_bit =? 0).
  - unfold band_CreateMaskBand.
    destruct (Nat.leb_spec 1 (S k)), (Nat.leb_spec (S k) (RasterCount ds)); try lia.
    cbn [andb bind].
    destruct (IH (S k) (mkMeta (meta_bands ds) (nodata_calls ds)
                               (mask_calls ds ++ [(Some (S k), v)])))
      as (ds' & Hrun & Hb & Hn); [unfold RasterCount in *; cbn; lia|].
    by exists ds'.
  - apply IH. lia.
Qed.

Lemma shared_mask_calls vals ds :
  mask_calls (shared_mask shared_bit vals ds)
  = mask_calls ds ++ dataset_mask shared_bit vals.
Proof.
  unfold dataset_mask.
  induction vals as [|v vals IH]; cbn [shared_mask List.filter].
  - by rewrite app_nil_r.
  - destruct (negb (Z.land v shared_bit =? 0)); [done | exact IH].
Qed.

Lemma band_masks_calls vals :
  forall k ds,
  (k + length vals <= RasterCount ds)%nat ->
  exists ds', band_masks shared_bit (S k) vals ds = Return ds' /\
              meta_bands ds' = meta_bands ds /\
              mask_calls ds' = mask_calls ds ++ own_masks shared_bit k vals.
Proof.
  induction vals as [|v vals IH]; intros k ds Hlen.
  - exists ds. cbn. by rewrite app_nil_r.
  - cbn [length] in Hlen. cbn [band_masks own_masks].
    destruct (Z.land v shared_bit =? 0).
    + unfold band_CreateMaskBand.
      destruct (Nat.leb_spec 1 (S k)), (Nat.leb_spec (S k) (RasterCount ds)); try lia.
      cbn [andb bind].
      destruct (IH (S k) (mkMeta (meta_bands ds) (nodata_calls ds)
                                 (mask_calls ds ++ [(Some (S k), v)])))
        as (ds' & Hrun & Hb & Hc); [unfold RasterCount in *; cbn; lia|].
      exists ds'. split; [done|]. split; [done|]. rewrite Hc. cbn.
      by rewrite <- app_assoc.
    + apply IH. lia.
Qed.

Variable str_of_gci : Z -> string.
Variable str_of_gmf : Z -> string.
Variable GetNoDataValue : meta_dataset -> nat -> option Z.
Variable GetMaskFlags : meta_dataset -> nat -> Z.

(** X24: On a file with as many bands as the lists of the schema have
    entries, [_apply_band_schema] returns; it calls [SetNoDataValue] on
    exactly the bands whose nodata entry is not None, in the order of the
    bands and with that entry, and [_band_schema_of_gdal_ds] then reads the
    interpretations (as their names), the offsets and the scales that the
    schema gave.  What nodata reads is left to the driver. *)
Theorem band_schema_round_trip ds nd interp off sc m :
  length nd = RasterCount ds -> length interp = RasterCount ds ->
  length off = RasterCount ds -> length sc = RasterCount ds ->
  from_option (fun vals : list Z => length vals <= RasterCount ds)%nat True m ->
  exists ds',
    _apply_band_schema shared_bit ds
      (mkSchema (Some nd) (Some interp) (Some off) (Some sc) m) = Return ds' /\
    nodata_calls ds' = nodata_calls ds ++ nodata_set 0 nd /\
    (forall i v, (i, v) ∈ nodata_set 0 nd
                 <-> (1 <= i)%nat /\ nd !! (i - 1)%nat = Some (Some v)) /\
    let read :=
      _band_schema_of_gdal_ds str_of_gci str_of_gmf GetNoDataValue GetMaskFlags ds' in
    stored_interpretation read = str_of_gci <$> interp /\
    stored_offset read = off /\ stored_scale read = sc.
Proof.
  intros Hnd Hin Hof Hsc Hm. unfold _apply_band_schema. cbn [nodata interpretation offset
    scale mask when_present].
  destruct (set_nodata_spec nd 0 ds) as (d1 & -> & B1 & _ & N1); [lia|]. cbn [bind].
  destruct (set_each_spec "'NoneType' object has no attribute 'SetColorInterpretation'"
              SetColorInterpretation interp 0 d1) as (d2 & -> & _ & N2 & L2 & G2);
    [unfold RasterCount in *; rewrite B1; lia|]. cbn [bind].
  destruct (set_each_spec "'NoneType' object has no attribute 'SetOffset'"
              SetOffset off 0 d2) as (d3 & -> & _ & N3 & L3 & G3);
    [unfold RasterCount in *; rewrite L2, B1; lia|]. cbn [bind].
  destruct (set_each_spec "'NoneType' object has no attribute 'SetScale'"
              SetScale sc 0 d3) as (d4 & -> & _ & N4 & L4 & G4);
    [unfold RasterCount in *; rewrite L3, L2, B1; lia|]. cbn [bind].
  assert (exists ds', when_present m
            (fun vals gdal_ds => band_masks shared_bit 1 vals (shared_mask shared_bit vals gdal_ds))
            d4 = Return ds' /\ meta_bands ds' = meta_bands d4
            /\ nodata_calls ds' = nodata_calls d4) as (ds' & -> & Hb & Hn).
  { destruct m as [vals|]; cbn [when_present from_option] in *; [|by exists d4].
    destruct (band_masks_bands vals 0 (shared_mask shared_bit vals d4))
      as (ds' & Hrun & Hb & Hn).
    { unfold RasterCount in *. rewrite shared_mask_bands, L4, L3, L2, B1. lia. }
    exists ds'. split; [done|]. by rewrite Hb, Hn, shared_mask_bands, shared_mask_nodata. }
  exists ds'. split; [done|]. split; [by rewrite Hn, N4, N3, N2, N1|].
  split.
  { intros i v. rewrite nodata_set_spec. split.
    - intros (Hi & Hl). split; [lia | done].
    - intros (Hi & Hl). split; [lia | done]. }
  unfold _band_schema_of_gdal_ds. cbn zeta.
  cbn [stored_interpretation stored_offset stored_scale]. rewrite Hb.
  unfold RasterCount in *.
  assert (forall j, meta_bands d4 !! j
            = (b ← meta_bands ds !! j; i ← interp !! j; o ← off !! j; s ← sc !! j;
               Some (mkBandMeta i (Some o) (Some s)))) as Hget.
  { intros j. rewrite G4, G3, G2, B1, !Nat.sub_0_r.
    destruct (meta_bands ds !! j) as [b|] eqn:Eb.
    - pose proof (lookup_lt_Some _ _ _ Eb) as Hj.
      destruct (lookup_lt_is_Some_2 interp j) as [i ->]; [lia|].
      destruct (lookup_lt_is_Some_2 off j) as [o ->]; [lia|].
      destruct (lookup_lt_is_Some_2 sc j) as [s ->]; [lia|].
      rewrite !decide_True by lia. by destruct b.
    - pose proof (lookup_ge_None_1 _ _ Eb) as Hj.
      rewrite !(lookup_ge_None_2 _ j) by lia. done. }
  split; [|split]; apply list_eq; intros j;
    rewrite list_lookup_fmap, Hget, ?list_lookup_fmap.
  - destruct (meta_bands ds !! j) as [b|] eqn:Eb; cbn.
    + pose proof (lookup_lt_Some _ _ _ Eb) as Hj.
      destruct (lookup_lt_is_Some_2 interp j) as [i ->]; [lia|].
      destruct (lookup_lt_is_Some_2 off j) as [o ->]; [lia|].
      destruct (lookup_lt_is_Some_2 sc j) as [s ->]; [lia|]. done.
    + pose proof (lookup_ge_None_1 _ _ Eb) as Hj.
      rewrite (lookup_ge_None_2 interp j) by lia. done.
  - destruct (meta_bands ds !! j) as [b|] eqn:Eb; cbn.
    + pose proof (lookup_lt_Some _ _ _ Eb) as Hj.
      destruct (lookup_lt_is_Some_2 interp j) as [i ->]; [lia|].
      destruct (lookup_lt_is_Some_2 off j) as [o Ho]; [lia|].
      destruct (lookup_lt_is_Some_2 sc j) as [s ->]; [lia|]. by rewrite Ho.
    + pose proof (lookup_ge_None_1 _ _ Eb) as Hj.
      rewrite (lookup_ge_None_2 off j) by lia. done.
  - destruct (meta_bands ds !! j) as [b|] eqn:Eb; cbn.
    + pose proof (lookup_lt_Some _ _ _ Eb) as Hj.
      destruct (lookup_lt_is_Some_2 interp j) as [i ->]; [lia|].
      destruct (lookup_lt_is_Some_2 off j) as [o ->]; [lia|].
      destruct (lookup_lt_is_Some_2 sc j) as [s Hs]; [lia|]. by rewrite Hs.
    + pose proof (lookup_ge_None_1 _ _ Eb) as Hj.
      rewrite (lookup_ge_None_2 sc j) by lia. done.
Qed.

(** X25: For a schema with masks only, [_apply_band_schema] leaves the
    metadata of the bands as they were, creates one mask on the dataset at
    most, and after it one mask on band [i] for exactly the bands whose mask
    value lacks the shared bit, with that value. *)
Theorem band_schema_masks ds vals :
  (length vals <= RasterCount ds)%nat ->
  exists ds',
    _apply_band_schema shared_bit ds (mkSchema None None None None (Some vals))
    = Return ds' /\
    meta_bands ds' = meta_bands ds /\
    mask_calls ds'
    = mask_calls ds ++ dataset_mask shared_bit vals ++ own_masks shared_bit 0 vals /\
    (length (dataset_mask shared_bit vals) <= 1)%nat /\
    (forall i v, (Some i, v) ∈ own_masks shared_bit 0 vals <->
                 (1 <= i)%nat /\ vals !! (i - 1)%nat = Some v /\ Z.land v shared_bit = 0).
Proof.
  intros Hlen. unfold _apply_band_schema. cbn [nodata interpretation offset scale mask
    when_present bind].
  destruct (band_masks_calls vals 0 (shared_mask shared_bit vals ds))
    as (ds' & Hrun & Hb & Hc).
  { unfold RasterCount in *. rewrite shared_mask_bands. lia. }
  exists ds'. split; [done|]. split; [by rewrite Hb, shared_mask_bands|].
  split; [by rewrite Hc, shared_mask_calls, app_assoc|]. split.
  - unfold dataset_mask. destruct (List.filter _ vals); cbn; lia.
  - assert (forall k i v, (Some i, v) ∈ own_masks shared_bit k vals <->
              (k < i)%nat /\ vals !! (i - S k)%nat = Some v /\ Z.land v shared_bit = 0)
      as Hown.
    { clear. induction vals as [|v0 vals IH]; intros k i v; cbn [own_masks].
      - rewrite elem_of_nil. split; [done|]. by intros (_ & ? & _).
      - assert ((k < i)%nat /\ (v0 :: vals) !! (i - S k)%nat = Some v /\ Z.land v shared_bit = 0
                <-> (i = S k /\ v0 = v /\ Z.land v shared_bit = 0)
                    \/ ((S k < i)%nat /\ vals !! (i - S (S k))%nat = Some v
                        /\ Z.land v shared_bit = 0)) as ->.
        { destruct (decide (i = S k)) as [->|Hne].
          - rewrite Nat.sub_diag. cbn. split.
            + intros (_ & [= ->] & Hz). by left.
            + intros [(_ & -> & Hz)|(Hlt & _)]; [split; [lia|done] | lia].
          - split.
            + intros (Hlt & Hl & Hz). right. split; [lia|].
              replace (i - S k)%nat with (S (i - S (S k))) in Hl by lia. done.
            + intros [(-> & _)|(Hlt & Hl & Hz)]; [done|]. split; [lia|].
              replace (i - S k)%nat with (S (i - S (S k))) by lia. done. }
        destruct (Z.eqb_spec (Z.land v0 shared_bit) 0) as [Hz|Hnz].
        + rewrite elem_of_cons, IH. split.
          * intros [[= -> ->]|Hr]; [by left | by right].
          * intros [(-> & -> & _)|Hr]; [by left | by right].
        + rewrite IH. split; [by right|].
          intros [(_ & -> & Hz)|Hr]; [done | done]. }
    intros i v. rewrite Hown. split.
    + intros (Hi & Hl & Hz). repeat split; (done || lia).
    + intros (Hi & Hl & Hz). repeat split; (done || lia).
Qed.

End Setters.

End BandSchemaLaws.


(** * The theorems at concrete sources *)

Module RasterChecks.

Import Attrs BackGDALFileRaster Examples RasterProofs.

(** C1 at the 2 by 2 window of the example raster, bands 1 and 2. *)
Lemma round_trip_witness :
  exists b1 b2,
    @set_data on_grid_only raster two_bands inner_fp [IntId 1; IntId 2]
              "cv_area" None back = Return b1 /\
    @get_data on_grid_only raster inner_fp [IntId 1; IntId 2] 0 "cv_area" b1
    = Return (two_bands, b2).
Proof.
  apply (@set_data_get_data_round_trip on_grid_only raster inner_fp two_bands
           [IntId 1; IntId 2] "cv_area" "cv_area" 0 back file);
    try (vm_compute; reflexivity).
  apply (bool_decide_unpack _). vm_compute. exact I.
Defined.

(** C1 as first stated fails when a band is named twice: both channels go
    to band 1, the second over the first, and both come back as the second
    channel.  The footprint, the array and the file are those of the
    witness. *)
Lemma round_trip_repeated_band :
  contains raster_fp inner_fp = true /\
  array_ok two_bands (shape inner_fp) 2 = true /\
  set_then_get raster two_bands inner_fp [IntId 1; IntId 1] back
  = Return (mkArray uint8 (2, 2, 2)%nat [[[2; 2]; [4; 4]]; [[6; 6]; [8; 8]]]) /\
  mkArray uint8 (2, 2, 2)%nat [[[2; 2]; [4; 4]]; [[6; 6]; [8; 8]]] <> two_bands.
Proof.
  split; [reflexivity|]. split; [reflexivity|]. split; [vm_compute; reflexivity|].
  discriminate.
Qed.

(** C2 at a window west of the example raster, with [dst_nodata = 9]. *)
Lemma get_data_outside_witness :
  share_area raster_fp outer_fp = false /\
  @get_data on_grid_only raster outer_fp [IntId 1; IntId 2] 9 "cv_area" back
  = Return (mkArray uint8 (2, 3, 2)%nat (replicate 2 (replicate 3 [9; 9])), back).
Proof.
  split; [reflexivity|].
  exact (proj1 (proj2 (@get_data_outside on_grid_only raster outer_fp
                         [IntId 1; IntId 2] 9 "cv_area" back eq_refl))).
Defined.

(** C9 at the same window. *)
Lemma set_data_outside_witness :
  share_area outer_fp raster_fp = false /\
  @set_data on_grid_only raster two_bands outer_fp [IntId 1; IntId 2]
            "cv_area" None back = Return back.
Proof.
  split; [reflexivity|].
  exact (@set_data_outside on_grid_only raster two_bands outer_fp
           [IntId 1; IntId 2] "cv_area" None back eq_refl).
Defined.

(** C10 on the sampled path: a window that leaves the raster on its left. *)
Lemma get_data_shape_witness :
  exists a b',
    @get_data on_grid_only raster straddling_fp [IntId 1] 9 "cv_area" back
    = Return (a, b') /\
    dtype_of a = uint8 /\ shape_of a = (2, 3, 1)%nat /\ has_shape (data a) 2 3 1.
Proof.
  destruct (@get_data on_grid_only raster straddling_fp [IntId 1] 9 "cv_area" back)
    as [[a b']|e] eqn:E; [|vm_compute in E; discriminate E].
  exists a, b'. split; [reflexivity|].
  exact (@get_data_shape on_grid_only raster straddling_fp [IntId 1] 9 "cv_area"
           back a b' E).
Defined.

End RasterChecks.

Module DataSourceChecks.

Import DataSource RegistryExamples DataSourceProofs.

(** C3 at the example registry. *)
Lemma close_witness :
  exists self',
    call_close (registry Inf [1%nat]) = Return self' /\
    _ds_closed self' = true /\
    journal (_back self')
    = [StopScheduler; JoinAllPools; ProxyClose 1; ProxyClose 2; ProxyClose 3] /\
    call_close self' = Raise Closed.
Proof.
  destruct (close_then_closed (registry Inf [1%nat]) eq_refl eq_refl)
    as (self' & Hrun & Hflag & Hj & _ & _ & Hagain & _).
  exists self'. split; [exact Hrun|]. split; [exact Hflag|]. split; [exact Hj|].
  exact Hagain.
Defined.

(** C3 as first stated fails: the second [close()] raises, and after the
    first one [create_raster_recipe] and [len] still answer. *)
Lemma close_twice_fails :
  (let* s := call_close (registry Inf [1%nat]) in call_close s) = Raise Closed /\
  (let* s := call_close (registry Inf [1%nat]) in
   let* (r, _) := create_raster_recipe s any_call in Return r) = Return PyNone /\
  (let* s := call_close (registry Inf [1%nat]) in Return (__len__ s)) = Return 0%nat.
Proof. repeat split. Qed.

(** C4: mode 3 is built, and a fallback without [sr_work] is refused. *)
Lemma init_sr_mode_witness :
  (exists ds,
     @__init__ externals 1 (PyStr "EPSG:32632") (PyStr "WGS84") PyNone
               true false false (PyNum Inf) [] [] = Return ds /\
     _ds_closed ds = false /\ max_active (_back ds) = Inf /\ __len__ ds = 0%nat) /\
  @__init__ externals 1 PyNone (PyStr "WGS84") PyNone
            true false false (PyNum Inf) [] [] = Raise BadSrMode.
Proof.
  split.
  - exact (proj2 (@init_sr_mode externals 1 (PyStr "EPSG:32632") (PyStr "WGS84") PyNone
                    true false false (PyNum Inf) [] [] (PyStr "WGS84") PyNone
                    (PyNum Inf) [] [] eq_refl eq_refl eq_refl)
             eq_refl eq_refl Inf eq_refl eq_refl).
  - exact (proj1 (@init_sr_mode externals 1 PyNone (PyStr "WGS84") PyNone
                    true false false (PyNum Inf) [] [] (PyStr "WGS84") PyNone
                    (PyNum Inf) [] [] eq_refl eq_refl eq_refl) eq_refl).
Defined.


(** C8: with the two halves as cache tiling, the left half alone, which
    does not cover the footprint, passes as computation tiling. *)
Lemma computation_tiles_unchecked_witness :
  is_tiling_covering_fp left_half recipe_fp true true = false /\
  check_tilings recipe_fp (PyTiles halves) (PyTiles left_half)
  = Return (halves, left_half).
Proof.
  split; [reflexivity|].
  exact (proj1 (@computation_tiles_unchecked externals (registry Inf [])
                  (recipe_call (PyTiles halves) (PyTiles left_half))
                  recipe_fp uint8 PyNone None [] [] []
                  (PyStr "cpu", PyStr "cpu", PyStr "io", PyStr "cpu")
                  halves left_half
                  eq_refl eq_refl eq_refl eq_refl eq_refl eq_refl eq_refl)).
Defined.

(** C6: two pooled sources, of which the second is active: with room for
    two both end active, with room for one the call is refused. *)
Lemma activate_all_witness :
  (exists self',
     activate_all 9 (registry (Finite 2) [2%nat]) = Some (Return self') /\
     all_active (pooled_proxies self') (_back self') = true) /\
  activate_all 0 (registry (Finite 1) [2%nat]) = Some (Raise TooMany).
Proof.
  split.
  - destruct (proj2 (activate_all_spec (registry (Finite 2) [2%nat]) eq_refl)
                eq_refl 9%nat (le_n 9)) as (r & Hrun & Hpost).
    destruct r as [self'|e].
    + exists self'. split; [exact Hrun | exact (proj1 Hpost)].
    + exfalso. vm_compute in Hrun. discriminate Hrun.
  - exact (proj1 (activate_all_spec (registry (Finite 1) [2%nat]) eq_refl) eq_refl 0%nat).
Defined.

End DataSourceChecks.

(** * The laws at concrete sources *)

Module RasterLawChecks.

Import Attrs BackGDALFileRaster Examples LawExamples RasterProofs RasterLaws.

Ltac by_computation := try (vm_compute; reflexivity).
Ltac distinct := apply (bool_decide_unpack _); vm_compute; exact I.

(** X1 at the window that leaves the example raster on its left. *)
Lemma get_data_pointwise_witness :
  exists a b',
    @get_data on_grid_only raster straddling_fp [IntId 1] 9 "cv_area" back
    = Return (a, b') /\
    forall y x i id,
      (y < (shape straddling_fp).1)%nat -> (x < (shape straddling_fp).2)%nat ->
      [IntId 1] !! i = Some id ->
      get3 (data a) y x i
      = Some (default (cast (dtype raster) 9)
                (cell (cells file (ref_of id))
                      ((spatial_to_raster (fp raster) (tl straddling_fp)).2 + Z.of_nat y)
                      ((spatial_to_raster (fp raster) (tl straddling_fp)).1 + Z.of_nat x))).
Proof.
  apply (@get_data_pointwise on_grid_only raster straddling_fp [IntId 1] 9 "cv_area"
           back file true); by_computation.
Defined.

(** X2 at the same window. *)
Lemma get_data_reads_only_witness :
  exists a b',
    @get_data on_grid_only raster straddling_fp [IntId 1] 9 "cv_area" back
    = Return (a, b') /\
    (forall p, stored <$> files b' !! p = stored <$> files back !! p) /\
    max_active b' = max_active back /\
    (b' = back \/
     active b' = pool_insert (max_active back) (uid raster) (active back) /\
     journal b' = journal back ++ [Acquire (uid raster)]).
Proof.
  destruct (@get_data on_grid_only raster straddling_fp [IntId 1] 9 "cv_area" back)
    as [[a b']|e] eqn:E; [|vm_compute in E; discriminate E].
  exists a, b'. split; [reflexivity|].
  exact (@get_data_reads_only on_grid_only raster straddling_fp [IntId 1] 9 "cv_area"
           back a b' E).
Defined.

(** X3 at the same window, written to band 1. *)
Lemma set_data_writes_witness :
  exists b1 file',
    @set_data on_grid_only raster straddling_band straddling_fp [IntId 1] "cv_area"
              None back = Return b1 /\
    files b1 !! path raster = Some file' /\
    forall i id (y x : nat),
      [IntId 1] !! i = Some id ->
      (y < (shape straddling_fp).1)%nat -> (x < (shape straddling_fp).2)%nat ->
      0 <= (spatial_to_raster (fp raster) (tl straddling_fp)).2 + Z.of_nat y
        < rsizey (fp raster) ->
      0 <= (spatial_to_raster (fp raster) (tl straddling_fp)).1 + Z.of_nat x
        < rsizex (fp raster) ->
      cell (cells file' (ref_of id))
           ((spatial_to_raster (fp raster) (tl straddling_fp)).2 + Z.of_nat y)
           ((spatial_to_raster (fp raster) (tl straddling_fp)).1 + Z.of_nat x)
      = get3 (data (astype (dtype raster) straddling_band)) y x i /\
      is_Some (get3 (data (astype (dtype raster) straddling_band)) y x i).
Proof.
  apply (@set_data_writes on_grid_only raster straddling_fp straddling_band [IntId 1]
           "cv_area" back file); by_computation. distinct.
Defined.

(** X4 at the same window. *)
Lemma set_data_frame_witness :
  exists b1 file',
    @set_data on_grid_only raster straddling_band straddling_fp [IntId 1] "cv_area"
              None back = Return b1 /\
    files b1 !! path raster = Some file' /\
    (forall p, p <> path raster -> files b1 !! p = files back !! p) /\
    dataset_ok (rsizex (fp raster)) (rsizey (fp raster)) file' = true /\
    length (bands file') = length (bands file) /\
    (forall n, (forall id, id ∈ [IntId 1] -> ref_of id <> RasterBand n) ->
       cells file' (RasterBand n) = cells file (RasterBand n)) /\
    (forall n Y X,
       ~ ((spatial_to_raster (fp raster) (tl straddling_fp)).2 <= Y
            < (spatial_to_raster (fp raster) (tl straddling_fp)).2 + rsizey straddling_fp /\
          (spatial_to_raster (fp raster) (tl straddling_fp)).1 <= X
            < (spatial_to_raster (fp raster) (tl straddling_fp)).1 + rsizex straddling_fp) ->
       cell (cells file' (RasterBand n)) Y X = cell (cells file (RasterBand n)) Y X).
Proof.
  apply (@set_data_frame on_grid_only raster straddling_fp straddling_band [IntId 1]
           "cv_area" back file); by_computation. distinct.
Defined.

(** X5 at the same window: the column left of the raster reads as 9. *)
Lemma set_data_then_get_data_witness :
  exists b1 b2 r,
    @set_data on_grid_only raster straddling_band straddling_fp [IntId 1] "cv_area"
              None back = Return b1 /\
    @get_data on_grid_only raster straddling_fp [IntId 1] 9 "cv_area" b1
    = Return (r, b2) /\
    forall y x i : nat,
      (y < (shape straddling_fp).1)%nat -> (x < (shape straddling_fp).2)%nat ->
      (i < length [IntId 1])%nat ->
      get3 (data r) y x i
      = if decide (0 <= (spatial_to_raster (fp raster) (tl straddling_fp)).2 + Z.of_nat y
                     < rsizey (fp raster)
                   /\ 0 <= (spatial_to_raster (fp raster) (tl straddling_fp)).1 + Z.of_nat x
                     < rsizex (fp raster))
        then get3 (data (astype (dtype raster) straddling_band)) y x i
        else Some (cast (dtype raster) 9).
Proof.
  apply (@set_data_then_get_data on_grid_only raster straddling_fp straddling_band
           [IntId 1] "cv_area" "cv_area" 9 back file); by_computation. distinct.
Defined.

(** X6 at the same window, for two arrays. *)
Lemma set_data_overwrites_witness :
  exists b1 b12 b2 f12 f2,
    @set_data on_grid_only raster straddling_band straddling_fp [IntId 1] "cv_area"
              None back = Return b1 /\
    @set_data on_grid_only raster other_band straddling_fp [IntId 1] "cv_area"
              None b1 = Return b12 /\
    @set_data on_grid_only raster other_band straddling_fp [IntId 1] "cv_area"
              None back = Return b2 /\
    files b12 = <[path raster := f12]> (files back) /\
    files b2 = <[path raster := f2]> (files back) /\
    stored f12 = stored f2.
Proof.
  apply (@set_data_overwrites on_grid_only raster straddling_fp straddling_band other_band
           [IntId 1] "cv_area" "cv_area" back file); by_computation. distinct.
Defined.

(** X7: bands 1 and 2 filled with 300, which the dtype of the raster does
    not hold, read through the same window. *)
Lemma fill_then_get_data_witness :
  exists b1 b2 r,
    fill raster 300 [IntId 1; IntId 2] back = Return b1 /\
    @get_data on_grid_only raster straddling_fp [IntId 1; IntId 2] 9 "cv_area" b1
    = Return (r, b2) /\
    forall y x i : nat,
      (y < (shape straddling_fp).1)%nat -> (x < (shape straddling_fp).2)%nat ->
      (i < length [IntId 1; IntId 2])%nat ->
      get3 (data r) y x i
      = Some (if decide (0 <= (spatial_to_raster (fp raster) (tl straddling_fp)).2
                                + Z.of_nat y < rsizey (fp raster)
                         /\ 0 <= (spatial_to_raster (fp raster) (tl straddling_fp)).1
                                  + Z.of_nat x < rsizex (fp raster))
              then clamp (dtype raster) 300 else cast (dtype raster) 9).
Proof.
  apply (@fill_then_get_data on_grid_only raster 300 straddling_fp [IntId 1; IntId 2]
           9 "cv_area" back file); by_computation.
Defined.

(** X8 for band 2. *)
Lemma fill_frame_witness :
  exists b1 file',
    fill raster 5 [IntId 2] back = Return b1 /\
    files b1 !! path raster = Some file' /\
    (forall p, p <> path raster -> files b1 !! p = files back !! p) /\
    dataset_ok (rsizex (fp raster)) (rsizey (fp raster)) file' = true /\
    length (bands file') = length (bands file) /\
    forall n, (forall id, id ∈ [IntId 2] -> ref_of id <> RasterBand n) ->
      cells file' (RasterBand n) = cells file (RasterBand n).
Proof.
  apply (@fill_frame raster 5 [IntId 2] back file); by_computation.
Defined.

(** X9: the example file has no band 3. *)
Lemma missing_band_fails_witness :
  (exists msg,
     @get_data on_grid_only raster inner_fp [IntId 1; IntId 3] 9 "cv_area" back
     = Raise (AttributeError msg)) /\
  (exists msg,
     @set_data on_grid_only raster two_bands inner_fp [IntId 1; IntId 3] "cv_area"
               None back = Raise (AttributeError msg)) /\
  (exists msg,
     fill raster 5 [IntId 1; IntId 3] back = Raise (AttributeError msg)).
Proof.
  apply (@missing_band_fails on_grid_only raster inner_fp two_bands 5 [IntId 1; IntId 3]
           "cv_area" 9 back file); by_computation.
Defined.

(** X10: the same raster on a back whose file is gone. *)
Lemma missing_file_fails_witness :
  @get_data on_grid_only raster inner_fp [IntId 1] 9 "cv_area" no_file_back
  = Raise (ValueError "Could not open `{}` with `{}` (gdal error: `{}`)") /\
  @set_data on_grid_only raster two_bands inner_fp [IntId 1] "cv_area" None no_file_back
  = Raise (ValueError "Could not open `{}` with `{}` (gdal error: `{}`)") /\
  fill raster 5 [IntId 1] no_file_back
  = Raise (ValueError "Could not open `{}` with `{}` (gdal error: `{}`)").
Proof.
  apply (@missing_file_fails on_grid_only raster inner_fp two_bands 5 [IntId 1]
           "cv_area" 9 no_file_back true); by_computation.
Defined.

End RasterLawChecks.

Module ConcatLawChecks.

Import Concat ConcatExamples ConcatLaws.

(** X11 for the two rows of the square. *)
Lemma concat_partition_witness :
  exists arr,
    @_concat grid_slices square_fp rows uint8 = Return arr /\
    rows <> [] /\
    exists sl,
      Forall2 (fun (it : Footprint * ndarray) s =>
                 @slice_in grid_slices it.1 square_fp = Return s) rows sl /\
      covered_once (shape square_fp).1 (shape square_fp).2 sl = true.
Proof.
  destruct (@_concat grid_slices square_fp rows uint8) as [arr|e] eqn:E;
    [|vm_compute in E; discriminate E].
  exists arr. split; [reflexivity|].
  exact (@concat_partition grid_slices square_fp rows uint8 arr E).
Defined.

(** X12 for the same rows. *)
Lemma concat_values_witness :
  exists arr,
    @_concat grid_slices square_fp rows uint8 = Return arr /\
    dtype_of arr = uint8 /\ shape_of arr = (2, 2, 1)%nat /\
    has_shape (data arr) 2 2 1 /\
    forall k tile tile_arr s (y x i : nat),
      rows !! k = Some (tile, tile_arr) ->
      array_ok tile_arr (shape_of tile_arr).1 (shape_of tile_arr).2 = true ->
      @slice_in grid_slices tile square_fp = Return s ->
      in_region 2 2 s y x = true -> (i < 1)%nat ->
      exists v,
        broadcast_get tile_arr (y - clip_index 2 (istart s.1))
                               (x - clip_index 2 (istart s.2)) i = Some v /\
        get3 (data arr) y x i = Some (convert (dtype_of tile_arr) uint8 v).
Proof.
  destruct (@_concat grid_slices square_fp rows uint8) as [arr|e] eqn:E;
    [|vm_compute in E; discriminate E].
  exists arr. split; [reflexivity|].
  exact (@concat_values grid_slices square_fp rows uint8 arr E).
Defined.

(** X13 for the same rows. *)
Lemma concat_total_witness :
  exists arr, @_concat grid_slices square_fp rows uint8 = Return arr.
Proof.
  apply (@concat_total grid_slices square_fp top_row top_arr [(bottom_row, bottom_arr)]
           row_slices uint8); [|reflexivity].
  repeat constructor.
Defined.

End ConcatLawChecks.

Module RegistryLawChecks.

Import DataSource RegistryExamples EntryExamples RegistryLaws.

(** X14 for an array wrapped under a new key. *)
Lemma keyed_entry_registers_witness :
  exists prox self',
    @wrap_numpy_raster externals sources (registry Inf []) "rgb" (PyFootprint recipe_fp)
                       rgb PyNone PyNone "w" = Return (prox, self') /\
    registered_as (registry Inf []) self' "rgb" prox.
Proof.
  destruct (@wrap_numpy_raster externals sources (registry Inf []) "rgb"
              (PyFootprint recipe_fp) rgb PyNone PyNone "w")
    as [[prox self']|e] eqn:E; [|vm_compute in E; discriminate E].
  exists prox, self'. split; [reflexivity|].
  apply (@keyed_entry_registers externals sources (registry Inf []) self' prox "rgb"
           "/data/rgb.tif" "GTiff" [] "w" (PyFootprint recipe_fp) (PyStr "uint8") 3
           PyNone PyNone rgb tight_call).
  right. right. left. exact E.
Defined.

(** X15 for an array wrapped under no key. *)
Lemma anonymous_entry_registers_witness :
  exists prox self',
    @awrap_numpy_raster externals sources (registry Inf []) (PyFootprint recipe_fp)
                        rgb PyNone PyNone "w" = Return (prox, self') /\
    registered_anonymously (registry Inf []) self' prox.
Proof.
  destruct (@awrap_numpy_raster externals sources (registry Inf [])
              (PyFootprint recipe_fp) rgb PyNone PyNone "w")
    as [[prox self']|e] eqn:E; [|vm_compute in E; discriminate E].
  exists prox, self'. split; [reflexivity|].
  apply (@anonymous_entry_registers externals sources (registry Inf []) self' prox
           "/data/rgb.tif" "GTiff" [] "w" (PyFootprint recipe_fp) (PyStr "uint8") 3
           PyNone PyNone rgb).
  right. right. exact E.
Defined.

(** X16 for the key of the first source of the example registry. *)
Lemma taken_key_rejected_witness :
  @open_raster sources (registry Inf []) "dem" "/data/rgb.tif" "GTiff" [] "w"
  = Raise DuplicateKey /\
  @create_raster externals sources (registry Inf []) "dem" "/data/rgb.tif"
                 (PyFootprint recipe_fp) (PyStr "uint8") 3 PyNone "GTiff" [] PyNone
  = Raise DuplicateKey /\
  @wrap_numpy_raster externals sources (registry Inf []) "dem" (PyFootprint recipe_fp)
                     rgb PyNone PyNone "w" = Raise DuplicateKey.
Proof.
  destruct (@taken_key_rejected externals sources (registry Inf []) "dem"
              "/data/rgb.tif" "GTiff" [] "w" (PyFootprint recipe_fp) (PyStr "uint8") 3
              PyNone PyNone rgb tight_call) as (Ho & Hc & Hw & _).
  - discriminate.
  - reflexivity.
  - split; [exact Ho|]. split; [exact Hc | exact Hw].
Defined.

(** X17 for the driver name in capitals. *)
Lemma mem_driver_witness :
  @open_raster sources (registry Inf []) "rgb" "/data/rgb.tif" "MEM" [] "r"
  = Raise (ValueError "Can't open a MEM raster, user create_raster") /\
  @aopen_raster sources (registry Inf []) "/data/rgb.tif" "MEM" [] "r"
  = Raise (ValueError "Can't open a MEM raster, user acreate_raster") /\
  @create_raster externals sources (registry Inf []) "rgb" "/data/rgb.tif"
                 (PyFootprint recipe_fp) (PyStr "uint8") 3 PyNone "MEM" [] PyNone
  = @create_raster externals sources (registry Inf []) "rgb" ""
                   (PyFootprint recipe_fp) (PyStr "uint8") 3 PyNone "MEM" [] PyNone.
Proof.
  destruct (@mem_driver externals sources (registry Inf []) "rgb" "/data/rgb.tif" ""
              "MEM" [] "r" (PyFootprint recipe_fp) (PyStr "uint8") 3 PyNone PyNone
              eq_refl) as (Ho & Ha & Hc & _).
  split; [exact (Ho eq_refl eq_refl)|]. split; [exact (Ha eq_refl) | exact Hc].
Defined.

(** X18 for an array with a single axis. *)
Lemma wrap_numpy_raster_shape_witness :
  @wrap_numpy_raster externals sources (registry Inf []) "flat" (PyFootprint recipe_fp)
                     flat PyNone PyNone "w"
  = Raise (ValueError "Incompatible shape between `array` and `fp`").
Proof.
  pose proof (@wrap_numpy_raster_shape externals sources (registry Inf []) "flat"
                recipe_fp flat PyNone PyNone "w" eq_refl) as Hs.
  cbv zeta in Hs. destruct Hs as (_ & Hbad & _). apply Hbad. discriminate.
Defined.

(** X19: a DataSource that [__init__] refused for its references, and one
    that it built. *)
Lemma del_closes_witness :
  (exists msg,
     __del__ (constructed (@__init__ externals 1 PyNone (PyStr "WGS84") PyNone
                             true false false (PyNum Inf) [] []))
     = Raise (AttributeError msg)) /\
  (exists self',
     __del__ (constructed (@__init__ externals 1 (PyStr "EPSG:32632") (PyStr "WGS84")
                             PyNone true false false (PyNum Inf) [] []))
     = Return self' /\ _ds_closed self' = true) /\
  (exists self',
     __del__ (Built (registry Inf [1%nat])) = Return self' /\ _ds_closed self' = true /\
     __del__ (Built self') = Return self').
Proof.
  split; [|split].
  - exact (proj1 (@del_closes externals 1 PyNone (PyStr "WGS84") PyNone
                    true false false (PyNum Inf) [] []) BadSrMode eq_refl).
  - destruct (@__init__ externals 1 (PyStr "EPSG:32632") (PyStr "WGS84") PyNone
                true false false (PyNum Inf) [] []) as [ds|e] eqn:E;
      [|vm_compute in E; discriminate E].
    pose proof (proj1 (proj2 (@del_closes externals 1 (PyStr "EPSG:32632")
                                (PyStr "WGS84") PyNone true false false (PyNum Inf)
                                [] [])) ds) as Hd.
    cbv zeta in Hd. rewrite E in Hd. exact (Hd eq_refl).
  - destruct (proj2 (proj2 (@del_closes externals 1 PyNone PyNone PyNone
                              true false false (PyNum Inf) [] []))
                (registry Inf [1%nat])) as (self' & Hrun & Hc & Hagain & _).
    exists self'. split; [exact Hrun|]. split; [exact Hc | exact Hagain].
Defined.

(** X20: with the two file sources alone the pool is emptied of them; with
    the array source in the registry the call fails. *)
Lemma deactivate_all_witness :
  (exists self',
     deactivate_all (file_registry Inf [2; 7; 1]%nat) = Return self' /\
     active (_back self') = [7%nat] /\
     deactivate_all self' = Return self') /\
  (exists msg,
     deactivate_all (registry Inf [2; 1]%nat) = Raise (AttributeError msg)).
Proof.
  split.
  - destruct (proj1 (deactivate_all_spec (file_registry Inf [2; 7; 1]%nat)) eq_refl)
      as (self' & Hrun & Hact & _ & _ & _ & _ & _ & Hagain).
    exists self'. split; [exact Hrun|]. split; [|exact Hagain].
    rewrite Hact. vm_compute. reflexivity.
  - exact (proj2 (deactivate_all_spec (registry Inf [2; 1]%nat)) eq_refl).
Defined.

(** X21 for a resampling size of one. *)
Lemma recipe_resampling_size_witness :
  @create_cached_raster_recipe externals (registry Inf []) tight_call
  = Raise (ValueError "`max_resampling_size` should be >0").
Proof.
  destruct (@recipe_resampling_size externals (registry Inf []) tight_call
              recipe_fp uint8 PyNone None [] [] []
              (PyStr "cpu", PyStr "cpu", PyStr "io", PyStr "cpu") (halves, halves)
              eq_refl eq_refl eq_refl eq_refl eq_refl) as [Hlow _].
  exact (Hlow 1 eq_refl (Z.le_refl 1)).
Defined.

(** X22 for two pooled sources, of which the second is active. *)
Lemma activate_all_count_witness :
  exists self',
    activate_all 9 (registry (Finite 2) [2%nat]) = Some (Return self') /\
    active_count self' = length (pooled_proxies (registry (Finite 2) [2%nat])) /\
    lt_number (max_active (_back self')) (Finite (Z.of_nat (active_count self'))) = false /\
    pool_consistent self' = true.
Proof.
  destruct (activate_all 9 (registry (Finite 2) [2%nat])) as [[self'|e]|] eqn:E;
    [|vm_compute in E; discriminate E..].
  exists self'. split; [reflexivity|].
  exact (activate_all_count 9 (registry (Finite 2) [2%nat]) self' eq_refl E).
Defined.

(** X23 for the same registry. *)
Lemma activate_all_idempotent_witness :
  exists self',
    activate_all 9 (registry (Finite 2) [2%nat]) = Some (Return self') /\
    activate_all 3 self' = Some (Return self').
Proof.
  destruct (activate_all 9 (registry (Finite 2) [2%nat])) as [[self'|e]|] eqn:E;
    [|vm_compute in E; discriminate E..].
  exists self'. split; [reflexivity|].
  apply (activate_all_idempotent 9 3 (registry (Finite 2) [2%nat]) self' eq_refl E).
  vm_compute. lia.
Defined.

(** X27 for a registry built with a work and a fallback reference. *)
Lemma init_invariant_witness :
  exists ds,
    @__init__ externals 1 (PyStr "EPSG:32632") (PyStr "WGS84") PyNone
              true false false (PyNum Inf) [] [] = Return ds /\
    legal_sr_mode (bool_decide (is_Some (wkt_work (_back ds))),
                   bool_decide (is_Some (wkt_fallback (_back ds))),
                   bool_decide (is_Some (wkt_forced (_back ds)))) = true /\
    lt_number (max_active (_back ds)) (Finite 1) = false /\
    _ds_closed ds = false /\ __len__ ds = 0%nat /\ active_count ds = 0%nat /\
    files (_back ds) = ∅ /\ ds_id (_back ds) = 1%nat /\
    pool_consistent ds = true /\ registry_consistent ds = true.
Proof.
  destruct (@__init__ externals 1 (PyStr "EPSG:32632") (PyStr "WGS84") PyNone
              true false false (PyNum Inf) [] []) as [ds|e] eqn:E;
    [|vm_compute in E; discriminate E].
  exists ds. split; [reflexivity|].
  exact (@init_invariant externals 1 (PyStr "EPSG:32632") (PyStr "WGS84") PyNone
           true false false (PyNum Inf) [] [] ds E).
Defined.

(** X28 for the example recipe over its two halves. *)
Lemma recipe_args_validated_witness :
  exists prox self' args,
    @create_cached_raster_recipe externals (registry Inf [])
       (recipe_call (PyTiles halves) PyNone) = Return (prox, self') /\
    @CachedRasterRecipe externals (registry Inf []) args = Return prox /\
    0 < r_band_count args /\
    callable (r_compute_array args) = true /\
    callable (r_merge_arrays args) = true /\
    r_computation_tiles args = r_cache_tiles args.
Proof.
  destruct (@create_cached_raster_recipe externals (registry Inf [])
              (recipe_call (PyTiles halves) PyNone)) as [[prox self']|e] eqn:E;
    [|vm_compute in E; discriminate E].
  destruct (@recipe_args_validated externals (registry Inf [])
              (recipe_call (PyTiles halves) PyNone) prox self' E)
    as (args & Hargs & Hbc & Hca & Hma & _ & _ & _ & _ & _ & Htiles).
  exists prox, self', args. split; [reflexivity|]. split; [exact Hargs|].
  split; [exact Hbc|]. split; [exact Hca|]. split; [exact Hma|]. exact (Htiles eq_refl).
Defined.

End RegistryLawChecks.

Module BandSchemaChecks.

Import BandSchema BandSchemaExamples BandSchemaLaws.

(** X24 for a file of two bands, with a nodata value for the first one,
    on a driver that keeps one nodata value for the dataset. *)
Lemma band_schema_round_trip_witness :
  exists ds',
    _apply_band_schema 2 two_band_file
      (mkSchema (Some [Some 255; None]) (Some [3; 0]) (Some [10; 20]) (Some [1; 2])
                (Some [2; 2])) = Return ds' /\
    nodata_calls ds' = [(1%nat, 255)] /\
    stored_interpretation
      (_band_schema_of_gdal_ds gci_name gmf_name shared_nodata flags_of ds')
    = ["redband"; "undefined"]%string /\
    stored_offset (_band_schema_of_gdal_ds gci_name gmf_name shared_nodata flags_of ds')
    = [10; 20] /\
    stored_scale (_band_schema_of_gdal_ds gci_name gmf_name shared_nodata flags_of ds')
    = [1; 2].
Proof.
  destruct (band_schema_round_trip 2 gci_name gmf_name shared_nodata flags_of
              two_band_file [Some 255; None] [3; 0] [10; 20] [1; 2] (Some [2; 2])
              eq_refl eq_refl eq_refl eq_refl (le_n 2))
    as (ds' & Hrun & Hnd & _ & Hin & Hoff & Hsc).
  exists ds'. split; [exact Hrun|]. split; [exact Hnd|]. split; [exact Hin|].
  split; [exact Hoff | exact Hsc].
Defined.

(** X25 for one shared mask and one mask of the second band. *)
Lemma band_schema_masks_witness :
  exists ds',
    _apply_band_schema 2 two_band_file (mkSchema None None None None (Some [2; 8]))
    = Return ds' /\
    meta_bands ds' = meta_bands two_band_file /\
    mask_calls ds'
    = mask_calls two_band_file ++ dataset_mask 2 [2; 8] ++ own_masks 2 0 [2; 8] /\
    (length (dataset_mask 2%Z [2%Z; 8%Z]) <= 1)%nat.
Proof.
  destruct (band_schema_masks 2 two_band_file [2; 8] (le_n 2))
    as (ds' & Hrun & Hb & Hc & Hone & _).
  exists ds'. split; [exact Hrun|]. split; [exact Hb|]. split; [exact Hc | exact Hone].
Defined.

End BandSchemaChecks.
